(** * hotsos.core.ycheck.engine.properties.common

    A shallow embedding of the property layer of the ycheck engine
    (src/hotsos/core/ycheck/engine/properties/common.py): the property
    cache, the cache reference resolver, the dynamic import helpers of
    YPropertyBase and the logical collection handler, with the properties
    of the specification stated and proved over them. *)

From stdpp Require Import gmap strings list fin_maps.
From Stdlib Require Import ZArith.

Set Warnings "-register-all".
Local Open Scope string_scope.

(** ** Python values and exceptions *)

Module Py.

(** The Python objects the module handles.  A dict is a finite map with
    string keys; [VObject] is any other object (a class, an instance, a
    module, a function), known by its identity and by its truth value;
    [VCache] is a PropertyCache instance of the given concrete class. *)
Inductive value : Type :=
| VNone
| VBool (b : bool)
| VInt (z : Z)
| VStr (s : string)
| VList (l : list value)
| VDict (d : gmap string value)
| VObject (id : nat) (truth : bool)
| VCache (cls : string) (data : gmap string value).

(** [bool(v)], as tested by [if v:]. *)
Definition truthy (v : value) : bool :=
  match v with
  | VNone => false
  | VBool b => b
  | VInt z => negb (z =? 0)%Z
  | VStr s => negb (String.eqb s "")
  | VList l => match l with [] => false | _ => true end
  | VDict d => negb (bool_decide (d = ∅))
  | VObject _ t => t
  | VCache _ _ => true
  end.

(** [type(v) == dict]. *)
Definition type_is_dict (v : value) : bool :=
  match v with VDict _ => true | _ => false end.

(** [v is None]. *)
Definition is_None (v : value) : bool :=
  match v with VNone => true | _ => false end.

(** [d.get(key)]: the entry, or None. *)
Definition dict_get (d : gmap string value) (key : string) : value :=
  default VNone (d !! key).

(** [d.update(other)]: the entries of [other] are written over [d]. *)
Definition dict_update (d other : gmap string value) : gmap string value :=
  other ∪ d.

(** [all(results)] and [any(results)]. *)
Definition all (results : list value) : bool := forallb truthy results.
Definition any (results : list value) : bool := existsb truthy results.

(** The exception classes the module raises or tells apart. *)
Inductive exc_class : Type :=
| Exception
| NotImplementedError
| AttributeError
| ImportError
| ModuleNotFoundError
| KeyError
| TypeError
| ValueError
| OtherError (name : string).

Inductive exception : Type :=
| Exc (cls : exc_class) (msg : string).

Definition exc_type (e : exception) : exc_class :=
  match e with Exc c _ => c end.

(** [isinstance(e, ImportError)]: ModuleNotFoundError derives from
    ImportError. *)
Definition is_import_error (e : exception) : bool :=
  match exc_type e with
  | ImportError | ModuleNotFoundError => true
  | _ => false
  end.

(** The outcome of a call: a returned value or a raised exception. *)
Inductive result (A : Type) : Type :=
| Ok (a : A)
| Raise (e : exception).
Arguments Ok {A} a.
Arguments Raise {A} e.

#[global] Instance result_ret : MRet result := @Ok.
#[global] Instance result_bind : MBind result := fun A B f m =>
  match m with Ok a => f a | Raise e => Raise e end.

Definition is_Ok {A} (r : result A) : bool :=
  match r with Ok _ => true | Raise _ => false end.

(** Stateful calls: the state is threaded through, and an exception leaves
    the state as it was when it was raised. *)
Definition M (S A : Type) : Type := S → result A * S.

#[global] Instance M_ret {S} : MRet (M S) := fun A a s => (Ok a, s).
#[global] Instance M_bind {S} : MBind (M S) := fun A B f m s =>
  match m s with
  | (Ok a, s') => f a s'
  | (Raise e, s') => (Raise e, s')
  end.

(** [raise e]. *)
Definition raise {S A} (e : exception) : M S A := fun s => (Raise e, s).

(** [try: body except Exception as e: handler(e)]. *)
Definition try_except {S A} (body : M S A) (handler : exception → M S A)
  : M S A := fun s =>
  match body s with
  | (Ok a, s') => (Ok a, s')
  | (Raise e, s') => handler e s'
  end.

(** *** str methods *)

(** [s.startswith(prefix)]. *)
Definition startswith (s prefix : string) : bool := String.prefix prefix s.

(** The text of [s] from position [n] on. *)
Definition drop_str (n : nat) (s : string) : string :=
  String.substring n (String.length s - n) s.

(** [s.partition(sep)], for a non-empty [sep]: split at the first
    occurrence, or [(s, '', '')]. *)
Definition partition (s sep : string) : string * string * string :=
  match String.index 0 sep s with
  | Some n => (String.substring 0 n s, sep, drop_str (n + String.length sep) s)
  | None => (s, "", "")
  end.

(** The start of the last occurrence of [sep] in [s]. *)
Fixpoint rindex (sep s : string) : option nat :=
  match s with
  | EmptyString => None
  | String _ s' =>
      match rindex sep s' with
      | Some n => Some (S n)
      | None => if String.prefix sep s then Some 0 else None
      end
  end.

(** [s.rpartition(sep)], for a non-empty [sep]: split at the last
    occurrence, or [('', '', s)]. *)
Definition rpartition (s sep : string) : string * string * string :=
  match rindex sep s with
  | Some n => (String.substring 0 n s, sep, drop_str (n + String.length sep) s)
  | None => ("", "", s)
  end.

(** The items of a 3-tuple: [t[0]] and [t[2]]. *)
Definition item0 {A B C} (t : A * B * C) : A := t.1.1.
Definition item2 {A B C} (t : A * B * C) : C := t.2.

(** The parts of the Python runtime that the module calls and that are
    outside it: the functions of [builtins], [str.join], attribute access
    on objects other than a PropertyCache, and [str()] as used by
    [format]. *)
Record python : Type := {
  builtins_call : string → value → result value;
  str_join : string → value → result value;
  object_getattr : value → string → result value;
  str_ : value → string;
}.

(** ["{}".format(v)]. *)
Definition format1 (py : python) (v : value) : string :=
  match v with VStr s => s | _ => str_ py v end.

End Py.
Import Py.

(** ** PropertyCache *)

Module PropertyCache.

(** A cache instance: its concrete class ([self.__class__]) and its
    [_property_cache_data] dict. *)
Record t : Type := mk {
  __class__ : string;
  _property_cache_data : gmap string value;
}.

(** The cache as a Python object, as it is when stored in another cache or
    handed to [merge]. *)
Definition to_value (self : t) : value :=
  VCache (__class__ self) (_property_cache_data self).

(** [PropertyCache()]. *)
Definition __init__ (cls : string) : t := mk cls ∅.

(** The [data] property. *)
Definition data (self : t) : gmap string value := _property_cache_data self.

(** [merge]: a cache of another type is refused (an error is logged) and
    [self] is left as it is; otherwise [dict.update] writes the entries of
    [cache.data] over those of [self]. *)
Definition merge (self : t) (cache : value) : t :=
  match cache with
  | VCache cls other =>
      if negb (String.eqb cls (__class__ self)) then self
      else mk (__class__ self) (dict_update (_property_cache_data self) other)
  | _ => self
  end.

(** [set]: a dict is merged into a current non-empty dict, anything else
    replaces the entry. *)
Definition set (self : t) (key : string) (data : value) : t :=
  let _current := dict_get (_property_cache_data self) key in
  match _current, data with
  | VDict cur, VDict new =>
      if truthy _current
      then mk (__class__ self)
              (<[key := VDict (dict_update cur new)]> (_property_cache_data self))
      else mk (__class__ self) (<[key := data]> (_property_cache_data self))
  | _, _ => mk (__class__ self) (<[key := data]> (_property_cache_data self))
  end.

(** [__getattr__], the hook Python calls for an attribute name that the
    ordinary lookup does not find, which is how a cache key is read:
    the entry when [key in self.data], else the function falls off its end
    and None is returned. *)
Definition __getattr__ (self : t) (key : string) : value :=
  match data self !! key with
  | Some v => v
  | None => VNone
  end.

(** The names that the ordinary attribute lookup finds on a cache because
    the class says so: the methods and properties of the class body and the
    attribute that [__init__] creates. *)
Definition own_names : list string :=
  ["_property_cache_data"; "__init__"; "merge"; "id"; "set"; "data";
   "__getattr__"].

(** [getattr(self, key)]: the ordinary lookup comes first. The attribute
    [_property_cache_data] and the [data] property are the dict; the other
    names of the class (bound methods, [id]) are objects the runtime
    builds; for every other name the runtime says whether each object has
    it ([__class__], [__dict__], ...), and only when that lookup raises
    AttributeError is the [__getattr__] hook called. *)
Definition getattr (py : python) (self : t) (key : string) : result value :=
  if String.eqb key "_property_cache_data" || String.eqb key "data" then
    Ok (VDict (data self))
  else if existsb (String.eqb key) own_names then
    object_getattr py (to_value self) key
  else
    match object_getattr py (to_value self) key with
    | Ok v => Ok v
    | Raise e =>
        match exc_type e with
        | AttributeError => Ok (__getattr__ self key)
        | _ => Raise e
        end
    end.

End PropertyCache.

(** ** YDefsContext *)

Module YDefsContext.

(** The context of a run is its [_ydefs_context] dict. *)
Abbreviation t := (gmap string value).

(** [YDefsContext(initial_state)], for a dict or None:
    [initial_state or {}]. *)
Definition __init__ (initial_state : value) : t :=
  match initial_state with
  | VDict d => d
  | _ => ∅
  end.

(** [__setattr__]: a key other than ['_ydefs_context'] is written into the
    dict (the assignment is logged); ['_ydefs_context'] names the attribute
    that holds the dict, which [super().__setattr__] replaces by the
    value. A value that is no dict leaves the contexts this type
    describes: None. *)
Definition __setattr__ (self : t) (key : string) (v : value) : option t :=
  if negb (String.eqb key "_ydefs_context") then Some (<[key := v]> self)
  else
    match v with
    | VDict d => Some d
    | _ => None
    end.

(** [__getattr__]: [self._ydefs_context.get(key)]. *)
Definition __getattr__ (self : t) (key : string) : value :=
  dict_get self key.

End YDefsContext.

(** ** PropertyCacheRefResolver *)

Module PropertyCacheRefResolver.

(** A check, as the resolver sees it: an object with a [cache]. *)
Record check : Type := { cache : PropertyCache.t }.

(** A resolver: the reference string, the variables object (known by its
    [resolve] method) and the checks dict, the last two optional. *)
Record t : Type := mk {
  refstr : string;
  vars : option (string → result value);
  checks : option (gmap string check);
}.

(** [is_valid_cache_ref]: a str whose first character is [@] or [$]. *)
Definition is_valid_cache_ref (refstr : value) : bool :=
  match refstr with
  | VStr s =>
      if negb (startswith s "@" || startswith s "$") then false else true
  | _ => false
  end.

(** The [reftype] property. *)
Definition reftype (self : t) : result string :=
  if startswith (refstr self) "$" then Ok "variable"
  else if startswith (refstr self) "@checks." then Ok "checks"
  else Raise (Exc Exception "unknown ref type").

(** [PropertyCacheRefResolver(refstr, vars, checks)]. *)
Definition __init__ (py : python) (refstr : value)
    (vars : option (string → result value))
    (checks : option (gmap string check)) : result t :=
  if negb (is_valid_cache_ref refstr) then
    Raise (Exc Exception
             (format1 py refstr ++
              " is not a valid property cache reference or variable"))
  else
    let self := mk (format1 py refstr) vars checks in
    rt ← reftype self;
    if String.eqb rt "checks" && bool_decide (checks = None) then
      Raise (Exc Exception
               (format1 py refstr ++
                " is a checks cache reference but checks dict not provided"))
    else Ok self.

(** The [check_name] property. *)
Definition check_name (self : t) : result string :=
  rt ← reftype self;
  if negb (String.eqb rt "checks") then
    Raise (Exc Exception "ref does not have type 'checks'")
  else Ok (item0 (partition (item2 (partition (refstr self) "@checks.")) ".")).

(** The [_ref_body] property: the reference without its prefix. *)
Definition _ref_body (self : t) : result string :=
  rt ← reftype self;
  prefix ← (if String.eqb rt "variable" then Ok "$"
            else cn ← check_name self; Ok ("@checks." ++ cn ++ "."));
  Ok (item2 (partition (refstr self) prefix)).

(** The [property_name] property (None for a variable reference). *)
Definition property_name (self : t) : result (option string) :=
  rt ← reftype self;
  if String.eqb rt "checks" then
    body ← _ref_body self; Ok (Some (item0 (partition body ".")))
  else Ok None.

(** The [property_cache_key] property. *)
Definition property_cache_key (self : t) : result string :=
  rt ← reftype self;
  _key ← (if String.eqb rt "checks" then
            body ← _ref_body self; Ok (item2 (partition body "."))
          else Raise (Exc Exception "not a check reftype"));
  Ok (item0 (partition _key ":")).

(** The [property_cache_value_renderer_function] property. *)
Definition property_cache_value_renderer_function (self : t) : result string :=
  rt ← reftype self;
  _key ← (if String.eqb rt "checks" then
            body ← _ref_body self; Ok (item2 (partition body "."))
          else _ref_body self);
  Ok (item2 (partition _key ":")).

(** [apply_renderer_function]. *)
Definition apply_renderer_function (py : python) (self : t) (v : value)
  : result value :=
  func ← property_cache_value_renderer_function self;
  if truthy (VStr func) then
    if String.eqb func "comma_join" then str_join py ", " v
    else builtins_call py func v
  else Ok v.

(** [getattr(o, key)]: a PropertyCache answers as [PropertyCache.getattr]
    says, every other object (None too) as the runtime says. *)
Definition getattr (py : python) (o : value) (key : string) : result value :=
  match o with
  | VCache cls d => PropertyCache.getattr py (PropertyCache.mk cls d) key
  | _ => object_getattr py o key
  end.

(** The first half of [resolve]: the value the reference names. *)
Definition lookup (py : python) (self : t) : result value :=
  rt ← reftype self;
  if String.eqb rt "checks" then
    match checks self with
    | None => Raise (Exc TypeError "'NoneType' object is not subscriptable")
    | Some cs =>
        cn ← check_name self;
        match cs !! cn with
        | None => Raise (Exc KeyError cn)
        | Some chk =>
            let check_cache := cache chk in
            pn ← property_name self;
            match pn with
            | None => Raise (Exc TypeError "attribute name must be string")
            | Some pn =>
                property_cache ← PropertyCache.getattr py check_cache pn;
                key ← property_cache_key self;
                getattr py property_cache key
            end
        end
    end
  else
    let varname := item2 (partition (refstr self) "$") in
    let varname := item0 (partition varname ":") in
    match vars self with
    | None => Raise (Exc AttributeError "resolve")
    | Some resolve => resolve varname
    end.

(** [resolve]. *)
Definition resolve (py : python) (self : t) : result value :=
  val ← lookup py self;
  if is_None val then Ok VNone
  else apply_renderer_function py self val.

End PropertyCacheRefResolver.

(** ** YPropertyBase: dynamic imports *)

Module YPropertyBase.

(** The interpreter behind the dynamic imports, over its own state [W]
    (loaded modules, heap): [importlib.import_module], attribute access,
    calling an object with no argument, and [str()]. *)
Record interpreter (W : Type) : Type := {
  import_module : string → M W value;
  getattr : value → string → M W value;
  call : value → M W value;
  str : value → string;
}.
Arguments import_module {W} _ _ _.
Arguments getattr {W} _ _ _ _.
Arguments call {W} _ _ _.
Arguments str {W} _ _.

(** The state a property works in: its [context] (None when the property
    has none) and the interpreter's state. *)
Record state (W : Type) : Type := mk {
  context : option YDefsContext.t;
  world : W;
}.
Arguments mk {W} _ _.
Arguments context {W} _.
Arguments world {W} _.

Section Imports.
Context {W : Type} (py : interpreter W).

(** A call of the interpreter, run on the [world] of the state. *)
Definition run {A} (f : M W A) : M (state W) A := fun st =>
  let (r, w) := f (world st) in (r, mk (context st) w).

(** [c.get(key)] on the object found as import cache. *)
Definition cache_get (c : value) (key : string) : result value :=
  match c with
  | VDict d => Ok (dict_get d key)
  | VCache _ _ => Raise (Exc TypeError "'NoneType' object is not callable")
  | _ => Raise (Exc AttributeError "get")
  end.

(** [c[key] = value] on the object found as import cache. *)
Definition cache_setitem (c : value) (key : string) (v : value)
  : result value :=
  match c with
  | VDict d => Ok (VDict (<[key := v]> d))
  | _ => Raise (Exc TypeError "object does not support item assignment")
  end.

(** [_load_from_import_cache]. *)
Definition _load_from_import_cache (key : string) : M (state W) value :=
  fun st =>
  match context st with
  | None => (Ok VNone, st)
  | Some ctx =>
      let c := YDefsContext.__getattr__ ctx "import_cache" in
      if truthy c then (cache_get c key, st) else (Ok VNone, st)
  end.

(** [_add_to_import_cache]. The key ['import_cache'] is one that
    [YDefsContext.__setattr__] writes into the dict, so the context is
    always there after it. *)
Definition _add_to_import_cache (key : string) (v : value)
  : M (state W) unit := fun st =>
  match context st with
  | None => (Ok (), st)
  | Some ctx =>
      let c := YDefsContext.__getattr__ ctx "import_cache" in
      if truthy c then
        match cache_setitem c key v with
        | Ok c' =>
            (Ok (), mk (Some (<["import_cache" := c']> ctx)) (world st))
        | Raise e => (Raise e, st)
        end
      else
        let c := VDict {[ key := v ]} in
        match YDefsContext.__setattr__ ctx "import_cache" c with
        | Some ctx' => (Ok (), mk (Some ctx') (world st))
        | None => (Ok (), st)
        end
  end.

(** [getattr(importlib.import_module(mod), name)]. *)
Definition import_attr (mod_ name : string) : M (state W) value :=
  m ← run (import_module py mod_); run (getattr py m name).

(** [get_cls]. *)
Definition get_cls (import_str : string) : M (state W) value :=
  ret ← _load_from_import_cache import_str;
  if truthy ret then mret ret
  else
    let mod_ := item0 (rpartition import_str ".") in
    let class_name := item2 (rpartition import_str ".") in
    ret ← try_except (import_attr mod_ class_name) (fun e => raise e);
    _add_to_import_cache import_str ret;;
    mret ret.

(** [get_property]. *)
Definition get_property (import_str : string) : M (state W) value :=
  ret ← _load_from_import_cache import_str;
  if truthy ret then mret ret
  else
    cls ← get_cls (item0 (rpartition import_str "."));
    let key := str py cls ++ ".object" in
    cls_inst ← _load_from_import_cache key;
    cls_inst ← (if negb (truthy cls_inst) then
                  cls_inst ← run (call py cls);
                  _add_to_import_cache key cls_inst;;
                  mret cls_inst
                else mret cls_inst);
    let property := item2 (rpartition import_str ".") in
    ret ← try_except (run (getattr py cls_inst property)) (fun e => raise e);
    _add_to_import_cache import_str ret;;
    mret ret.

(** [get_method]. *)
Definition get_method (import_str : string) : M (state W) value :=
  let mod_ := item0 (rpartition import_str ".") in
  let property := item2 (rpartition import_str ".") in
  let class_name := item2 (rpartition mod_ ".") in
  let mod_ := item0 (rpartition mod_ ".") in
  cls ← import_attr mod_ class_name;
  ret ← try_except
          (inst ← run (call py cls);
           meth ← run (getattr py inst property);
           run (call py meth))
          (fun e => raise e);
  mret ret.

(** [get_attribute]: an AttributeError leaves as an ImportError. *)
Definition get_attribute (import_str : string) : M (state W) value :=
  let mod_ := item0 (rpartition import_str ".") in
  let attr := item2 (rpartition import_str ".") in
  ret ← try_except (import_attr mod_ attr)
          (fun exc =>
             match exc_type exc with
             | AttributeError => raise (Exc ImportError "")
             | _ => raise exc
             end);
  mret ret.

(** [get_import]: a class property first, then a module attribute. *)
Definition get_import (import_str : string) : M (state W) value :=
  try_except (get_property import_str)
             (fun _ => get_attribute import_str).

End Imports.

End YPropertyBase.

(** ** LogicalCollectionHandler *)

Module LogicalCollectionHandler.

Definition VALID_GROUP_KEYS : list string :=
  ["and"; "or"; "nand"; "nor"; "xor"; "not"].

Definition FINAL_RESULT_OP : string := "and".

(** [name in names]. *)
Definition name_in (name : string) (names : list string) : bool :=
  existsb (String.eqb name) names.

(** The abstract class over the state [St] of a run, the entries [E] of the
    groups and the ungrouped nodes [N]: [run_single] is the abstract
    method, [get_item_result_callback] the optional one (raising
    NotImplementedError when it is not overridden), [call_entry] is
    [entry()] and [node_name] the [_override_name] of an ungrouped node. *)
Class handler (St E N : Type) : Type := {
  run_single : N → M St (list value);
  get_item_result_callback : E → M St value;
  call_entry : E → M St value;
  node_name : N → string;
}.

(** A logical group: its [_override_name] and its [members], each member
    a sequence of entries. *)
Record logical_op_group (E : Type) : Type := {
  _override_name : string;
  members : list (list E);
}.
Arguments _override_name {E} _.
Arguments members {E} _.

(** A node of a level: [op_group op] is [getattr(item, op)] when that is a
    true object, and the nodes are those met when iterating the item. *)
Record item (E N : Type) : Type := {
  op_group : string → option (logical_op_group E);
  nodes : list N;
}.
Arguments op_group {E N} _ _.
Arguments nodes {E N} _.

Section Handler.
Context {St E N : Type} `{H : handler St E N}.

(** The result of one entry: the callback's, or [entry()] when the
    callback raises NotImplementedError. *)
Definition entry_result (entry : E) : M St value :=
  try_except (get_item_result_callback entry)
    (fun e =>
       match exc_type e with
       | NotImplementedError => call_entry entry
       | _ => raise e
       end).

(** [results.append(...)] for every entry of one member. *)
Fixpoint member_results (results : list value) (member : list E)
  : M St (list value) :=
  match member with
  | [] => mret results
  | entry :: rest =>
      r ← entry_result entry;
      member_results (results ++ [r]) rest
  end.

(** The outer loop of [group_results]. *)
Fixpoint members_results (results : list value) (ms : list (list E))
  : M St (list value) :=
  match ms with
  | [] => mret results
  | member :: rest =>
      results ← member_results results member;
      members_results results rest
  end.

(** [group_results]. *)
Definition group_results (g : logical_op_group E) : M St (list value) :=
  members_results [] (members g).

(** [run_logical_op_group]. *)
Definition run_logical_op_group (g : logical_op_group E) : M St bool :=
  if String.eqb (_override_name g) "and" then
    results ← group_results g; mret (all results)
  else if String.eqb (_override_name g) "or" then
    results ← group_results g; mret (any results)
  else if name_in (_override_name g) ["nand"; "not"] then
    results ← group_results g; mret (negb (all results))
  else if String.eqb (_override_name g) "nor" then
    results ← group_results g; mret (negb (any results))
  else
    raise (Exc Exception
             ("unknown logical operator '" ++ _override_name g ++ "' found")).

(** The loop of [run_op_groups] over the operator names [ops]. *)
Fixpoint run_ops (final_results : list value) (it : item E N)
    (ops : list string) : M St (list value) :=
  match ops with
  | [] => mret final_results
  | op :: rest =>
      match op_group it op with
      | Some g =>
          result ← run_logical_op_group g;
          run_ops (final_results ++ [VBool result]) it rest
      | None => run_ops final_results it rest
      end
  end.

(** [run_op_groups]. *)
Definition run_op_groups (it : item E N) : M St (list value) :=
  run_ops [] it VALID_GROUP_KEYS.

(** The inner loop of [run_level]: the nodes that are not groups. *)
Fixpoint run_nodes (final_results : list value) (ns : list N)
  : M St (list value) :=
  match ns with
  | [] => mret final_results
  | subitem :: rest =>
      if negb (name_in (node_name subitem) VALID_GROUP_KEYS) then
        rs ← run_single subitem;
        run_nodes (final_results ++ rs) rest
      else run_nodes final_results rest
  end.

(** The outer loop of [run_level]. *)
Fixpoint run_items (final_results : list value) (level : list (item E N))
  : M St (list value) :=
  match level with
  | [] => mret final_results
  | it :: rest =>
      rs ← run_op_groups it;
      final_results ← run_nodes (final_results ++ rs) (nodes it);
      run_items final_results rest
  end.

(** [run_level]. *)
Definition run_level (level : list (item E N)) : M St (list value) :=
  run_items [] level.

(** [run_collection]: the collection is its own top level. *)
Definition run_collection (self : list (item E N)) : M St bool :=
  all_results ← run_level self;
  mret (all all_results).

End Handler.

End LogicalCollectionHandler.

(** ** Notions used by the statements *)

Module Notions.

(** The cache reference [self] names the key [key] of the property cache
    [pc]: its check is in the checks dict, and the cache of that check
    holds [pc] under the property name of the reference. *)
Definition names_cache_key (py : python) (self : PropertyCacheRefResolver.t)
    (pc : PropertyCache.t) (key : string) : Prop :=
  ∃ cs cn chk pn,
    PropertyCacheRefResolver.checks self = Some cs ∧
    PropertyCacheRefResolver.check_name self = Ok cn ∧
    cs !! cn = Some chk ∧
    PropertyCacheRefResolver.property_name self = Ok (Some pn) ∧
    PropertyCache.getattr py (PropertyCacheRefResolver.cache chk) pn
      = Ok (PropertyCache.to_value pc) ∧
    PropertyCacheRefResolver.property_cache_key self = Ok key.

(** A plain cache key: a name that the ordinary attribute lookup finds on
    no cache, neither among the names of the class ([data], [id], [set],
    [merge], ...) nor among those every object has, so that reading it as
    an attribute reaches the [__getattr__] hook. *)
Definition plain_key (py : python) (key : string) : Prop :=
  existsb (String.eqb key) PropertyCache.own_names = false ∧
  ∀ cls d, ∃ msg,
    object_getattr py (VCache cls d) key = Raise (Exc AttributeError msg).

(** The entries of an import cache that a read can return: those with a
    true value. *)
Definition live (d : gmap string value) : gmap string value :=
  filter (fun kv => truthy kv.2 = true) d.

(** What the import helpers can tell of the object found as import cache:
    a false object is an empty cache, a dict its live entries, and any
    other object is itself. *)
Definition cache_view (c : value) : value + gmap string value :=
  if truthy c then
    match c with
    | VDict d => inr (live d)
    | _ => inl c
    end
  else inr ∅.

(** Two states that the import helpers cannot tell apart. *)
Definition same_imports {W} (st1 st2 : YPropertyBase.state W) : Prop :=
  YPropertyBase.world st1 = YPropertyBase.world st2 ∧
  match YPropertyBase.context st1, YPropertyBase.context st2 with
  | None, None => True
  | Some c1, Some c2 =>
      cache_view (YDefsContext.__getattr__ c1 "import_cache") =
      cache_view (YDefsContext.__getattr__ c2 "import_cache")
  | _, _ => False
  end.

(** The value of a read as the helpers use it: a false value is a miss. *)
Definition hit (r : result value) : result value :=
  match r with
  | Ok v => if truthy v then Ok v else Ok VNone
  | Raise e => Raise e
  end.

(** A call that two such states cannot tell apart either: it returns the
    same in both and leaves them alike. *)
Definition respects {W A} (m : M (YPropertyBase.state W) A) : Prop :=
  ∀ st1 st2, same_imports st1 st2 →
    (m st1).1 = (m st2).1 ∧ same_imports (m st1).2 (m st2).2.

(** The unknown-operator error of [run_logical_op_group]. *)
Definition unknown_operator (name : string) : exception :=
  Exc Exception ("unknown logical operator '" ++ name ++ "' found").

End Notions.

(** ** Sample objects *)

Module Samples.

Definition PC : string := "PropertyCache".

(** [{'k': {'a': 1, 'b': 2}}] and [{'k': {'b': 3}}]. *)
Definition map_a : gmap string value := {[ "a" := VInt 1; "b" := VInt 2 ]}.
Definition map_b : gmap string value := {[ "b" := VInt 3 ]}.
Definition cache_a : PropertyCache.t := PropertyCache.mk PC {[ "k" := VDict map_a ]}.
Definition cache_b : PropertyCache.t := PropertyCache.mk PC {[ "k" := VDict map_b ]}.

(** A runtime with [str] and [len] as builtins. *)
Definition py0 : python := {|
  builtins_call := fun f v =>
    if String.eqb f "str" then
      Ok (match v with VStr s => VStr s | _ => VStr "<object>" end)
    else if String.eqb f "len" then
      match v with
      | VList l => Ok (VInt (Z.of_nat (length l)))
      | VStr s => Ok (VInt (Z.of_nat (String.length s)))
      | _ => Raise (Exc TypeError "object has no len()")
      end
    else Raise (Exc AttributeError f);
  str_join := fun sep v =>
    match v with
    | VList [] => Ok (VStr "")
    | VList [VStr s] => Ok (VStr s)
    | VList [VStr s1; VStr s2] => Ok (VStr (s1 ++ sep ++ s2))
    | _ => Raise (Exc TypeError "can only join an iterable")
    end;
  object_getattr := fun _ key => Raise (Exc AttributeError key);
  str_ := fun _ => "<object>";
|}.

(** The check [svc_check], whose property [is_running] cached
    [result = True] and [reason = None]. *)
Definition is_running_cache : PropertyCache.t :=
  PropertyCache.set
    (PropertyCache.set (PropertyCache.__init__ PC) "result" (VBool true))
    "reason" VNone.
Definition svc_check : PropertyCacheRefResolver.check :=
  {| PropertyCacheRefResolver.cache :=
       PropertyCache.set (PropertyCache.__init__ PC) "is_running"
         (PropertyCache.to_value is_running_cache) |}.
Definition checks0 : gmap string PropertyCacheRefResolver.check :=
  {[ "svc_check" := svc_check ]}.

(** [@checks.svc_check.is_running.<key>:int] for a key. *)
Definition ref_to (key : string) : PropertyCacheRefResolver.t :=
  PropertyCacheRefResolver.mk
    ("@checks.svc_check.is_running." ++ key ++ ":int") None (Some checks0).

(** An interpreter whose state counts the objects made so far: the module
    [pkg.mod] (object 1) holds the class [Cls] (object 2), the empty list
    [EMPTY] and the number [LIMIT]; an instance of [Cls] is a new object
    at each call, and so is what its property [prop] returns, while its
    property [flag] is False. *)
Definition interp0 : YPropertyBase.interpreter nat := {|
  YPropertyBase.import_module := fun name w =>
    if String.eqb name "pkg.mod" then (Ok (VObject 1 true), w)
    else (Raise (Exc ModuleNotFoundError name), w);
  YPropertyBase.getattr := fun o name w =>
    match o with
    | VObject 1 _ =>
        if String.eqb name "Cls" then (Ok (VObject 2 true), w)
        else if String.eqb name "EMPTY" then (Ok (VList []), w)
        else if String.eqb name "LIMIT" then (Ok (VInt 10), w)
        else (Raise (Exc AttributeError name), w)
    | VObject (S (S (S _))) _ =>
        if String.eqb name "prop" then (Ok (VObject (100 + w) true), S w)
        else if String.eqb name "flag" then (Ok (VBool false), w)
        else (Raise (Exc AttributeError name), w)
    | _ => (Raise (Exc AttributeError name), w)
    end;
  YPropertyBase.call := fun o w =>
    match o with
    | VObject 2 _ => (Ok (VObject (100 + w) true), S w)
    | _ => (Raise (Exc TypeError "object is not callable"), w)
    end;
  YPropertyBase.str := fun o =>
    match o with
    | VObject 2 _ => "<class 'pkg.mod.Cls'>"
    | _ => "<object>"
    end;
|}.

(** An interpreter with no module at all. *)
Definition no_modules : YPropertyBase.interpreter nat := {|
  YPropertyBase.import_module := fun name w =>
    (Raise (Exc ModuleNotFoundError name), w);
  YPropertyBase.getattr := fun _ name w => (Raise (Exc AttributeError name), w);
  YPropertyBase.call := fun _ w =>
    (Raise (Exc TypeError "object is not callable"), w);
  YPropertyBase.str := fun _ => "<object>";
|}.

(** A property with an empty context, before anything was imported. *)
Definition st0 : YPropertyBase.state nat :=
  YPropertyBase.mk (Some (YDefsContext.__init__ VNone)) 0.

(** A property whose import cache holds the empty list found earlier as
    [pkg.mod.EMPTY]. *)
Definition false_cache : gmap string value := {[ "pkg.mod.EMPTY" := VList [] ]}.
Definition false_ctx : gmap string value :=
  {[ "import_cache" := VDict false_cache ]}.
Definition st_false : YPropertyBase.state nat :=
  YPropertyBase.mk (Some false_ctx) 0.

(** A handler over booleans: an entry is its own result, no callback. *)
#[global] Instance bool_handler
  : LogicalCollectionHandler.handler unit bool value := {|
  LogicalCollectionHandler.run_single := fun v s => (Ok [v], s);
  LogicalCollectionHandler.get_item_result_callback := fun _ s =>
    (Raise (Exc NotImplementedError ""), s);
  LogicalCollectionHandler.call_entry := fun b s => (Ok (VBool b), s);
  LogicalCollectionHandler.node_name := fun _ => "leaf";
|}.

(** A node holding the given groups by operator name and no other node. *)
Definition node_of (groups : list (string * LogicalCollectionHandler.logical_op_group bool))
  : LogicalCollectionHandler.item bool value := {|
  LogicalCollectionHandler.op_group := fun op =>
    snd <$> List.find (fun g => String.eqb (fst g) op) groups;
  LogicalCollectionHandler.nodes := [];
|}.

Definition group (name : string) (bs : list bool)
  : LogicalCollectionHandler.logical_op_group bool := {|
  LogicalCollectionHandler._override_name := name;
  LogicalCollectionHandler.members := [bs];
|}.

End Samples.

(** ** cached_yproperty_attr *)

Module CachedAttr.

(** A property instance as the decorator sees it: its [cache] and the rest
    of its state. *)
Record inst (A : Type) : Type := mk {
  cache : PropertyCache.t;
  fields : A;
}.
Arguments mk {A} _ _.
Arguments cache {A} _.
Arguments fields {A} _.

(** The cache key of the attribute [f.__name__]. *)
Definition attr_key (f_name : string) : string :=
  "__yproperty_attr__" ++ f_name.

(** [inst.cache.set(key, ret)]. *)
Definition cache_set {A} (key : string) (ret : value) : M (inst A) unit :=
  fun i => (Ok (), mk (PropertyCache.set (cache i) key ret) (fields i)).

(** [cached_yproperty_attr(f)], read as a property of [inst]: [f] is the
    wrapped function of name [f_name], which runs on the instance. *)
Definition cached_yproperty_attr {A} (f_name : string)
    (f : M (inst A) value) : M (inst A) value := fun i =>
  let key := attr_key f_name in
  let ret := PropertyCache.__getattr__ (cache i) key in
  if negb (is_None ret) then (Ok ret, i)
  else (ret ← f; cache_set key ret;; mret ret) i.

End CachedAttr.

(** ** hotsos.plugin_extensions.openvswitch.summary *)

Module OpenvSwitchSummary.

(** A port of a bridge: the bare name of an ovs port, or a NetworkPort
    with its [name] and what its [to_dict()] returns. *)
Inductive port : Type :=
| OvsPort (name : string)
| NetworkPort (name : string) (to_dict : value).

Record bridge : Type := {
  name : string;
  ports : list port;
}.

(** What the summary reads of the checks object: the values of
    [systemd.services], [systemd.summary], [apt.all_formatted],
    [offload_enabled], [ovsdb.other_config], [ovsdb.external_ids] and the
    [bridges]. *)
Record t : Type := {
  systemd_services : value;
  systemd_summary : value;
  apt_all_formatted : value;
  offload_enabled : value;
  ovsdb_other_config : value;
  ovsdb_external_ids : value;
  bridges : list bridge;
}.

(** The decorator [idx], [summary_entry_offset] of [hotsos.core.plugintools]
    (not part of these sources): from an offset and a method it makes the
    method that the class holds. *)
Definition decorator : Type := Z → (t → value) → t → value.

(** The function that [def __summary_services] defines, before [@idx(0)]
    is applied to it. *)
Definition __summary_services_body (self : t) : value :=
  if truthy (systemd_services self) then systemd_summary self else VNone.

(** [__summary_services], as decorated. *)
Definition __summary_services (idx : decorator) : t → value :=
  idx 0%Z __summary_services_body.

(** The function that [def __summary_dpkg] defines, before [@idx(1)]. *)
Definition __summary_dpkg_body (self : t) : value := apt_all_formatted self.

(** [__summary_dpkg], as decorated. *)
Definition __summary_dpkg (idx : decorator) : t → value :=
  idx 1%Z __summary_dpkg_body.

(** The function that [def __summary_config] defines, before [@idx(2)]. *)
Definition __summary_config_body (self : t) : value :=
  let _config : gmap string value := ∅ in
  let _config :=
    if truthy (offload_enabled self)
    then <["offload" := VStr "enabled"]> _config else _config in
  let _config :=
    if truthy (ovsdb_other_config self)
    then <["other-config" := ovsdb_other_config self]> _config else _config in
  let _config :=
    if truthy (ovsdb_external_ids self)
    then <["external-ids" := ovsdb_external_ids self]> _config else _config in
  if truthy (VDict _config) then VDict _config else VNone.

(** [__summary_config], as decorated. *)
Definition __summary_config (idx : decorator) : t → value :=
  idx 2%Z __summary_config_body.

(** The name the filter looks at. *)
Definition port_name (p : port) : string :=
  match p with
  | OvsPort name => name
  | NetworkPort name _ => name
  end.

(** The ports left out: patch, phy and int ports. *)
Definition skipped (name : string) : bool :=
  startswith name "patch-" || startswith name "phy-" || startswith name "int-".

(** The inner loop of [__summary_bridges]. *)
Fixpoint list_ports (acc : list value) (ps : list port) : list value :=
  match ps with
  | [] => acc
  | p :: rest =>
      if skipped (port_name p) then list_ports acc rest
      else
        match p with
        | OvsPort _ => list_ports (acc ++ [VStr (port_name p)]) rest
        | NetworkPort _ d => list_ports (acc ++ [d]) rest
        end
  end.

(** The body of the outer loop: the ports shown for one bridge. *)
Definition bridge_ports (py : python) (b : bridge) : list value :=
  let ports := list_ports [] (ports b) in
  if String.eqb (name b) "br-int" && truthy (VList ports)
  then [VStr ("(" ++ format1 py (VInt (Z.of_nat (length ports))) ++ " ports)")]
  else ports.

(** The outer loop of [__summary_bridges]. *)
Fixpoint list_bridges (py : python) (acc : gmap string value)
    (bs : list bridge) : gmap string value :=
  match bs with
  | [] => acc
  | b :: rest =>
      list_bridges py (<[name b := VList (bridge_ports py b)]> acc) rest
  end.

(** The function that [def __summary_bridges] defines, before [@idx(3)]. *)
Definition __summary_bridges_body (py : python) (self : t) : value :=
  let bridges := list_bridges py ∅ (bridges self) in
  if truthy (VDict bridges) then VDict bridges else VNone.

(** [__summary_bridges], as decorated. *)
Definition __summary_bridges (idx : decorator) (py : python) : t → value :=
  idx 3%Z (__summary_bridges_body py).

End OpenvSwitchSummary.

(** ** Further notions and sample objects *)

Module Notions2.

(** [c in s], for a character. *)
Fixpoint has_char (c : Ascii.ascii) (s : string) : bool :=
  match s with
  | EmptyString => false
  | String x s' => Ascii.eqb c x || has_char c s'
  end.

(** The characters that separate the parts of a reference and of an
    import string. *)
Definition dot : Ascii.ascii := Ascii.ascii_of_nat 46.
Definition colon : Ascii.ascii := Ascii.ascii_of_nat 58.
Definition dollar : Ascii.ascii := Ascii.ascii_of_nat 36.

(** The cache reference [@checks.<check>.<property>.<key>] with the given
    text after the key. *)
Definition checks_ref (check property key suffix : string) : string :=
  "@checks." ++ check ++ "." ++ property ++ "." ++ key ++ suffix.

(** What the summary shows of a port that is not left out. *)
Definition shown (p : OpenvSwitchSummary.port) : value :=
  match p with
  | OpenvSwitchSummary.OvsPort name => VStr name
  | OpenvSwitchSummary.NetworkPort _ d => d
  end.

End Notions2.

Module Samples2.

(** A decorated function that counts its calls in the instance and
    returns the count, and one that returns None. *)
Definition counting : M (CachedAttr.inst nat) value := fun i =>
  (Ok (VInt (Z.of_nat (S (CachedAttr.fields i)))),
   CachedAttr.mk (CachedAttr.cache i) (S (CachedAttr.fields i))).
Definition returning_none : M (CachedAttr.inst nat) value := fun i =>
  (Ok VNone, CachedAttr.mk (CachedAttr.cache i) (S (CachedAttr.fields i))).
Definition fresh_inst : CachedAttr.inst nat :=
  CachedAttr.mk (PropertyCache.__init__ Samples.PC) 0.

(** Run variables: [hostname] is known, no other. *)
Definition vars0 : string → result value := fun name =>
  if String.eqb name "hostname" then Ok (VStr "juju-1") else Ok VNone.

(** Two bridges: [br-int] with a patch port and two tap ports, [br-ex]
    with a physical interface and a phy port. *)
Definition br_int : OpenvSwitchSummary.bridge := {|
  OpenvSwitchSummary.name := "br-int";
  OpenvSwitchSummary.ports :=
    [OpenvSwitchSummary.OvsPort "patch-tun";
     OpenvSwitchSummary.OvsPort "tap0";
     OpenvSwitchSummary.OvsPort "tap1"];
|}.
Definition br_ex : OpenvSwitchSummary.bridge := {|
  OpenvSwitchSummary.name := "br-ex";
  OpenvSwitchSummary.ports :=
    [OpenvSwitchSummary.NetworkPort "eth0" (VDict {[ "name" := VStr "eth0" ]});
     OpenvSwitchSummary.OvsPort "phy-br-ex"];
|}.
Definition ovs (bs : list OpenvSwitchSummary.bridge) : OpenvSwitchSummary.t := {|
  OpenvSwitchSummary.systemd_services := VNone;
  OpenvSwitchSummary.systemd_summary := VNone;
  OpenvSwitchSummary.apt_all_formatted := VNone;
  OpenvSwitchSummary.offload_enabled := VBool true;
  OpenvSwitchSummary.ovsdb_other_config := VDict ∅;
  OpenvSwitchSummary.ovsdb_external_ids := VNone;
  OpenvSwitchSummary.bridges := bs;
|}.

(** A state in which the class of [pkg.mod.Cls] and an instance of it
    (object 7) are in the import cache. *)
Definition st_inst : YPropertyBase.state nat :=
  YPropertyBase.mk
    (Some {[ "import_cache" :=
               VDict {[ "pkg.mod.Cls" := VObject 2 true;
                        "<class 'pkg.mod.Cls'>.object" := VObject 7 true ]} ]})
    0.

(** A property without a context. *)
Definition st_none : YPropertyBase.state nat := YPropertyBase.mk None 0.

(** The names that every object has, those of [object], and a runtime in
    which the ordinary lookup finds them on every object and, on a cache,
    the methods of its class and what the class statement adds; they are
    objects of no further interest here. No other attribute is found. *)
Definition object_names : list string :=
  ["__class__"; "__delattr__"; "__dir__"; "__doc__"; "__eq__"; "__format__";
   "__ge__"; "__getattribute__"; "__gt__"; "__hash__"; "__init__";
   "__init_subclass__"; "__le__"; "__lt__"; "__ne__"; "__new__";
   "__reduce__"; "__reduce_ex__"; "__repr__"; "__setattr__"; "__sizeof__";
   "__str__"; "__subclasshook__"].
Definition py1 : python := {|
  builtins_call := builtins_call Samples.py0;
  str_join := str_join Samples.py0;
  object_getattr := fun o key =>
    if existsb (String.eqb key) object_names then Ok (VObject 1 true)
    else
      match o with
      | VCache _ _ =>
          if existsb (String.eqb key)
               ["merge"; "id"; "set"; "__getattr__"; "__dict__";
                "__module__"; "__weakref__"]
          then Ok (VObject 2 true)
          else Raise (Exc AttributeError key)
      | _ => Raise (Exc AttributeError key)
      end;
  str_ := str_ Samples.py0;
|}.

(** The check [net_check], whose property [listening] cached the ports
    80 and 443. *)
Definition listening_cache : PropertyCache.t :=
  PropertyCache.set (PropertyCache.__init__ Samples.PC) "ports"
    (VList [VStr "80"; VStr "443"]).
Definition net_check : PropertyCacheRefResolver.check :=
  {| PropertyCacheRefResolver.cache :=
       PropertyCache.set (PropertyCache.__init__ Samples.PC) "listening"
         (PropertyCache.to_value listening_cache) |}.
Definition checks1 : gmap string PropertyCacheRefResolver.check :=
  {[ "net_check" := net_check ]}.

(** A handler whose nodes carry their key and the result they give. *)
#[global] Instance named_handler
  : LogicalCollectionHandler.handler unit bool (string * bool) := {|
  LogicalCollectionHandler.run_single := fun n s => (Ok [VBool n.2], s);
  LogicalCollectionHandler.get_item_result_callback := fun _ s =>
    (Raise (Exc NotImplementedError ""), s);
  LogicalCollectionHandler.call_entry := fun b s => (Ok (VBool b), s);
  LogicalCollectionHandler.node_name := fst;
|}.

(** A node with the given children and no group. *)
Definition children (ns : list (string * bool))
  : LogicalCollectionHandler.item bool (string * bool) := {|
  LogicalCollectionHandler.op_group := fun _ => None;
  LogicalCollectionHandler.nodes := ns;
|}.

(** An interpreter that can neither import a module nor call a class,
    and only reads the property [flag], which is False, of an object. *)
Definition attr_only : YPropertyBase.interpreter nat := {|
  YPropertyBase.import_module := fun name w =>
    (Raise (Exc ModuleNotFoundError name), w);
  YPropertyBase.getattr := fun o name w =>
    match o with
    | VObject _ _ =>
        if String.eqb name "flag" then (Ok (VBool false), w)
        else (Raise (Exc AttributeError name), w)
    | _ => (Raise (Exc AttributeError name), w)
    end;
  YPropertyBase.call := fun _ w =>
    (Raise (Exc TypeError "object is not callable"), w);
  YPropertyBase.str := YPropertyBase.str Samples.interp0;
|}.

(** The import cache and the state after [pkg.mod.Cls.flag] was looked up
    once from [Samples.st0]: the class, its instance (object 100) and the
    value False of the property. *)
Definition flag_cache : gmap string value :=
  {[ "pkg.mod.Cls" := VObject 2 true;
     "<class 'pkg.mod.Cls'>.object" := VObject 100 true;
     "pkg.mod.Cls.flag" := VBool false ]}.
Definition flag_ctx : gmap string value :=
  {[ "import_cache" := VDict flag_cache ]}.
Definition st_flag : YPropertyBase.state nat :=
  YPropertyBase.mk (Some flag_ctx) 1.

End Samples2.

(** * Properties *)

Import Notions.

(** ** Dicts and truth values *)

Lemma dict_update_lookup (d other : gmap string value) (j : string) :
  dict_update d other !! j =
    match other !! j with Some v => Some v | None => d !! j end.
Proof.
  unfold dict_update. rewrite lookup_union.
  destruct (other !! j), (d !! j); reflexivity.
Qed.

Lemma dict_update_empty_l (other : gmap string value) :
  dict_update ∅ other = other.
Proof. unfold dict_update. apply (right_id_L ∅ (∪)). Qed.

Lemma truthy_dict_false (d : gmap string value) :
  truthy (VDict d) = false → d = ∅.
Proof.
  simpl. intros H. apply negb_false_iff in H.
  by apply bool_decide_eq_true in H.
Qed.

Lemma truthy_dict_true (d : gmap string value) :
  d ≠ ∅ → truthy (VDict d) = true.
Proof. intros H. simpl. by rewrite bool_decide_eq_false_2. Qed.

Lemma truthy_dict_insert (d : gmap string value) k v :
  truthy (VDict (<[k := v]> d)) = true.
Proof. apply truthy_dict_true, insert_non_empty. Qed.

(** ** PropertyCache *)

Section PropertyCacheFacts.
Import PropertyCache.
Implicit Types (self : PropertyCache.t) (key : string) (v : value).

Lemma set_not_dict self key v :
  type_is_dict v = false →
  set self key v =
    mk (__class__ self) (<[key := v]> (_property_cache_data self)).
Proof.
  intros Hv. unfold set.
  destruct (dict_get (_property_cache_data self) key), v;
    try reflexivity; discriminate.
Qed.

Lemma set_over_no_map self key v :
  (∀ m, data self !! key = Some (VDict m) → m = ∅) →
  set self key v =
    mk (__class__ self) (<[key := v]> (_property_cache_data self)).
Proof.
  intros Hc. unfold set, dict_get.
  destruct (_property_cache_data self !! key) as [[]|] eqn:E, v;
    try reflexivity.
  rewrite (Hc d E). reflexivity.
Qed.

Lemma set_dict_over_map self key (cur new : gmap string value) :
  data self !! key = Some (VDict cur) → cur ≠ ∅ →
  set self key (VDict new) =
    mk (__class__ self)
       (<[key := VDict (dict_update cur new)]> (_property_cache_data self)).
Proof.
  unfold data. intros Hk Hne. unfold set, dict_get. rewrite Hk.
  cbn [default from_option id]. by rewrite (truthy_dict_true cur).
Qed.

Lemma getattr_insert (cls : string) (m : gmap string value) key v :
  __getattr__ (mk cls (<[key := v]> m)) key = v.
Proof. unfold __getattr__, data. simpl. by rewrite lookup_insert_eq. Qed.

Lemma getattr_unset self key :
  data self !! key = None → __getattr__ self key = VNone.
Proof. unfold __getattr__. by intros ->. Qed.

(** Two dicts set one after the other under a key that holds the first
    one: the entry is the first dict updated with the second. *)
Lemma set_dict_twice cls (m : gmap string value) key
    (v1 v2 : gmap string value) :
  __getattr__ (set (mk cls (<[key := VDict v1]> m)) key (VDict v2)) key
    = VDict (dict_update v1 v2).
Proof.
  destruct (decide (v1 = ∅)) as [-> | Hne].
  - rewrite set_over_no_map.
    + rewrite getattr_insert. by rewrite dict_update_empty_l.
    + unfold data. simpl. intros m'. rewrite lookup_insert_eq. congruence.
  - rewrite (set_dict_over_map _ _ v1); [| | done].
    + apply getattr_insert.
    + unfold data. simpl. by rewrite lookup_insert_eq.
Qed.

Lemma merge_same_class self (other : PropertyCache.t) :
  __class__ self = __class__ other →
  merge self (to_value other) =
    mk (__class__ self)
       (dict_update (_property_cache_data self) (_property_cache_data other)).
Proof.
  intros Hc. unfold merge, to_value. rewrite <- Hc.
  by rewrite String.eqb_refl.
Qed.

End PropertyCacheFacts.

(** C1, as stated, fails: with A = {'k': {'a': 1, 'b': 2}} and
    B = {'k': {'b': 3}}, two caches of the same class with a map under
    ['k'], merging B into A leaves A['k'] = {'b': 3}, B's map alone, and
    not A's map updated with B's, in which ['a'] would still be 1. *)
Lemma merge_map_entry_counterexample :
  PropertyCache.__class__ Samples.cache_a = PropertyCache.__class__ Samples.cache_b ∧
  PropertyCache.data Samples.cache_a !! "k" = Some (VDict Samples.map_a) ∧
  PropertyCache.data Samples.cache_b !! "k" = Some (VDict Samples.map_b) ∧
  PropertyCache.__getattr__
    (PropertyCache.merge Samples.cache_a (PropertyCache.to_value Samples.cache_b)) "k"
    = VDict Samples.map_b ∧
  PropertyCache.__getattr__
    (PropertyCache.merge Samples.cache_a (PropertyCache.to_value Samples.cache_b)) "k"
    ≠ VDict (dict_update Samples.map_a Samples.map_b).
Proof.
  assert (Hget : PropertyCache.__getattr__
            (PropertyCache.merge Samples.cache_a
               (PropertyCache.to_value Samples.cache_b)) "k"
          = VDict Samples.map_b) by (vm_compute; reflexivity).
  repeat split; try (vm_compute; reflexivity).
  rewrite Hget. intros Heq.
  apply (f_equal (fun v => match v with VDict m => m !! "a" | _ => None end))
    in Heq.
  vm_compute in Heq. discriminate.
Qed.

(** C1, amended: for every pair of Property Caches A and B of the same
    concrete class, after merging B into A every key of B holds in A the
    entry B has for it, whole (also when both entries are maps: A's own
    sub-keys are not kept), and every key that B lacks keeps the entry A
    had. *)
Theorem merge_replaces_entries (A B : PropertyCache.t) (k : string) :
  PropertyCache.__class__ A = PropertyCache.__class__ B →
  PropertyCache.data (PropertyCache.merge A (PropertyCache.to_value B)) !! k
    = match PropertyCache.data B !! k with
      | Some v => Some v
      | None => PropertyCache.data A !! k
      end
  ∧ (∀ a b,
       PropertyCache.data A !! k = Some (VDict a) →
       PropertyCache.data B !! k = Some (VDict b) →
       PropertyCache.__getattr__
         (PropertyCache.merge A (PropertyCache.to_value B)) k = VDict b).
Proof.
  intros Hc. rewrite (merge_same_class _ _ Hc).
  assert (Hl : PropertyCache.data
            (PropertyCache.mk (PropertyCache.__class__ A)
               (dict_update (PropertyCache._property_cache_data A)
                  (PropertyCache._property_cache_data B))) !! k
          = match PropertyCache.data B !! k with
            | Some v => Some v
            | None => PropertyCache.data A !! k
            end).
  { unfold PropertyCache.data. simpl. apply dict_update_lookup. }
  split; [exact Hl|].
  intros a b _ Hb. unfold PropertyCache.__getattr__.
  rewrite Hl, Hb. reflexivity.
Qed.

Lemma merge_replaces_entries_witness :
  PropertyCache.__class__ Samples.cache_a = PropertyCache.__class__ Samples.cache_b ∧
  PropertyCache.data
    (PropertyCache.merge Samples.cache_a (PropertyCache.to_value Samples.cache_b))
    !! "k" = Some (VDict Samples.map_b) ∧
  PropertyCache.__getattr__
    (PropertyCache.merge Samples.cache_a (PropertyCache.to_value Samples.cache_b))
    "k" = VDict Samples.map_b.
Proof.
  split; [reflexivity|].
  destruct (merge_replaces_entries Samples.cache_a Samples.cache_b "k" eq_refl)
    as [H1 H2].
  split; [exact H1 | apply (H2 Samples.map_a Samples.map_b); reflexivity].
Defined.

(** ** Attribute access on a cache *)

Section AttributeFacts.
Context (py : python).
Implicit Types (self : PropertyCache.t) (key : string).

Lemma plain_key_no_data key :
  plain_key py key →
  String.eqb key "_property_cache_data" || String.eqb key "data" = false.
Proof.
  intros [Hown _]. unfold PropertyCache.own_names in Hown.
  cbn [existsb] in Hown.
  repeat (apply orb_false_iff in Hown as [? Hown]).
  apply orb_false_iff. by split.
Qed.

(** A plain key is read through the hook. *)
Lemma getattr_plain self key :
  plain_key py key →
  PropertyCache.getattr py self key = Ok (PropertyCache.__getattr__ self key).
Proof.
  intros Hk. pose proof (plain_key_no_data _ Hk) as Hd.
  destruct Hk as [Hown Hobj].
  unfold PropertyCache.getattr. rewrite Hd, Hown.
  destruct (Hobj (PropertyCache.__class__ self)
              (PropertyCache._property_cache_data self)) as [msg Hmsg].
  unfold PropertyCache.to_value. by rewrite Hmsg.
Qed.

End AttributeFacts.

(** A concrete name that the sample runtime finds on no cache is a plain
    key. *)
Ltac sample_plain_key :=
  split; [reflexivity | intros cls d; eexists; reflexivity].

(** C6, as stated, fails twice. For a cache that already holds a map under
    the key: with {'k': {'a': 1, 'b': 2}}, setting ['k'] to {'b': 3} and
    then to {'b': 3} again reads back {'a': 1, 'b': 3}, the old map updated
    twice, and not {'b': 3} updated with {'b': 3}. And for a key that is
    an attribute of the cache object: after ['data'] is set to 5, getting
    ['data'] returns the whole dict {'data': 5} and not 5, and getting it
    from a new cache returns {} and not None. *)
Lemma set_twice_over_map_counterexample :
  PropertyCache.getattr Samples2.py1
    (PropertyCache.set
       (PropertyCache.set Samples.cache_a "k" (VDict Samples.map_b))
       "k" (VDict Samples.map_b)) "k"
    = Ok (VDict (dict_update Samples.map_a Samples.map_b)) ∧
  VDict (dict_update Samples.map_a Samples.map_b)
    ≠ VDict (dict_update Samples.map_b Samples.map_b) ∧
  PropertyCache.getattr Samples2.py1
    (PropertyCache.set (PropertyCache.__init__ Samples.PC) "data" (VInt 5))
    "data" = Ok (VDict {[ "data" := VInt 5 ]}) ∧
  PropertyCache.getattr Samples2.py1 (PropertyCache.__init__ Samples.PC) "data"
    = Ok (VDict ∅).
Proof.
  split; [vm_compute; reflexivity|].
  split; [|split; vm_compute; reflexivity].
  intros Heq.
  apply (f_equal (fun v => match v with VDict m => m !! "a" | _ => None end))
    in Heq.
  vm_compute in Heq. discriminate.
Qed.

(** C6, amended: for every Property Cache and every plain key k (a name
    that is no attribute of the cache object: not [data], [id], [set],
    [merge] and the like), setting k to a non-map value v and getting k
    returns v; getting a key that was never set returns None and raises
    nothing; and for maps v1 then v2 set under a key that did not hold a
    non-empty map before, the get returns v1 updated with v2, while over a
    non-empty map m it returns m updated with v1 and then with v2. The
    name [data] is no such key: getting it returns the whole dict. *)
Theorem set_then_get (py : python) (c : PropertyCache.t) (k : string) :
  plain_key py k →
  (∀ v, type_is_dict v = false →
        PropertyCache.getattr py (PropertyCache.set c k v) k = Ok v) ∧
  (PropertyCache.data c !! k = None →
     PropertyCache.getattr py c k = Ok VNone) ∧
  (∀ v1 v2,
     (∀ m, PropertyCache.data c !! k = Some (VDict m) → m = ∅) →
     PropertyCache.getattr py
       (PropertyCache.set (PropertyCache.set c k (VDict v1)) k (VDict v2)) k
       = Ok (VDict (dict_update v1 v2))) ∧
  (∀ m v1 v2,
     PropertyCache.data c !! k = Some (VDict m) → m ≠ ∅ →
     PropertyCache.getattr py
       (PropertyCache.set (PropertyCache.set c k (VDict v1)) k (VDict v2)) k
       = Ok (VDict (dict_update (dict_update m v1) v2))) ∧
  (∀ v, PropertyCache.getattr py (PropertyCache.set c "data" v) "data"
        = Ok (VDict (PropertyCache.data (PropertyCache.set c "data" v)))).
Proof.
  intros Hk. repeat split.
  - intros v Hv. rewrite (getattr_plain py _ _ Hk), set_not_dict by done.
    by rewrite getattr_insert.
  - intros Hu. by rewrite (getattr_plain py _ _ Hk), getattr_unset.
  - intros v1 v2 Hc. rewrite (getattr_plain py _ _ Hk).
    rewrite (set_over_no_map c k _ Hc). by rewrite set_dict_twice.
  - intros m v1 v2 Hm Hne. rewrite (getattr_plain py _ _ Hk).
    rewrite (set_dict_over_map c k m v1 Hm Hne). by rewrite set_dict_twice.
Qed.

Lemma set_then_get_witness :
  PropertyCache.getattr Samples2.py1
    (PropertyCache.set (PropertyCache.__init__ Samples.PC) "k" (VInt 7)) "k"
    = Ok (VInt 7) ∧
  PropertyCache.getattr Samples2.py1 (PropertyCache.__init__ Samples.PC) "k"
    = Ok VNone ∧
  PropertyCache.getattr Samples2.py1
    (PropertyCache.set
       (PropertyCache.set (PropertyCache.__init__ Samples.PC) "k"
          (VDict Samples.map_a)) "k" (VDict Samples.map_b)) "k"
    = Ok (VDict (dict_update Samples.map_a Samples.map_b)) ∧
  PropertyCache.getattr Samples2.py1
    (PropertyCache.set
       (PropertyCache.set Samples.cache_a "k" (VDict Samples.map_b))
       "k" (VDict Samples.map_b)) "k"
    = Ok (VDict
            (dict_update (dict_update Samples.map_a Samples.map_b) Samples.map_b)).
Proof.
  assert (Hk : plain_key Samples2.py1 "k") by sample_plain_key.
  destruct (set_then_get Samples2.py1 (PropertyCache.__init__ Samples.PC) "k" Hk)
    as (H1 & H2 & H3 & _).
  destruct (set_then_get Samples2.py1 Samples.cache_a "k" Hk)
    as (_ & _ & _ & H4 & _).
  split; [apply H1; reflexivity|].
  split; [apply H2; reflexivity|].
  split; [apply H3; intros m Hm; discriminate Hm|].
  apply (H4 Samples.map_a); [reflexivity|].
  intros Heq.
  apply (f_equal (fun m : gmap string value => m !! "a")) in Heq.
  vm_compute in Heq. discriminate.
Defined.

(** ** PropertyCacheRefResolver *)

Section RefResolverFacts.
Import PropertyCacheRefResolver.
Context (py : python).
Implicit Types (self : PropertyCacheRefResolver.t) (s key : string).

Lemma prefix_cons (a c : Ascii.ascii) (p s : string) :
  String.prefix (String a p) (String c s) = Ascii.eqb a c && String.prefix p s.
Proof.
  cbn [String.prefix]. destruct (Ascii.ascii_dec a c) as [->|Hne].
  - by rewrite Ascii.eqb_refl.
  - apply Ascii.eqb_neq in Hne. by rewrite Hne.
Qed.

Lemma startswith_checks_at s :
  startswith s "@checks." = true →
  startswith s "@" = true ∧ startswith s "$" = false.
Proof.
  unfold startswith. destruct s as [|c s]; [discriminate|].
  rewrite !prefix_cons. intros [Hc _]%andb_true_iff.
  apply Ascii.eqb_eq in Hc. subst c. by destruct s.
Qed.

Lemma startswith_dollar_not_at s :
  startswith s "$" = true → startswith s "@" = false.
Proof.
  unfold startswith. destruct s as [|c s]; [discriminate|].
  rewrite !prefix_cons. intros [Hc _]%andb_true_iff.
  apply Ascii.eqb_eq in Hc. subst c. by destruct s.
Qed.

Lemma reftype_variable self :
  startswith (refstr self) "$" = true → reftype self = Ok "variable".
Proof. unfold reftype. by intros ->. Qed.

Lemma reftype_checks self :
  startswith (refstr self) "@checks." = true → reftype self = Ok "checks".
Proof.
  intros H. unfold reftype.
  destruct (startswith_checks_at _ H) as [_ ->]. by rewrite H.
Qed.

Lemma reftype_unknown self :
  startswith (refstr self) "$" = false →
  startswith (refstr self) "@checks." = false →
  reftype self = Raise (Exc Exception "unknown ref type").
Proof. unfold reftype. by intros -> ->. Qed.

(** A reference with a check name is a checks reference. *)
Lemma check_name_reftype self cn :
  check_name self = Ok cn → reftype self = Ok "checks".
Proof.
  intros Hcn.
  unfold check_name in Hcn. destruct (reftype self) as [rt|e]; [|discriminate].
  cbn in Hcn. destruct (String.eqb rt "checks") eqn:E; [|discriminate].
  apply String.eqb_eq in E. by subst.
Qed.

(** What [lookup] does for a checks reference whose check is known and
    whose property name reads [o] in the cache of the check: it reads the
    key on [o]. *)
Lemma lookup_checks self cs cn chk pn o key :
  checks self = Some cs → check_name self = Ok cn → cs !! cn = Some chk →
  property_name self = Ok (Some pn) →
  PropertyCache.getattr py (cache chk) pn = Ok o →
  property_cache_key self = Ok key →
  lookup py self = getattr py o key.
Proof.
  intros Hcs Hcn Hchk Hpn Hpc Hkey.
  pose proof (check_name_reftype _ _ Hcn) as Hrt.
  unfold lookup. rewrite Hrt. cbn. rewrite Hcs, Hcn. cbn.
  rewrite Hchk, Hpn. cbn. rewrite Hpc, Hkey. reflexivity.
Qed.

(** A reference to a check that is not in the checks dict. *)
Lemma lookup_unknown_check self cs cn :
  checks self = Some cs → check_name self = Ok cn → cs !! cn = None →
  lookup py self = Raise (Exc KeyError cn).
Proof.
  intros Hcs Hcn Hchk.
  pose proof (check_name_reftype _ _ Hcn) as Hrt.
  unfold lookup. rewrite Hrt. cbn. rewrite Hcs, Hcn. cbn.
  by rewrite Hchk.
Qed.

(** What [lookup] finds for a reference that names a key of a property
    cache: what the attribute access on that cache gives. *)
Lemma lookup_names_cache_key self pc key :
  names_cache_key py self pc key →
  lookup py self = PropertyCache.getattr py pc key.
Proof.
  intros (cs & cn & chk & pn & Hcs & Hcn & Hchk & Hpn & Hpc & Hkey).
  rewrite (lookup_checks _ _ _ _ _ _ _ Hcs Hcn Hchk Hpn Hpc Hkey).
  by destruct pc.
Qed.

Lemma resolve_raises self e :
  lookup py self = Raise e → resolve py self = Raise e.
Proof. unfold resolve. by intros ->. Qed.

Lemma resolve_None self :
  lookup py self = Ok VNone → resolve py self = Ok VNone.
Proof. unfold resolve. by intros ->. Qed.

End RefResolverFacts.

(** C4, as stated, fails: ["@foo"] starts neither with [$] nor with
    [@checks.], yet [is_valid_cache_ref] accepts it, and the construction
    then stops on the unknown-reference-type error of [reftype], not on
    the invalid-reference error. *)
Lemma at_prefix_counterexample :
  startswith "@foo" "$" = false ∧
  startswith "@foo" "@checks." = false ∧
  PropertyCacheRefResolver.is_valid_cache_ref (VStr "@foo") = true ∧
  PropertyCacheRefResolver.__init__ Samples.py0 (VStr "@foo") None None
    = Raise (Exc Exception "unknown ref type") ∧
  PropertyCacheRefResolver.__init__ Samples.py0 (VStr "@foo") None None
    ≠ Raise (Exc Exception
               "@foo is not a valid property cache reference or variable").
Proof. repeat split; try reflexivity. discriminate. Qed.

(** C4, amended: for every string s, [is_valid_cache_ref] accepts s if and
    only if s starts with [@] or [$]; the construction succeeds if and
    only if s starts with [$], or starts with [@checks.] and a checks
    collection is given; a string with neither first character signals the
    invalid-reference error, a string starting with [@] but not with
    [@checks.] signals the unknown-reference-type error, and a cache-form
    string without a checks collection signals the
    missing-collaborator error, each with a message of its own. *)
Theorem resolver_construction (py : python) (s : string)
    (vars : option (string → result value))
    (checks : option (gmap string PropertyCacheRefResolver.check)) :
  (PropertyCacheRefResolver.is_valid_cache_ref (VStr s) = true ↔
     startswith s "@" = true ∨ startswith s "$" = true) ∧
  (is_Ok (PropertyCacheRefResolver.__init__ py (VStr s) vars checks) = true ↔
     startswith s "$" = true ∨
     (startswith s "@checks." = true ∧ checks ≠ None)) ∧
  (startswith s "@" = false → startswith s "$" = false →
     PropertyCacheRefResolver.__init__ py (VStr s) vars checks
     = Raise (Exc Exception
                (s ++ " is not a valid property cache reference or variable"))) ∧
  (startswith s "@" = true → startswith s "@checks." = false →
     PropertyCacheRefResolver.__init__ py (VStr s) vars checks
     = Raise (Exc Exception "unknown ref type")) ∧
  (startswith s "@checks." = true → checks = None →
     PropertyCacheRefResolver.__init__ py (VStr s) vars checks
     = Raise (Exc Exception
                (s ++ " is a checks cache reference but checks dict not provided"))).
Proof.
  unfold PropertyCacheRefResolver.__init__,
    PropertyCacheRefResolver.is_valid_cache_ref,
    PropertyCacheRefResolver.reftype. cbn [format1 PropertyCacheRefResolver.refstr].
  destruct (startswith s "$") eqn:Ed.
  - pose proof (startswith_dollar_not_at _ Ed) as Ea.
    assert (Ec : startswith s "@checks." = false).
    { destruct (startswith s "@checks.") eqn:Ec; [|done].
      destruct (startswith_checks_at _ Ec). congruence. }
    rewrite Ea, Ec. cbn.
    repeat split; try done; try (intros; by auto).
  - destruct (startswith s "@checks.") eqn:Ec.
    + destruct (startswith_checks_at _ Ec) as [Ea _]. rewrite Ea. cbn.
      destruct checks as [cs|]; cbn.
      * repeat split; try done; try (intros; by auto).
      * repeat split; try done; try (intros; by auto).
        intros [?|[_ ?]]; done.
    + destruct (startswith s "@") eqn:Ea; cbn.
      * repeat split; try done; try (intros; by auto).
        intros [?|[? _]]; done.
      * repeat split; try done; try (intros; by auto).
        -- intros [?|?]; done.
        -- intros [?|[? _]]; done.
Qed.

Lemma resolver_construction_witness :
  PropertyCacheRefResolver.__init__ Samples.py0 (VStr "hostname") None None
    = Raise (Exc Exception
               "hostname is not a valid property cache reference or variable") ∧
  PropertyCacheRefResolver.__init__ Samples.py0 (VStr "@cache.a.b") None None
    = Raise (Exc Exception "unknown ref type") ∧
  PropertyCacheRefResolver.__init__ Samples.py0
    (VStr "@checks.svc_check.is_running.result") None None
    = Raise (Exc Exception
               "@checks.svc_check.is_running.result is a checks cache reference but checks dict not provided").
Proof.
  split; [|split].
  - apply (resolver_construction Samples.py0 "hostname" None None); reflexivity.
  - apply (resolver_construction Samples.py0 "@cache.a.b" None None); reflexivity.
  - apply (resolver_construction Samples.py0
             "@checks.svc_check.is_running.result" None None); reflexivity.
Defined.

(** The sample reference to [key] names that key of the sample cache. *)
Ltac sample_ref_names :=
  exists Samples.checks0, "svc_check", Samples.svc_check, "is_running";
  repeat split; vm_compute; reflexivity.

(** C8, as stated, fails. The check [svc_check] is known and its cache
    never set the property [is_enabled]: the reference
    [@checks.svc_check.is_enabled.result] does not resolve to None but
    raises, as the attribute [result] is looked up on None. And the
    property cache of [is_running] never set the key [data], yet
    [@checks.svc_check.is_running.data] resolves to the dict of that
    cache, not to None. *)
Lemma resolve_raises_counterexample :
  Samples.checks0 !! "svc_check" = Some Samples.svc_check ∧
  PropertyCache.data (PropertyCacheRefResolver.cache Samples.svc_check)
    !! "is_enabled" = None ∧
  PropertyCacheRefResolver.resolve Samples2.py1
    (PropertyCacheRefResolver.mk "@checks.svc_check.is_enabled.result"
       None (Some Samples.checks0))
    = Raise (Exc AttributeError "result") ∧
  PropertyCache.data Samples.is_running_cache !! "data" = None ∧
  PropertyCacheRefResolver.resolve Samples2.py1
    (PropertyCacheRefResolver.mk "@checks.svc_check.is_running.data"
       None (Some Samples.checks0))
    = Ok (VDict (PropertyCache.data Samples.is_running_cache)).
Proof. repeat split; vm_compute; reflexivity. Qed.

(** C8, amended: whenever the value a reference names is None, [resolve]
    returns None and raises nothing, whatever the [:func] suffix is (the
    function is not applied); this is the case of a cache reference to a
    known check whose property has its cache in the cache of the check,
    when the key is a plain key (no attribute of the cache object) that
    this property cache never set. A reference to a check that is not in
    the checks dict raises KeyError, and one whose property reads None in
    the cache of its check (as when the property left no cache) raises
    what the attribute lookup of the key on None raises. *)
Theorem resolve_absent (py : python) (self : PropertyCacheRefResolver.t) :
  (PropertyCacheRefResolver.lookup py self = Ok VNone →
     PropertyCacheRefResolver.resolve py self = Ok VNone) ∧
  (∀ pc key,
     names_cache_key py self pc key → plain_key py key →
     PropertyCache.data pc !! key = None →
     PropertyCacheRefResolver.lookup py self = Ok VNone ∧
     PropertyCacheRefResolver.resolve py self = Ok VNone) ∧
  (∀ cs cn,
     PropertyCacheRefResolver.checks self = Some cs →
     PropertyCacheRefResolver.check_name self = Ok cn →
     cs !! cn = None →
     PropertyCacheRefResolver.resolve py self = Raise (Exc KeyError cn)) ∧
  (∀ cs cn chk pn key e,
     PropertyCacheRefResolver.checks self = Some cs →
     PropertyCacheRefResolver.check_name self = Ok cn →
     cs !! cn = Some chk →
     PropertyCacheRefResolver.property_name self = Ok (Some pn) →
     PropertyCache.getattr py (PropertyCacheRefResolver.cache chk) pn
       = Ok VNone →
     PropertyCacheRefResolver.property_cache_key self = Ok key →
     object_getattr py VNone key = Raise e →
     PropertyCacheRefResolver.resolve py self = Raise e).
Proof.
  split; [apply resolve_None|]. split; [|split].
  - intros pc key Hn Hp Hk.
    assert (Hl : PropertyCacheRefResolver.lookup py self = Ok VNone).
    { rewrite (lookup_names_cache_key py _ _ _ Hn).
      by rewrite (getattr_plain py _ _ Hp), getattr_unset. }
    split; [exact Hl | by apply resolve_None].
  - intros cs cn Hcs Hcn Hchk. apply resolve_raises.
    by apply lookup_unknown_check with (cs := cs).
  - intros cs cn chk pn key e Hcs Hcn Hchk Hpn Hpc Hkey He.
    apply resolve_raises.
    rewrite (lookup_checks py _ _ _ _ _ _ _ Hcs Hcn Hchk Hpn Hpc Hkey).
    exact He.
Qed.

Lemma resolve_absent_witness :
  PropertyCacheRefResolver.apply_renderer_function Samples2.py1
    (Samples.ref_to "missing") VNone = Raise (Exc AttributeError "int") ∧
  (PropertyCacheRefResolver.lookup Samples2.py1 (Samples.ref_to "missing")
     = Ok VNone ∧
   PropertyCacheRefResolver.resolve Samples2.py1 (Samples.ref_to "missing")
     = Ok VNone) ∧
  PropertyCacheRefResolver.resolve Samples2.py1
    (PropertyCacheRefResolver.mk "@checks.other.is_running.result"
       None (Some Samples.checks0))
    = Raise (Exc KeyError "other") ∧
  PropertyCacheRefResolver.resolve Samples2.py1
    (PropertyCacheRefResolver.mk "@checks.svc_check.is_enabled.result"
       None (Some Samples.checks0))
    = Raise (Exc AttributeError "result").
Proof.
  split; [vm_compute; reflexivity|]. split; [|split].
  - apply (resolve_absent Samples2.py1 (Samples.ref_to "missing"))
      with (pc := Samples.is_running_cache) (key := "missing").
    + sample_ref_names.
    + sample_plain_key.
    + vm_compute. reflexivity.
  - apply (resolve_absent Samples2.py1
             (PropertyCacheRefResolver.mk "@checks.other.is_running.result"
                None (Some Samples.checks0)))
      with (cs := Samples.checks0); vm_compute; reflexivity.
  - apply (resolve_absent Samples2.py1
             (PropertyCacheRefResolver.mk "@checks.svc_check.is_enabled.result"
                None (Some Samples.checks0)))
      with (cs := Samples.checks0) (cn := "svc_check")
           (chk := Samples.svc_check) (pn := "is_enabled") (key := "result");
      vm_compute; reflexivity.
Defined.

(** C10, as stated, fails: a key set to None and a key never set are told
    apart through the public interface of the cache. After ['reason'] is
    set to None the [data] property holds the key (with None), which it
    does not for a new cache; merging that cache into one that holds
    ['reason'] overwrites the entry with None, while merging a new cache
    leaves it; and for the key ['data'] the attribute-style get returns
    {'data': None} after the set and {} before, neither of them None. *)
Lemma none_entry_visible_counterexample :
  let unset := PropertyCache.__init__ Samples.PC in
  let set_none := PropertyCache.set unset "reason" VNone in
  let target := PropertyCache.set unset "reason" (VStr "down") in
  PropertyCache.data set_none !! "reason" = Some VNone ∧
  PropertyCache.data unset !! "reason" = None ∧
  PropertyCache.data
    (PropertyCache.merge target (PropertyCache.to_value set_none)) !! "reason"
    = Some VNone ∧
  PropertyCache.data
    (PropertyCache.merge target (PropertyCache.to_value unset)) !! "reason"
    = Some (VStr "down") ∧
  PropertyCache.getattr Samples2.py1 (PropertyCache.set unset "data" VNone) "data"
    = Ok (VDict {[ "data" := VNone ]}) ∧
  PropertyCache.getattr Samples2.py1 unset "data" = Ok (VDict ∅).
Proof. repeat split; vm_compute; reflexivity. Qed.

(** C10, amended: for every Property Cache and every plain key k (a name
    that is no attribute of the cache object), after k is set to None the
    attribute-style get of k returns None, which is what it returns for a
    key that was never set, and a reference that names k resolves to None
    in both cases. The two are still told apart: after the set the [data]
    property holds k with None, and merging the cache into another of its
    class overwrites the entry of k there with None, while a cache that
    never set k leaves that entry as it is. *)
Theorem none_reads_as_unset (py : python) (c : PropertyCache.t) (k : string) :
  plain_key py k →
  PropertyCache.getattr py (PropertyCache.set c k VNone) k = Ok VNone ∧
  (PropertyCache.data c !! k = None →
     PropertyCache.getattr py c k = Ok VNone) ∧
  (∀ self, names_cache_key py self (PropertyCache.set c k VNone) k →
           PropertyCacheRefResolver.resolve py self = Ok VNone) ∧
  (∀ self, names_cache_key py self c k → PropertyCache.data c !! k = None →
           PropertyCacheRefResolver.resolve py self = Ok VNone) ∧
  PropertyCache.data (PropertyCache.set c k VNone) !! k = Some VNone ∧
  (∀ A, PropertyCache.__class__ A = PropertyCache.__class__ c →
     PropertyCache.data
       (PropertyCache.merge A (PropertyCache.to_value (PropertyCache.set c k VNone)))
       !! k = Some VNone ∧
     (PropertyCache.data c !! k = None →
        PropertyCache.data (PropertyCache.merge A (PropertyCache.to_value c)) !! k
        = PropertyCache.data A !! k)).
Proof.
  intros Hp.
  assert (Hs : PropertyCache.set c k VNone =
               PropertyCache.mk (PropertyCache.__class__ c)
                 (<[k := VNone]> (PropertyCache._property_cache_data c)))
    by (by apply set_not_dict).
  assert (Hset : PropertyCache.getattr py (PropertyCache.set c k VNone) k
                 = Ok VNone).
  { by rewrite (getattr_plain py _ _ Hp), Hs, getattr_insert. }
  assert (Hdata : PropertyCache.data (PropertyCache.set c k VNone) !! k
                  = Some VNone).
  { rewrite Hs. unfold PropertyCache.data. simpl. apply lookup_insert_eq. }
  split; [exact Hset|]. split; [|split; [|split; [|split]]].
  - intros Hk. by rewrite (getattr_plain py _ _ Hp), getattr_unset.
  - intros self Hn. apply resolve_None.
    rewrite (lookup_names_cache_key py _ _ _ Hn). exact Hset.
  - intros self Hn Hk. apply resolve_None.
    rewrite (lookup_names_cache_key py _ _ _ Hn).
    by rewrite (getattr_plain py _ _ Hp), getattr_unset.
  - exact Hdata.
  - intros A HA. split.
    + rewrite merge_same_class by (by rewrite Hs).
      unfold PropertyCache.data in *. simpl.
      rewrite dict_update_lookup. by rewrite Hdata.
    + intros Hk. rewrite merge_same_class by done.
      unfold PropertyCache.data in *. simpl.
      rewrite dict_update_lookup. by rewrite Hk.
Qed.

Lemma none_reads_as_unset_witness :
  PropertyCache.getattr Samples2.py1 Samples.is_running_cache "reason"
    = Ok VNone ∧
  PropertyCache.getattr Samples2.py1 Samples.is_running_cache "missing"
    = Ok VNone ∧
  PropertyCacheRefResolver.resolve Samples2.py1 (Samples.ref_to "reason")
    = Ok VNone ∧
  PropertyCacheRefResolver.resolve Samples2.py1 (Samples.ref_to "missing")
    = Ok VNone ∧
  PropertyCache.data Samples.is_running_cache !! "reason" = Some VNone ∧
  PropertyCache.data
    (PropertyCache.merge
       (PropertyCache.set (PropertyCache.__init__ Samples.PC) "reason"
          (VStr "down"))
       (PropertyCache.to_value Samples.is_running_cache)) !! "reason"
    = Some VNone.
Proof.
  destruct (none_reads_as_unset Samples2.py1
              (PropertyCache.set (PropertyCache.__init__ Samples.PC)
                 "result" (VBool true)) "reason")
    as (H1 & _ & H3 & _ & H5 & H6); [sample_plain_key|].
  destruct (none_reads_as_unset Samples2.py1 Samples.is_running_cache "missing")
    as (_ & H2 & _ & H4 & _); [sample_plain_key|].
  split; [exact H1|].
  split; [apply H2; vm_compute; reflexivity|].
  split; [apply H3; sample_ref_names|].
  split; [apply H4; [sample_ref_names | vm_compute; reflexivity]|].
  split; [exact H5|].
  apply (H6 (PropertyCache.set (PropertyCache.__init__ Samples.PC) "reason"
               (VStr "down"))). reflexivity.
Defined.

(** ** LogicalCollectionHandler *)

Section HandlerFacts.
Import LogicalCollectionHandler.
Context {St E N : Type} `{H : handler St E N}.
Implicit Types (g : logical_op_group E) (it : item E N) (s : St)
  (rs acc : list value) (level : list (item E N)) (ops : list string).

Lemma bind_run {A B} (m : M St A) (f : A → M St B) s :
  (m ≫= f) s =
    match m s with
    | (Ok a, s') => f a s'
    | (Raise e, s') => (Raise e, s')
    end.
Proof. reflexivity. Qed.

Lemma all_true rs : all rs = true ↔ ∀ r, r ∈ rs → truthy r = true.
Proof.
  unfold all. rewrite forallb_forall.
  split; intros Hall r Hr; apply Hall; by apply list_elem_of_In.
Qed.

Lemma any_true rs : any rs = true ↔ ∃ r, r ∈ rs ∧ truthy r = true.
Proof.
  unfold any. rewrite existsb_exists.
  split; intros (r & Hr & Ht); exists r; split; try done;
    by apply list_elem_of_In.
Qed.

Lemma name_in_cons name n names :
  name_in name (n :: names) = String.eqb name n || name_in name names.
Proof. reflexivity. Qed.

Lemma run_ops_app it ops1 ops2 acc s :
  run_ops acc it (ops1 ++ ops2) s =
    match run_ops acc it ops1 s with
    | (Ok acc', s') => run_ops acc' it ops2 s'
    | (Raise e, s') => (Raise e, s')
    end.
Proof.
  revert acc s. induction ops1 as [|op ops1 IH]; intros acc s; [done|].
  cbn [app run_ops]. destruct (op_group it op) as [g|]; [|apply IH].
  rewrite !bind_run. destruct (run_logical_op_group g s) as [[b|e] s1]; [|done].
  apply IH.
Qed.

Lemma run_items_app level1 level2 acc s :
  run_items acc (level1 ++ level2) s =
    match run_items acc level1 s with
    | (Ok acc', s') => run_items acc' level2 s'
    | (Raise e, s') => (Raise e, s')
    end.
Proof.
  revert acc s. induction level1 as [|it level1 IH]; intros acc s; [done|].
  cbn [app run_items]. rewrite !bind_run.
  destruct (run_op_groups it s) as [[rs|e] s1]; [|done].
  rewrite !bind_run.
  destruct (run_nodes (acc ++ rs) (nodes it) s1) as [[acc'|e] s2]; [|done].
  apply IH.
Qed.

(** Once a group raises, the loop over the operators raises. *)
Lemma run_ops_raises it ops op g :
  op ∈ ops → op_group it op = Some g →
  (∀ s, ∃ e, run_logical_op_group g s = (Raise e, s)) →
  ∀ acc s, ∃ e s', run_ops acc it ops s = (Raise e, s').
Proof.
  intros Hin Hg Hraise. induction ops as [|op0 ops IH]; intros acc s.
  - by apply elem_of_nil in Hin.
  - cbn [run_ops]. apply elem_of_cons in Hin as [<- | Hin].
    + rewrite Hg, bind_run. destruct (Hraise s) as [e ->]. eauto.
    + destruct (op_group it op0) as [g0|]; [|by apply IH].
      rewrite bind_run.
      destruct (run_logical_op_group g0 s) as [[b|e] s1]; [by apply IH|eauto].
Qed.

(** A group whose name has no branch in [run_logical_op_group] raises
    at once: any name but and, or, nand, not and nor. *)
Lemma run_group_no_branch g s :
  name_in (_override_name g) ["and"; "or"; "nand"; "not"; "nor"] = false →
  run_logical_op_group g s = (Raise (unknown_operator (_override_name g)), s).
Proof.
  rewrite !name_in_cons.
  intros Hn. repeat (apply orb_false_iff in Hn as [? Hn]).
  unfold run_logical_op_group. rewrite !name_in_cons.
  repeat match goal with Heq : String.eqb _ _ = false |- _ =>
    rewrite Heq; clear Heq end.
  reflexivity.
Qed.

(** A node without groups adds nothing in [run_ops]. *)
Lemma run_ops_no_group it ops acc s :
  (∀ op, op_group it op = None) → run_ops acc it ops s = (Ok acc, s).
Proof.
  intros Hno. induction ops as [|op ops IH]; [done|].
  cbn [run_ops]. by rewrite Hno.
Qed.

(** The loop over the children returns when [run_single] does. *)
Lemma run_nodes_returns (ns : list N) :
  (∀ n s, ∃ rs s', run_single n s = (Ok rs, s')) →
  ∀ acc s, ∃ rs s', run_nodes acc ns s = (Ok rs, s').
Proof.
  intros Hsingle. induction ns as [|n ns IH]; intros acc s.
  - by exists acc, s.
  - cbn [run_nodes].
    destruct (negb (name_in (node_name n) VALID_GROUP_KEYS)); [|apply IH].
    rewrite bind_run. destruct (Hsingle n s) as (rs & s' & ->). apply IH.
Qed.

(** A level without groups returns when [run_single] does. *)
Lemma run_items_returns level :
  (∀ it, it ∈ level → ∀ op, op_group it op = None) →
  (∀ n s, ∃ rs s', run_single n s = (Ok rs, s')) →
  ∀ acc s, ∃ rs s', run_items acc level s = (Ok rs, s').
Proof.
  intros Hno Hsingle. induction level as [|it level IH]; intros acc s.
  - by exists acc, s.
  - cbn [run_items]. rewrite bind_run. unfold run_op_groups.
    rewrite run_ops_no_group by (apply Hno, list_elem_of_here).
    rewrite bind_run.
    destruct (run_nodes_returns (nodes it) Hsingle (acc ++ [])%list s)
      as (rs & s' & ->).
    apply IH. intros it' Hit'. apply Hno. by apply list_elem_of_further.
Qed.

(** Once the groups of a node raise, the level raises. *)
Lemma run_items_raises level it :
  it ∈ level →
  (∀ s, ∃ e s', run_op_groups it s = (Raise e, s')) →
  ∀ acc s, ∃ e s', run_items acc level s = (Raise e, s').
Proof.
  intros Hin Hraise. induction level as [|it0 level IH]; intros acc s.
  - by apply elem_of_nil in Hin.
  - cbn [run_items]. rewrite bind_run.
    apply elem_of_cons in Hin as [<- | Hin].
    + destruct (Hraise s) as (e & s' & ->). eauto.
    + destruct (run_op_groups it0 s) as [[rs|e] s1]; [|eauto].
      rewrite bind_run.
      destruct (run_nodes (acc ++ rs) (nodes it0) s1) as [[acc'|e] s2];
        [by apply IH|eauto].
Qed.

End HandlerFacts.

(** C7: for every logical group whose members gave the results [rs], the
    group evaluates, for [and], to true iff every result is true (true on
    the empty list); for [or], to true iff some result is true (false on
    the empty list); for [nand] and [not], to true iff not every result is
    true (false on the empty list); for [nor], to true iff no result is
    true (true on the empty list). *)
Theorem group_combinators {St E N : Type}
    `{H : LogicalCollectionHandler.handler St E N}
    (g : LogicalCollectionHandler.logical_op_group E) (s s' : St)
    (rs : list value) :
  LogicalCollectionHandler.group_results g s = (Ok rs, s') →
  let name := LogicalCollectionHandler._override_name g in
  let returns b := LogicalCollectionHandler.run_logical_op_group g s = (Ok b, s') in
  (name = "and" →
     ∃ b, returns b ∧ (b = true ↔ ∀ r, r ∈ rs → truthy r = true) ∧
          (rs = [] → b = true)) ∧
  (name = "or" →
     ∃ b, returns b ∧ (b = true ↔ ∃ r, r ∈ rs ∧ truthy r = true) ∧
          (rs = [] → b = false)) ∧
  (name = "nand" ∨ name = "not" →
     ∃ b, returns b ∧ (b = true ↔ ¬ ∀ r, r ∈ rs → truthy r = true) ∧
          (rs = [] → b = false)) ∧
  (name = "nor" →
     ∃ b, returns b ∧ (b = true ↔ ¬ ∃ r, r ∈ rs ∧ truthy r = true) ∧
          (rs = [] → b = true)).
Proof.
  intros Hrs name returns. subst name returns.
  unfold LogicalCollectionHandler.run_logical_op_group.
  repeat split.
  - intros ->. cbn. rewrite bind_run, Hrs. exists (all rs).
    split; [done|]. split; [apply all_true | by intros ->].
  - intros ->. cbn. rewrite bind_run, Hrs. exists (any rs).
    split; [done|]. split; [apply any_true | by intros ->].
  - intros Hn. exists (negb (all rs)). split.
    + destruct Hn as [-> | ->]; cbn; by rewrite bind_run, Hrs.
    + split; [|by intros ->].
      rewrite negb_true_iff, <- all_true. by destruct (all rs).
  - intros ->. cbn. rewrite bind_run, Hrs. exists (negb (any rs)).
    split; [done|]. split; [|by intros ->].
    rewrite negb_true_iff, <- any_true. by destruct (any rs).
Qed.

Lemma group_combinators_witness :
  LogicalCollectionHandler.group_results
    (Samples.group "nand" [true; false]) () = (Ok [VBool true; VBool false], ()) ∧
  ∃ b, LogicalCollectionHandler.run_logical_op_group
         (Samples.group "nand" [true; false]) () = (Ok b, ()) ∧
       (b = true ↔
          ¬ ∀ r, r ∈ [VBool true; VBool false] → truthy r = true) ∧
       ([VBool true; VBool false] = [] → b = false).
Proof.
  split; [reflexivity|].
  apply (group_combinators (Samples.group "nand" [true; false]) () ()
           [VBool true; VBool false]); [reflexivity|].
  left. reflexivity.
Defined.

(** C3, as stated, fails: a tree whose child is keyed by ['maybe'], a
    name outside the six, evaluates to a verdict and signals no error,
    since such a child is no group for [run_level] but is handed to
    [run_single]. *)
Lemma unknown_key_child_counterexample :
  LogicalCollectionHandler.name_in "maybe"
    LogicalCollectionHandler.VALID_GROUP_KEYS = false ∧
  LogicalCollectionHandler.run_collection
    [Samples2.children [("maybe", false)]] () = (Ok false, ()) ∧
  LogicalCollectionHandler.run_collection
    [Samples2.children [("maybe", true)]] () = (Ok true, ()).
Proof. repeat split; reflexivity. Qed.

(** C3, amended: a group object whose own key has no branch in
    [run_logical_op_group] (any key but and, or, nand, not and nor: a key
    outside the six, and xor too) makes it raise the unknown-operator
    error; when a node of the tree holds such a group under one of the six
    operator attributes, the evaluation returns no verdict but raises, and
    it raises that very error when nothing that is evaluated before the
    group raises. A child keyed by a name outside the six is no group: it
    is handed to [run_single], and a tree without groups returns a
    verdict whenever [run_single] returns, whatever the keys of the
    children. *)
Theorem unknown_operator_aborts {St E N : Type}
    `{H : LogicalCollectionHandler.handler St E N}
    (level : list (LogicalCollectionHandler.item E N)) (s : St) :
  let no_branch (g : LogicalCollectionHandler.logical_op_group E) :=
    LogicalCollectionHandler.name_in
      (LogicalCollectionHandler._override_name g)
      ["and"; "or"; "nand"; "not"; "nor"] = false in
  let error (g : LogicalCollectionHandler.logical_op_group E) :=
    unknown_operator (LogicalCollectionHandler._override_name g) in
  (∀ g, no_branch g →
        LogicalCollectionHandler.run_logical_op_group g s = (Raise (error g), s)) ∧
  (∀ it op g,
     it ∈ level →
     op ∈ LogicalCollectionHandler.VALID_GROUP_KEYS →
     LogicalCollectionHandler.op_group it op = Some g →
     no_branch g →
     (∃ e s', LogicalCollectionHandler.run_collection level s = (Raise e, s')) ∧
     (∀ pre post ops1 ops2 acc1 s1 acc2 s2,
        level = (pre ++ it :: post)%list →
        LogicalCollectionHandler.VALID_GROUP_KEYS = (ops1 ++ op :: ops2)%list →
        LogicalCollectionHandler.run_level pre s = (Ok acc1, s1) →
        LogicalCollectionHandler.run_ops [] it ops1 s1 = (Ok acc2, s2) →
        LogicalCollectionHandler.run_collection level s = (Raise (error g), s2))) ∧
  (∀ n ns acc,
     LogicalCollectionHandler.name_in (LogicalCollectionHandler.node_name n)
       LogicalCollectionHandler.VALID_GROUP_KEYS = false →
     LogicalCollectionHandler.run_nodes acc (n :: ns) s
     = (rs ← LogicalCollectionHandler.run_single n;
        LogicalCollectionHandler.run_nodes (acc ++ rs) ns) s) ∧
  ((∀ it, it ∈ level → ∀ op, LogicalCollectionHandler.op_group it op = None) →
   (∀ n s0, ∃ rs s1, LogicalCollectionHandler.run_single n s0 = (Ok rs, s1)) →
   ∃ b s', LogicalCollectionHandler.run_collection level s = (Ok b, s')).
Proof.
  intros no_branch error. subst no_branch error. cbv beta.
  split; [intros g; apply run_group_no_branch|].
  split; [|split].
  - intros it op g Hit Hop Hg Hname. split.
    + unfold LogicalCollectionHandler.run_collection,
        LogicalCollectionHandler.run_level. rewrite bind_run.
      destruct (run_items_raises level it Hit) with (acc := @nil value) (s := s)
        as (e & s' & ->); [|eauto].
      intros s0. apply (run_ops_raises it _ op g Hop Hg).
      intros s1. eexists. by apply run_group_no_branch.
    + intros pre post ops1 ops2 acc1 s1 acc2 s2 -> Hvalid Hpre Hops.
      unfold LogicalCollectionHandler.run_collection,
        LogicalCollectionHandler.run_level in *.
      rewrite bind_run, run_items_app, Hpre.
      cbn [LogicalCollectionHandler.run_items]. rewrite bind_run.
      unfold LogicalCollectionHandler.run_op_groups.
      rewrite Hvalid, run_ops_app, Hops.
      cbn [LogicalCollectionHandler.run_ops]. rewrite Hg, bind_run.
      by rewrite run_group_no_branch.
  - intros n ns acc Hn. cbn [LogicalCollectionHandler.run_nodes].
    by rewrite Hn.
  - intros Hno Hsingle.
    unfold LogicalCollectionHandler.run_collection,
      LogicalCollectionHandler.run_level. rewrite bind_run.
    destruct (run_items_returns level Hno Hsingle [] s) as (rs & s' & ->).
    by exists (all rs), s'.
Qed.

Lemma unknown_operator_aborts_witness :
  let tree :=
    [Samples.node_of [("and", Samples.group "and" [true])];
     Samples.node_of [("or", Samples.group "or" [true]);
                      ("nor", Samples.group "maybe" [true])]] in
  LogicalCollectionHandler.run_logical_op_group (Samples.group "maybe" [true]) ()
    = (Raise (unknown_operator "maybe"), ()) ∧
  LogicalCollectionHandler.run_collection tree ()
    = (Raise (unknown_operator "maybe"), ()) ∧
  LogicalCollectionHandler.run_nodes [] [("maybe", false)] ()
    = (Ok [VBool false], ()) ∧
  ∃ b s', LogicalCollectionHandler.run_collection
            [Samples2.children [("maybe", false); ("and", true)]] ()
          = (Ok b, s').
Proof.
  intros tree.
  destruct (unknown_operator_aborts tree ()) as (H1 & H2 & _).
  destruct (unknown_operator_aborts
              [Samples2.children [("maybe", false); ("and", true)]] ())
    as (_ & _ & H3 & H4).
  split; [apply H1; reflexivity|]. split; [|split].
  - destruct (H2 (Samples.node_of [("or", Samples.group "or" [true]);
                                   ("nor", Samples.group "maybe" [true])])
                "nor" (Samples.group "maybe" [true])) as [_ Hfirst].
    + apply list_elem_of_In. right. left. reflexivity.
    + apply list_elem_of_In. vm_compute. tauto.
    + reflexivity.
    + reflexivity.
    + apply (Hfirst [Samples.node_of [("and", Samples.group "and" [true])]] []
               ["and"; "or"; "nand"] ["xor"; "not"] [VBool true] ()
               [VBool true] ()); reflexivity.
  - rewrite (H3 ("maybe", false) [] []) by reflexivity. reflexivity.
  - apply H4.
    + intros it Hit op. apply list_elem_of_In in Hit.
      destruct Hit as [<-|[]]. reflexivity.
    + intros n s0. by exists [VBool n.2], s0.
Defined.

(** The scenarios of the specification: [{and: [True, True]}] is true,
    [{or: [False, False]}] is false, [{nand: [True, True]}] is false and
    [{nand: [True, False]}] is true. *)
Example run_collection_scenarios :
  LogicalCollectionHandler.run_collection
    [Samples.node_of [("and", Samples.group "and" [true; true])]] ()
    = (Ok true, ()) ∧
  LogicalCollectionHandler.run_collection
    [Samples.node_of [("or", Samples.group "or" [false; false])]] ()
    = (Ok false, ()) ∧
  LogicalCollectionHandler.run_collection
    [Samples.node_of [("nand", Samples.group "nand" [true; true])]] ()
    = (Ok false, ()) ∧
  LogicalCollectionHandler.run_collection
    [Samples.node_of [("nand", Samples.group "nand" [true; false])]] ()
    = (Ok true, ()).
Proof. repeat split; reflexivity. Qed.

(** [xor] is a valid key with no branch of its own: a group under it
    raises the unknown-operator error as well. *)
Example run_collection_xor :
  LogicalCollectionHandler.run_collection
    [Samples.node_of [("xor", Samples.group "xor" [true; false])]] ()
    = (Raise (unknown_operator "xor"), ()).
Proof. reflexivity. Qed.

(** ** YPropertyBase *)

Section ImportFacts.
Import YPropertyBase.
Context {W : Type}.
Implicit Types (py : interpreter W) (st : state W) (key s : string)
  (v c : value) (ctx : YDefsContext.t).

Lemma bind_st {A B} (m : M (state W) A) (f : A → M (state W) B) st :
  (m ≫= f) st =
    match m st with
    | (Ok a, st') => f a st'
    | (Raise e, st') => (Raise e, st')
    end.
Proof. reflexivity. Qed.

Lemma try_reraise {A} (m : M (state W) A) st :
  try_except m (fun e => raise e) st = m st.
Proof. unfold try_except, raise. by destruct (m st) as [[a|e] st']. Qed.

Lemma load_state key st :
  (_load_from_import_cache key st).2 = st.
Proof.
  unfold _load_from_import_cache. destruct (context st) as [ctx|]; [|done].
  by destruct (truthy _).
Qed.

Lemma run_context {A} (f : M W A) st :
  context (run f st).2 = context st.
Proof. unfold run. by destruct (f (world st)). Qed.

Lemma import_attr_context py m name st :
  context (import_attr py m name st).2 = context st.
Proof.
  unfold import_attr. rewrite bind_st.
  destruct (run (import_module py m) st) as [[o|e] st1] eqn:E1;
    pose proof (run_context (import_module py m) st) as H1;
    rewrite E1 in H1; cbn in H1; [|done].
  by rewrite run_context.
Qed.


(** The state after a successful [_add_to_import_cache]. *)
Lemma add_ok key v st st' ctx :
  context st = Some ctx →
  _add_to_import_cache key v st = (Ok (), st') →
  ∃ d, st' = mk (Some (<["import_cache" := VDict (<[key := v]> d)]> ctx))
                (world st).
Proof.
  unfold _add_to_import_cache. intros ->.
  destruct (truthy (YDefsContext.__getattr__ ctx "import_cache")).
  - destruct (YDefsContext.__getattr__ ctx "import_cache");
      cbn; intros [= <-]; eauto.
  - intros [= <-]. exists ∅. by rewrite insert_empty.
Qed.

(** What was added is what is loaded next. *)
Lemma load_after_add key v st st' :
  context st ≠ None →
  _add_to_import_cache key v st = (Ok (), st') →
  _load_from_import_cache key st' = (Ok v, st').
Proof.
  destruct (context st) as [ctx|] eqn:Ec; [intros _|done].
  intros [d ->]%(add_ok _ _ _ _ _ Ec).
  unfold _load_from_import_cache. cbn [context].
  unfold YDefsContext.__getattr__, dict_get. rewrite lookup_insert_eq.
  cbn [default from_option id]. rewrite truthy_dict_insert.
  cbn [cache_get]. unfold dict_get. by rewrite lookup_insert_eq.
Qed.



(** A true entry is returned as it is, with no call of the interpreter. *)
Lemma get_cls_hit py s st v :
  _load_from_import_cache s st = (Ok v, st) → truthy v = true →
  get_cls py s st = (Ok v, st).
Proof. intros Hl Ht. unfold get_cls. by rewrite bind_st, Hl, Ht. Qed.





End ImportFacts.




(** C5, as stated, fails for the class resolution: when the module
    [pkg.mod] is found and has no attribute [Missing], [get_cls] raises
    the AttributeError itself, which is no import error. *)
Lemma get_cls_attribute_error_counterexample :
  YPropertyBase.get_cls Samples.interp0 "pkg.mod.Missing" Samples.st0
    = (Raise (Exc AttributeError "Missing"), Samples.st0) ∧
  is_import_error (Exc AttributeError "Missing") = false.
Proof. split; reflexivity. Qed.

(** C5, amended: for every dotted identifier whose import fails with an
    exception e (a bad module path or a missing attribute), [get_cls],
    when the identifier is not cached, raises e itself; [get_attribute]
    raises an ImportError when e is an AttributeError and e itself
    otherwise, so that an attribute that is not found and a module that is
    not found both leave [get_attribute] as import errors; and when
    [get_property] fails, [get_import] ends as [get_attribute] does. *)
Theorem import_failures {W : Type} (py : YPropertyBase.interpreter W)
    (s : string) (st st' : YPropertyBase.state W) (e : exception) :
  YPropertyBase.import_attr py (item0 (rpartition s ".")) (item2 (rpartition s "."))
    st = (Raise e, st') →
  (∀ ret, YPropertyBase._load_from_import_cache s st = (Ok ret, st) →
          truthy ret = false →
          YPropertyBase.get_cls py s st = (Raise e, st')) ∧
  YPropertyBase.get_attribute py s st
    = (Raise (match exc_type e with
              | AttributeError => Exc ImportError ""
              | _ => e
              end), st') ∧
  (exc_type e = AttributeError ∨ is_import_error e = true →
   ∃ e', YPropertyBase.get_attribute py s st = (Raise e', st') ∧
         is_import_error e' = true) ∧
  (∀ e1 st1, YPropertyBase.get_property py s st = (Raise e1, st1) →
             YPropertyBase.get_import py s st
             = YPropertyBase.get_attribute py s st1).
Proof.
  intros Hi.
  assert (Hattr : YPropertyBase.get_attribute py s st
    = (Raise (match exc_type e with
              | AttributeError => Exc ImportError ""
              | _ => e
              end), st')).
  { unfold YPropertyBase.get_attribute. rewrite bind_st.
    unfold try_except. rewrite Hi. unfold raise. by destruct (exc_type e). }
  repeat split.
  - intros ret Hl Ht. unfold YPropertyBase.get_cls.
    by rewrite bind_st, Hl, Ht, bind_st, try_reraise, Hi.
  - exact Hattr.
  - intros He. eexists. split; [exact Hattr|].
    destruct e as [c m]. unfold is_import_error in *. cbn in *.
    destruct He as [-> | He]; [reflexivity|]. by destruct c.
  - intros e1 st1 Hp. unfold YPropertyBase.get_import, try_except.
    by rewrite Hp.
Qed.

Lemma import_failures_witness :
  YPropertyBase.get_cls Samples.interp0 "pkg.mod.Missing" Samples.st0
    = (Raise (Exc AttributeError "Missing"), Samples.st0) ∧
  YPropertyBase.get_attribute Samples.interp0 "pkg.mod.Missing" Samples.st0
    = (Raise (Exc ImportError ""), Samples.st0) ∧
  YPropertyBase.get_attribute Samples.interp0 "nopkg.Missing" Samples.st0
    = (Raise (Exc ModuleNotFoundError "nopkg"), Samples.st0).
Proof.
  destruct (import_failures Samples.interp0 "pkg.mod.Missing" Samples.st0
              Samples.st0 (Exc AttributeError "Missing") eq_refl)
    as (Hcls & Hattr & _).
  destruct (import_failures Samples.interp0 "nopkg.Missing" Samples.st0
              Samples.st0 (Exc ModuleNotFoundError "nopkg") eq_refl)
    as (_ & Hmod & _).
  split; [apply (Hcls VNone); reflexivity|].
  split; [exact Hattr | exact Hmod].
Defined.

(** *** False entries of the import cache *)

Section FalseEntries.
Import YPropertyBase.
Context {W : Type}.
Implicit Types (py : interpreter W) (st : state W) (key s : string)
  (v c : value) (d : gmap string value).

Lemma live_lookup d key :
  live d !! key =
    match d !! key with
    | Some v => if truthy v then Some v else None
    | None => None
    end.
Proof.
  unfold live. destruct (d !! key) as [v|] eqn:E.
  - destruct (truthy v) eqn:Et.
    + by apply map_lookup_filter_Some.
    + apply map_lookup_filter_None. right. intros v' Hv' Hp.
      simplify_eq. cbn in Hp. congruence.
  - apply map_lookup_filter_None. by left.
Qed.

Lemma live_insert d key v :
  live (<[key := v]> d) =
    if truthy v then <[key := v]> (live d) else delete key (live d).
Proof.
  apply map_eq. intros j. rewrite live_lookup.
  destruct (decide (key = j)) as [<- | Hne].
  - rewrite lookup_insert_eq. destruct (truthy v).
    + by rewrite lookup_insert_eq.
    + by rewrite lookup_delete_eq.
  - rewrite lookup_insert_ne by done. destruct (truthy v).
    + rewrite lookup_insert_ne by done. by rewrite live_lookup.
    + rewrite lookup_delete_ne by done. by rewrite live_lookup.
Qed.

Lemma live_delete_false d key v :
  d !! key = Some v → truthy v = false → live (delete key d) = live d.
Proof.
  intros Hk Hv. apply map_eq. intros j. rewrite !live_lookup.
  destruct (decide (key = j)) as [<- | Hne].
  - by rewrite lookup_delete_eq, Hk, Hv.
  - by rewrite lookup_delete_ne.
Qed.

Lemma live_empty : live ∅ = ∅.
Proof. apply map_filter_empty. Qed.

Lemma cache_view_dict d : cache_view (VDict d) = inr (live d).
Proof.
  unfold cache_view. destruct (truthy (VDict d)) eqn:E; [done|].
  apply truthy_dict_false in E. subst. by rewrite live_empty.
Qed.

Lemma cache_view_false c : truthy c = false → cache_view c = inr ∅.
Proof. unfold cache_view. by intros ->. Qed.

(** A read sees the view only. *)
Lemma hit_load_view c key :
  hit (if truthy c then cache_get c key else Ok VNone) =
    match cache_view c with
    | inl c' => hit (cache_get c' key)
    | inr m => Ok (dict_get m key)
    end.
Proof.
  destruct (truthy c) eqn:Et.
  - destruct c; try (unfold cache_view; by rewrite Et).
    rewrite cache_view_dict. cbn. unfold dict_get. rewrite live_lookup.
    destruct (d !! key) as [v|]; cbn; [|done]. by destruct (truthy v).
  - by rewrite cache_view_false.
Qed.

Lemma load_same key st1 st2 :
  same_imports st1 st2 →
  hit (_load_from_import_cache key st1).1
    = hit (_load_from_import_cache key st2).1.
Proof.
  intros [_ Hv]. unfold _load_from_import_cache.
  destruct (context st1) as [c1|], (context st2) as [c2|]; try done.
  set (v1 := YDefsContext.__getattr__ c1 "import_cache") in *.
  set (v2 := YDefsContext.__getattr__ c2 "import_cache") in *.
  transitivity (hit (if truthy v1 then cache_get v1 key else Ok VNone));
    [by destruct (truthy v1)|].
  transitivity (hit (if truthy v2 then cache_get v2 key else Ok VNone));
    [|by destruct (truthy v2)].
  by rewrite !hit_load_view, Hv.
Qed.

(** A write acts on the view only. *)
Lemma add_view key v st ctx :
  context st = Some ctx →
  match cache_view (YDefsContext.__getattr__ ctx "import_cache") with
  | inl _ =>
      _add_to_import_cache key v st
      = (Raise (Exc TypeError "object does not support item assignment"), st)
  | inr m =>
      ∃ ctx',
        _add_to_import_cache key v st = (Ok (), mk (Some ctx') (world st)) ∧
        cache_view (YDefsContext.__getattr__ ctx' "import_cache")
        = inr (if truthy v then <[key := v]> m else delete key m)
  end.
Proof.
  intros Hc. unfold _add_to_import_cache. rewrite Hc.
  set (c := YDefsContext.__getattr__ ctx "import_cache").
  destruct (truthy c) eqn:Et.
  - destruct c; try (unfold cache_view; by rewrite Et).
    rewrite cache_view_dict. cbn. eexists. split; [done|].
    unfold YDefsContext.__getattr__, dict_get. rewrite lookup_insert_eq. cbn.
    by rewrite cache_view_dict, live_insert.
  - rewrite cache_view_false by done. eexists. split; [done|].
    unfold YDefsContext.__getattr__, YDefsContext.__setattr__, dict_get.
    rewrite lookup_insert_eq. cbn.
    by rewrite cache_view_dict, <- insert_empty, live_insert, live_empty.
Qed.

Lemma respects_add key v : respects (W := W) (_add_to_import_cache key v).
Proof.
  intros st1 st2 [Hw Hv].
  destruct (context st1) as [c1|] eqn:E1, (context st2) as [c2|] eqn:E2;
    try done.
  - pose proof (add_view key v st1 c1 E1) as H1.
    pose proof (add_view key v st2 c2 E2) as H2.
    rewrite Hv in H1.
    destruct (cache_view (YDefsContext.__getattr__ c2 "import_cache"))
      eqn:Ev2.
    + rewrite H1, H2. split; [done|]. split; [done|]. cbn [snd].
      by rewrite E1, E2, Hv, Ev2.
    + destruct H1 as (c1' & -> & Hv1), H2 as (c2' & -> & Hv2).
      split; [done|]. split; [done|]. cbn. by rewrite Hv1, Hv2.
  - unfold _add_to_import_cache. rewrite E1, E2. split; [done|].
    split; [done|]. cbn [snd]. by rewrite E1, E2.
Qed.

Lemma respects_ret {A} (a : A) : respects (W := W) (mret a).
Proof. intros st1 st2 Hs. by split. Qed.

Lemma respects_raise {A} e : respects (W := W) (A := A) (raise e).
Proof. intros st1 st2 Hs. by split. Qed.

Lemma respects_bind {A B} (m : M (state W) A) (f : A → M (state W) B) :
  respects m → (∀ a, respects (f a)) → respects (m ≫= f).
Proof.
  intros Hm Hf st1 st2 Hs. rewrite !bind_st.
  destruct (Hm st1 st2 Hs) as [Hr Hs'].
  destruct (m st1) as [[a1|e1] st1'], (m st2) as [[a2|e2] st2'];
    cbn in Hr, Hs'; simplify_eq; [by apply Hf | by split].
Qed.

Lemma respects_try {A} (m : M (state W) A) (h : exception → M (state W) A) :
  respects m → (∀ e, respects (h e)) → respects (try_except m h).
Proof.
  intros Hm Hh st1 st2 Hs. unfold try_except.
  destruct (Hm st1 st2 Hs) as [Hr Hs'].
  destruct (m st1) as [[a1|e1] st1'], (m st2) as [[a2|e2] st2'];
    cbn in Hr, Hs'; simplify_eq; [by split | by apply Hh].
Qed.

Lemma respects_run {A} (f : M W A) : respects (run f).
Proof.
  intros st1 st2 [Hw Hv]. unfold run. rewrite Hw.
  destruct (f (world st2)) as [r w]. by split.
Qed.

(** A read followed by code that does not use a false value read. *)
Lemma respects_load_bind {B} key (f : value → M (state W) B) :
  (∀ v, respects (f v)) →
  (∀ v, truthy v = false → f v = f VNone) →
  respects (_load_from_import_cache key ≫= f).
Proof.
  intros Hf Hfalse st1 st2 Hs. rewrite !bind_st.
  pose proof (load_same key st1 st2 Hs) as Hh.
  pose proof (load_state key st1) as Hl1.
  pose proof (load_state key st2) as Hl2.
  destruct (_load_from_import_cache key st1) as [[v1|e1] st1'],
           (_load_from_import_cache key st2) as [[v2|e2] st2'];
    cbn in Hh, Hl1, Hl2; subst st1' st2'.
  - destruct (truthy v1) eqn:E1, (truthy v2) eqn:E2; simplify_eq.
    + by apply Hf.
    + rewrite (Hfalse v1 E1), (Hfalse v2 E2). by apply Hf.
  - by destruct (truthy v1).
  - by destruct (truthy v2).
  - simplify_eq. by split.
Qed.

Lemma respects_import_attr py m name : respects (import_attr py m name).
Proof.
  apply respects_bind; [apply respects_run|]. intros o. apply respects_run.
Qed.

Lemma respects_get_cls py s : respects (get_cls py s).
Proof.
  apply respects_load_bind.
  - intros v. destruct (truthy v); [apply respects_ret|].
    apply respects_bind.
    + apply respects_try; [apply respects_import_attr|].
      intros e. apply respects_raise.
    + intros ret. apply respects_bind; [apply respects_add|].
      intros _. apply respects_ret.
  - by intros v ->.
Qed.

Lemma respects_get_property py s : respects (get_property py s).
Proof.
  apply respects_load_bind; [|by intros v ->].
  intros v. destruct (truthy v); [apply respects_ret|].
  apply respects_bind; [apply respects_get_cls|]. intros cls.
  apply respects_load_bind; [|by intros inst ->].
  intros inst. apply respects_bind.
  - destruct (negb (truthy inst)); [|apply respects_ret].
    apply respects_bind; [apply respects_run|]. intros o.
    apply respects_bind; [apply respects_add|]. intros _.
    apply respects_ret.
  - intros o. apply respects_bind.
    + apply respects_try; [apply respects_run|].
      intros e. apply respects_raise.
    + intros ret. apply respects_bind; [apply respects_add|].
      intros _. apply respects_ret.
Qed.

(** A state with a false entry and the state without the entry. *)
Lemma same_imports_delete st ctx d s v :
  context st = Some ctx →
  ctx !! "import_cache" = Some (VDict d) →
  d !! s = Some v → truthy v = false →
  same_imports st
    (mk (Some (<["import_cache" := VDict (delete s d)]> ctx)) (world st)).
Proof.
  intros Hc Hd Hs Hv. split; [done|]. rewrite Hc. cbn.
  unfold YDefsContext.__getattr__, dict_get.
  rewrite Hd, lookup_insert_eq. cbn [default from_option id].
  rewrite !cache_view_dict. by rewrite (live_delete_false d s v).
Qed.

End FalseEntries.

(** * Further properties *)

(** ** PropertyCache *)

(** X3: [set] is idempotent: setting a key to a value a second time
    leaves the cache as the first time left it, for maps as for any other
    value. *)
Theorem set_idempotent (c : PropertyCache.t) (k : string) (v : value) :
  PropertyCache.set (PropertyCache.set c k v) k v = PropertyCache.set c k v.
Proof.
  destruct (type_is_dict v) eqn:Ev.
  - destruct v as [| | | | |new| |]; try discriminate.
    assert (Hagain : ∀ m (stored : gmap string value),
      dict_update stored new = stored →
      PropertyCache.set
        (PropertyCache.mk (PropertyCache.__class__ c) (<[k := VDict stored]> m))
        k (VDict new)
      = PropertyCache.mk (PropertyCache.__class__ c) (<[k := VDict stored]> m)).
    { intros m stored Hst. destruct (decide (stored = ∅)) as [-> | Hne].
      - rewrite dict_update_empty_l in Hst. subst new.
        rewrite set_over_no_map; cbn.
        + by rewrite insert_insert_eq.
        + unfold PropertyCache.data. cbn. intros m'.
          rewrite lookup_insert_eq. congruence.
      - rewrite (set_dict_over_map _ k stored); cbn; [| |done].
        + by rewrite insert_insert_eq, Hst.
        + unfold PropertyCache.data. cbn. by rewrite lookup_insert_eq. }
    destruct (PropertyCache.data c !! k) as [cur|] eqn:Ek.
    + assert (Hcases : (∃ m, cur = VDict m ∧ m ≠ ∅) ∨
                       (∀ m, cur = VDict m → m = ∅)).
      { destruct cur as [| | | | |m| |]; try (right; intros m' Hm'; discriminate).
        destruct (decide (m = ∅)) as [-> | Hm]; [|left; by exists m].
        right. by intros m' [= <-]. }
      destruct Hcases as [(m & -> & Hm) | Hno].
      * rewrite (set_dict_over_map c k m new Ek Hm). apply Hagain.
        unfold dict_update. by rewrite (assoc_L (∪)), (idemp_L (∪)).
      * rewrite (set_over_no_map c k).
        -- apply Hagain. unfold dict_update. apply (idemp_L (∪)).
        -- intros m Hm. rewrite Ek in Hm. simplify_eq. by apply Hno.
    + rewrite (set_over_no_map c k).
      * apply Hagain. unfold dict_update. apply (idemp_L (∪)).
      * intros m Hm. by rewrite Ek in Hm.
  - rewrite !set_not_dict by done. cbn. by rewrite insert_insert_eq.
Qed.

(** X4: [merge] refuses everything that is not a cache of the class of
    the target: the target is returned as it is; and the target keeps its
    class in every case. *)
Theorem merge_refused (self : PropertyCache.t) (cache : value) :
  (∀ d, cache ≠ VCache (PropertyCache.__class__ self) d) →
  PropertyCache.merge self cache = self ∧
  ∀ other, PropertyCache.__class__ (PropertyCache.merge self other)
           = PropertyCache.__class__ self.
Proof.
  intros Hno. split.
  - unfold PropertyCache.merge. destruct cache as [| | | | | | |cls d]; try done.
    destruct (String.eqb cls (PropertyCache.__class__ self)) eqn:E; [|done].
    apply String.eqb_eq in E. subst cls. by destruct (Hno d).
  - intros other. unfold PropertyCache.merge.
    destruct other as [| | | | | | |cls d]; try done.
    by destruct (negb _).
Qed.

Lemma merge_refused_witness :
  PropertyCache.merge Samples.cache_a (VCache "OtherCache" Samples.map_b)
    = Samples.cache_a ∧
  PropertyCache.merge Samples.cache_a (VDict Samples.map_b) = Samples.cache_a.
Proof.
  split.
  - apply (merge_refused Samples.cache_a (VCache "OtherCache" Samples.map_b)).
    intros d. discriminate.
  - apply (merge_refused Samples.cache_a (VDict Samples.map_b)).
    intros d. discriminate.
Defined.

(** X5: merging the same cache a second time changes nothing, and after a
    merge of two caches of one class the target has exactly the keys of
    both. *)
Theorem merge_idempotent_keys (A : PropertyCache.t) (cache : value) :
  PropertyCache.merge (PropertyCache.merge A cache) cache
    = PropertyCache.merge A cache ∧
  ∀ B, PropertyCache.__class__ A = PropertyCache.__class__ B →
       dom (PropertyCache.data (PropertyCache.merge A (PropertyCache.to_value B)))
       = dom (PropertyCache.data A) ∪ dom (PropertyCache.data B).
Proof.
  split.
  - unfold PropertyCache.merge. destruct cache as [| | | | | | |cls d]; try done.
    destruct (String.eqb cls (PropertyCache.__class__ A)) eqn:E; cbn;
      rewrite E; cbn; [|done].
    unfold dict_update. by rewrite (assoc_L (∪)), (idemp_L (∪)).
  - intros B Hc. rewrite (merge_same_class _ _ Hc).
    unfold PropertyCache.data, dict_update. cbn.
    rewrite dom_union_L. apply (comm_L (∪)).
Qed.

Lemma merge_idempotent_keys_witness :
  dom (PropertyCache.data
         (PropertyCache.merge Samples.cache_a
            (PropertyCache.to_value Samples.is_running_cache)))
  = dom (PropertyCache.data Samples.cache_a)
    ∪ dom (PropertyCache.data Samples.is_running_cache).
Proof.
  apply (merge_idempotent_keys Samples.cache_a VNone). reflexivity.
Defined.

(** ** cached_yproperty_attr *)

(** X6: when the decorated function returns a value other than None, and
    did not itself leave a non-empty map under the attribute's key, the
    value is stored under that key and every later read of the attribute
    returns it without running the function again. *)
Theorem cached_attr_memoized {A : Type} (f_name : string)
    (f : M (CachedAttr.inst A) value) (i i1 : CachedAttr.inst A)
    (ret : value) :
  is_None (PropertyCache.__getattr__ (CachedAttr.cache i)
             (CachedAttr.attr_key f_name)) = true →
  f i = (Ok ret, i1) →
  is_None ret = false →
  (∀ m, PropertyCache.data (CachedAttr.cache i1) !! CachedAttr.attr_key f_name
        = Some (VDict m) → m = ∅) →
  let i2 :=
    CachedAttr.mk
      (PropertyCache.set (CachedAttr.cache i1) (CachedAttr.attr_key f_name) ret)
      (CachedAttr.fields i1) in
  CachedAttr.cached_yproperty_attr f_name f i = (Ok ret, i2) ∧
  ∀ f', CachedAttr.cached_yproperty_attr f_name f' i2 = (Ok ret, i2).
Proof.
  intros Hmiss Hf Hret Hkey i2. split.
  - unfold CachedAttr.cached_yproperty_attr. rewrite Hmiss. cbn [negb].
    unfold mbind, M_bind. by rewrite Hf.
  - intros f'. unfold CachedAttr.cached_yproperty_attr. subst i2.
    cbn [CachedAttr.cache].
    rewrite (set_over_no_map _ _ _ Hkey), getattr_insert.
    by rewrite Hret.
Qed.

Lemma cached_attr_memoized_witness :
  let first :=
    CachedAttr.cached_yproperty_attr "hits" Samples2.counting Samples2.fresh_inst in
  first.1 = Ok (VInt 1) ∧
  CachedAttr.cached_yproperty_attr "hits" Samples2.counting first.2
    = (Ok (VInt 1), first.2).
Proof.
  intros first.
  destruct (cached_attr_memoized "hits" Samples2.counting Samples2.fresh_inst
              (CachedAttr.mk (PropertyCache.__init__ Samples.PC) 1) (VInt 1))
    as [H1 H2]; try reflexivity.
  - intros m Hm. discriminate Hm.
  - subst first. rewrite H1. split; [reflexivity|]. apply H2.
Defined.

(** X7: a None result is not memoized: it is stored, but the stored None
    reads as a miss, so the next read of the attribute runs the function
    again; and when the function raises, nothing is stored. *)
Theorem cached_attr_none_runs_again {A : Type} (f_name : string)
    (f : M (CachedAttr.inst A) value) (i i1 : CachedAttr.inst A) :
  is_None (PropertyCache.__getattr__ (CachedAttr.cache i)
             (CachedAttr.attr_key f_name)) = true →
  (f i = (Ok VNone, i1) →
   let i2 :=
     CachedAttr.mk
       (PropertyCache.set (CachedAttr.cache i1) (CachedAttr.attr_key f_name)
          VNone)
       (CachedAttr.fields i1) in
   CachedAttr.cached_yproperty_attr f_name f i = (Ok VNone, i2) ∧
   ∀ f', CachedAttr.cached_yproperty_attr f_name f' i2
         = (ret ← f'; CachedAttr.cache_set (CachedAttr.attr_key f_name) ret;;
            mret ret) i2) ∧
  (∀ e, f i = (Raise e, i1) →
        CachedAttr.cached_yproperty_attr f_name f i = (Raise e, i1)).
Proof.
  intros Hmiss. split.
  - intros Hf i2. split.
    + unfold CachedAttr.cached_yproperty_attr. rewrite Hmiss. cbn [negb].
      unfold mbind, M_bind. by rewrite Hf.
    + intros f'. unfold CachedAttr.cached_yproperty_attr at 1. subst i2.
      cbn [CachedAttr.cache].
      by rewrite set_not_dict, getattr_insert.
  - intros e Hf. unfold CachedAttr.cached_yproperty_attr. rewrite Hmiss.
    cbn [negb]. unfold mbind, M_bind. by rewrite Hf.
Qed.

Lemma cached_attr_none_runs_again_witness :
  let first :=
    CachedAttr.cached_yproperty_attr "maybe" Samples2.returning_none
      Samples2.fresh_inst in
  let second :=
    CachedAttr.cached_yproperty_attr "maybe" Samples2.returning_none first.2 in
  first.1 = Ok VNone ∧ CachedAttr.fields first.2 = 1 ∧
  second.1 = Ok VNone ∧ CachedAttr.fields second.2 = 2.
Proof.
  intros first second.
  destruct (cached_attr_none_runs_again "maybe" Samples2.returning_none
              Samples2.fresh_inst
              (CachedAttr.mk (PropertyCache.__init__ Samples.PC) 1) eq_refl)
    as [H1 _].
  destruct (H1 eq_refl) as [Hfirst Hagain].
  subst second first. rewrite Hfirst. cbn [fst snd].
  rewrite (Hagain Samples2.returning_none).
  repeat split; reflexivity.
Defined.

(** ** Splitting strings *)

Section StringFacts.
Import Notions2.
Implicit Types (a b p r s : string) (c : Ascii.ascii).

Lemma append_cons x a b : String x a ++ b = String x (a ++ b).
Proof. reflexivity. Qed.

Lemma append_nil_l a : "" ++ a = a.
Proof. reflexivity. Qed.

Lemma append_assoc a b r : (a ++ b) ++ r = a ++ (b ++ r).
Proof.
  induction a as [|x a IH]; [done|]. rewrite !append_cons. congruence.
Qed.

Lemma append_nil_r a : a ++ "" = a.
Proof.
  induction a as [|x a IH]; [done|]. rewrite append_cons. congruence.
Qed.

Lemma length_append a b :
  String.length (a ++ b) = String.length a + String.length b.
Proof.
  induction a as [|x a IH]; [done|].
  rewrite append_cons. cbn [String.length Nat.add]. congruence.
Qed.

Lemma prefix_nil s : String.prefix "" s = true.
Proof. by destruct s. Qed.

Lemma prefix_append p r : String.prefix p (p ++ r) = true.
Proof.
  induction p as [|x p IH]; [apply prefix_nil|].
  change (String x p ++ r) with (String x (p ++ r)).
  by rewrite prefix_cons, Ascii.eqb_refl.
Qed.

Lemma substring_all s : String.substring 0 (String.length s) s = s.
Proof.
  induction s as [|x s IH]; [done|].
  cbn [String.length String.substring]. congruence.
Qed.

Lemma substring_head a b : String.substring 0 (String.length a) (a ++ b) = a.
Proof.
  induction a as [|x a IH]; [by destruct b|].
  rewrite append_cons. cbn [String.length String.substring]. congruence.
Qed.

Lemma drop_str_append a b : drop_str (String.length a) (a ++ b) = b.
Proof.
  unfold drop_str. rewrite length_append.
  replace (String.length a + String.length b - String.length a)
    with (String.length b) by lia.
  induction a as [|x a IH]; [apply substring_all|].
  rewrite append_cons. cbn [String.length String.substring]. exact IH.
Qed.

(** A string that starts with a non-empty separator is split there. *)
Lemma partition_prefix p r :
  p ≠ "" → partition (p ++ r) p = ("", p, r).
Proof.
  intros Hp. unfold partition.
  destruct p as [|x p]; [done|].
  change (String x p ++ r) with (String x (p ++ r)).
  cbn [String.index].
  change (String x (p ++ r)) with (String x p ++ r).
  rewrite prefix_append. cbn [String.substring Nat.add].
  by rewrite drop_str_append.
Qed.

Lemma index_char_none c s :
  has_char c s = false → String.index 0 (String c "") s = None.
Proof.
  induction s as [|x s IH]; [done|].
  cbn [has_char]. intros [Hx Hs]%orb_false_iff.
  cbn [String.index]. rewrite prefix_cons, Hx. cbn. by rewrite (IH Hs).
Qed.

Lemma index_char_first c a b :
  has_char c a = false →
  String.index 0 (String c "") (a ++ String c b) = Some (String.length a).
Proof.
  induction a as [|x a IH].
  - intros _. rewrite append_nil_l. cbn [String.index].
    by rewrite prefix_cons, Ascii.eqb_refl, prefix_nil.
  - cbn [has_char]. intros [Hx Ha]%orb_false_iff.
    change (String x a ++ String c b) with (String x (a ++ String c b)).
    cbn [String.index]. rewrite prefix_cons, Hx. cbn. by rewrite (IH Ha).
Qed.

(** [partition] splits at the first separator: what comes before holds
    none. *)
Lemma partition_char c a b :
  has_char c a = false →
  partition (a ++ String c b) (String c "") = (a, String c "", b).
Proof.
  intros Ha. unfold partition. rewrite (index_char_first c a b Ha).
  rewrite substring_head.
  change (String c b) with (String c "" ++ b).
  rewrite <- append_assoc, <- length_append.
  by rewrite drop_str_append.
Qed.

Lemma partition_none c s :
  has_char c s = false → partition s (String c "") = (s, "", "").
Proof. intros Hs. unfold partition. by rewrite (index_char_none c s Hs). Qed.

Lemma rindex_char_none c s :
  has_char c s = false → rindex (String c "") s = None.
Proof.
  induction s as [|x s IH]; [done|].
  cbn [has_char]. intros [Hx Hs]%orb_false_iff.
  cbn [rindex]. rewrite (IH Hs), prefix_cons, Hx. done.
Qed.

Lemma rindex_char_last c a b :
  has_char c b = false →
  rindex (String c "") (a ++ String c b) = Some (String.length a).
Proof.
  intros Hb. induction a as [|x a IH].
  - rewrite append_nil_l. cbn [rindex]. rewrite (rindex_char_none c b Hb).
    by rewrite prefix_cons, Ascii.eqb_refl, prefix_nil.
  - change (String x a ++ String c b) with (String x (a ++ String c b)).
    cbn [rindex]. by rewrite IH.
Qed.

(** [rpartition] splits at the last separator: what comes after holds
    none. *)
Lemma rpartition_char c a b :
  has_char c b = false →
  rpartition (a ++ String c b) (String c "") = (a, String c "", b).
Proof.
  intros Hb. unfold rpartition. rewrite (rindex_char_last c a b Hb).
  rewrite substring_head.
  change (String c b) with (String c "" ++ b).
  rewrite <- append_assoc, <- length_append.
  by rewrite drop_str_append.
Qed.

Lemma rpartition_none c s :
  has_char c s = false → rpartition s (String c "") = ("", "", s).
Proof. intros Hs. unfold rpartition. by rewrite (rindex_char_none c s Hs). Qed.

(** The same for the separators of the module. *)
Lemma partition_dot a b :
  has_char dot a = false → partition (a ++ "." ++ b) "." = (a, ".", b).
Proof. exact (partition_char dot a b). Qed.

Lemma partition_colon a b :
  has_char colon a = false → partition (a ++ ":" ++ b) ":" = (a, ":", b).
Proof. exact (partition_char colon a b). Qed.

Lemma partition_no_colon s :
  has_char colon s = false → partition s ":" = (s, "", "").
Proof. exact (partition_none colon s). Qed.

Lemma rpartition_dot a b :
  has_char dot b = false → rpartition (a ++ "." ++ b) "." = (a, ".", b).
Proof. exact (rpartition_char dot a b). Qed.

Lemma rpartition_no_dot s :
  has_char dot s = false → rpartition s "." = ("", "", s).
Proof. exact (rpartition_none dot s). Qed.

End StringFacts.

(** ** The parts of a reference *)

Section ReferenceParts.
Import Notions2 PropertyCacheRefResolver.
Context (vars : option (string → result value))
        (checks : option (gmap string check)).
Implicit Types (cn pn key rest suffix name : string).

Lemma checks_ref_reftype cn rest :
  reftype (mk ("@checks." ++ cn ++ "." ++ rest) vars checks) = Ok "checks".
Proof. apply reftype_checks. unfold startswith. cbn [refstr]. apply prefix_append. Qed.

Lemma checks_ref_check_name cn rest :
  has_char dot cn = false →
  check_name (mk ("@checks." ++ cn ++ "." ++ rest) vars checks) = Ok cn.
Proof.
  intros Hcn. unfold check_name. rewrite checks_ref_reftype. cbn [refstr].
  change (rt ← Ok "checks";
          (if negb (String.eqb rt "checks")
           then Raise (Exc Exception "ref does not have type 'checks'")
           else Ok (item0 (partition (item2
                  (partition ("@checks." ++ cn ++ "." ++ rest) "@checks.")) "."))))
    with (Ok (item0 (partition (item2
                  (partition ("@checks." ++ cn ++ "." ++ rest) "@checks.")) "."))
          : result string).
  rewrite partition_prefix by done. unfold item2. cbn [snd].
  by rewrite (partition_dot cn rest Hcn).
Qed.

Lemma checks_ref_body cn rest :
  has_char dot cn = false →
  _ref_body (mk ("@checks." ++ cn ++ "." ++ rest) vars checks) = Ok rest.
Proof.
  intros Hcn. unfold _ref_body.
  rewrite checks_ref_reftype, (checks_ref_check_name cn rest Hcn).
  cbn [refstr].
  change (Ok rest) with
    (Ok (item2 (("", "@checks." ++ cn ++ ".", rest)
                : string * string * string))).
  rewrite <- (partition_prefix ("@checks." ++ cn ++ ".") rest) by done.
  by rewrite !append_assoc.
Qed.

End ReferenceParts.

Section ReferenceFields.
Import Notions2 PropertyCacheRefResolver.
Context (py : python) (vars : option (string → result value))
        (checks : option (gmap string check)).
Implicit Types (cn pn key rest suffix name : string) (func : option string).

Lemma bind_Ok {A B} (a : A) (f : A → result B) : (Ok a ≫= f) = f a.
Proof. reflexivity. Qed.

(** The text after the key: [:func] or nothing. *)
Lemma suffix_split key func :
  has_char colon key = false →
  partition (key ++ match func with Some f => ":" ++ f | None => "" end) ":"
  = match func with
    | Some f => (key, ":", f)
    | None => (key, "", "")
    end.
Proof.
  intros Hk. destruct func as [f|].
  - by apply partition_colon.
  - rewrite append_nil_r. by apply partition_no_colon.
Qed.

Lemma checks_ref_property_name cn pn rest :
  has_char dot cn = false → has_char dot pn = false →
  property_name (mk (checks_ref cn pn rest "") vars checks) = Ok (Some pn).
Proof.
  intros Hcn Hpn. unfold property_name, checks_ref.
  rewrite checks_ref_reftype, bind_Ok, String.eqb_refl.
  rewrite (checks_ref_body vars checks cn _ Hcn), bind_Ok.
  by rewrite (partition_dot pn _ Hpn).
Qed.

Lemma checks_ref_key_part cn pn rest :
  has_char dot cn = false → has_char dot pn = false →
  (body ← _ref_body (mk (checks_ref cn pn rest "") vars checks);
   Ok (item2 (partition body "."))) = Ok rest.
Proof.
  intros Hcn Hpn. unfold checks_ref.
  rewrite (checks_ref_body vars checks cn _ Hcn), bind_Ok.
  rewrite (partition_dot pn _ Hpn). unfold item2. cbn [snd].
  by rewrite append_nil_r.
Qed.

Lemma checks_ref_suffix cn pn key suffix :
  checks_ref cn pn key suffix = checks_ref cn pn (key ++ suffix) "".
Proof. unfold checks_ref. by rewrite (append_nil_r (key ++ suffix)). Qed.

End ReferenceFields.

(** The fields of a well-formed cache reference. *)
Lemma checks_ref_fields (cn pn key : string) (func : option string)
    (vars : option (string → result value))
    (checks : option (gmap string PropertyCacheRefResolver.check)) :
  Notions2.has_char Notions2.dot cn = false →
  Notions2.has_char Notions2.dot pn = false →
  Notions2.has_char Notions2.colon key = false →
  let self :=
    PropertyCacheRefResolver.mk
      (Notions2.checks_ref cn pn key
         match func with Some f => ":" ++ f | None => "" end) vars checks in
  PropertyCacheRefResolver.reftype self = Ok "checks" ∧
  PropertyCacheRefResolver.check_name self = Ok cn ∧
  PropertyCacheRefResolver.property_name self = Ok (Some pn) ∧
  PropertyCacheRefResolver.property_cache_key self = Ok key ∧
  PropertyCacheRefResolver.property_cache_value_renderer_function self
    = Ok (default "" func).
Proof.
  intros Hcn Hpn Hkey self. subst self.
  rewrite checks_ref_suffix.
  assert (Hrt : PropertyCacheRefResolver.reftype
            (PropertyCacheRefResolver.mk
               (Notions2.checks_ref cn pn
                  (key ++ match func with Some f => ":" ++ f | None => "" end)
                  "") vars checks) = Ok "checks")
    by apply checks_ref_reftype.
  split; [exact Hrt|].
  split; [by apply checks_ref_check_name|].
  split; [by apply checks_ref_property_name|].
  unfold PropertyCacheRefResolver.property_cache_key,
    PropertyCacheRefResolver.property_cache_value_renderer_function.
  rewrite Hrt, !bind_Ok, String.eqb_refl.
  rewrite (checks_ref_key_part vars checks cn pn _ Hcn Hpn), !bind_Ok.
  rewrite (suffix_split key func Hkey).
  by destruct func.
Qed.

(** X8: a cache reference [@checks.<check>.<property>.<key>[:func]], for
    a check name and a property name without a dot and a key without a
    colon (the key may hold dots), is read back part by part: the check
    name, the property name, the cache key and the function name, which is
    empty when there is no [:func]. *)
Theorem checks_ref_parts (cn pn key : string) (func : option string)
    (vars : option (string → result value))
    (checks : option (gmap string PropertyCacheRefResolver.check)) :
  Notions2.has_char Notions2.dot cn = false →
  Notions2.has_char Notions2.dot pn = false →
  Notions2.has_char Notions2.colon key = false →
  let self :=
    PropertyCacheRefResolver.mk
      (Notions2.checks_ref cn pn key
         match func with Some f => ":" ++ f | None => "" end) vars checks in
  PropertyCacheRefResolver.reftype self = Ok "checks" ∧
  PropertyCacheRefResolver.check_name self = Ok cn ∧
  PropertyCacheRefResolver.property_name self = Ok (Some pn) ∧
  PropertyCacheRefResolver.property_cache_key self = Ok key ∧
  PropertyCacheRefResolver.property_cache_value_renderer_function self
    = Ok (default "" func).
Proof. intros Hcn Hpn Hkey. by apply checks_ref_fields. Qed.

Lemma checks_ref_parts_witness :
  let self :=
    PropertyCacheRefResolver.mk
      "@checks.svc_check.is_running.ports.open:comma_join" None None in
  PropertyCacheRefResolver.check_name self = Ok "svc_check" ∧
  PropertyCacheRefResolver.property_name self = Ok (Some "is_running") ∧
  PropertyCacheRefResolver.property_cache_key self = Ok "ports.open" ∧
  PropertyCacheRefResolver.property_cache_value_renderer_function self
    = Ok "comma_join".
Proof.
  intros self.
  destruct (checks_ref_parts "svc_check" "is_running" "ports.open"
              (Some "comma_join") None None) as (_ & H1 & H2 & H3 & H4);
    try reflexivity.
  repeat split; assumption.
Defined.

Section ReferenceResolution.
Import Notions2 PropertyCacheRefResolver.
Context (py : python).
Implicit Types (cn pn key name : string) (func : option string) (v : value).

(** What [apply_renderer_function] does for a function name. *)
Lemma apply_renderer self f v :
  property_cache_value_renderer_function self = Ok f →
  apply_renderer_function py self v =
    if String.eqb f "" then Ok v
    else if String.eqb f "comma_join" then str_join py ", " v
    else builtins_call py f v.
Proof.
  intros Hf. unfold apply_renderer_function. rewrite Hf, bind_Ok.
  cbn [truthy]. by destruct (String.eqb f "").
Qed.

Lemma variable_ref_reftype name vars checks :
  reftype (mk ("$" ++ name) vars checks) = Ok "variable".
Proof.
  apply reftype_variable. unfold startswith. cbn [refstr]. apply prefix_append.
Qed.

Lemma variable_ref_renderer name func vars checks :
  has_char colon name = false →
  property_cache_value_renderer_function
    (mk ("$" ++ name ++ match func with Some f => ":" ++ f | None => "" end)
       vars checks) = Ok (default "" func).
Proof.
  intros Hn. unfold property_cache_value_renderer_function, _ref_body.
  rewrite !variable_ref_reftype, !bind_Ok.
  change (String.eqb "variable" "checks") with false.
  change (String.eqb "variable" "variable") with true.
  cbn [refstr]. rewrite !bind_Ok.
  rewrite partition_prefix by done. unfold item2 at 2. cbn [snd].
  rewrite (suffix_split name func Hn). by destruct func.
Qed.

End ReferenceResolution.

(** X9: a cache reference to a check that is known and a property whose
    cache is in the cache of the check, for a plain key (a name that is no
    attribute of the cache object), resolves to the entry of the key in
    that property cache: None when the entry is None or missing, and
    otherwise the entry itself when there is no function, the entry joined
    with [", "] for [comma_join], and the builtin of that name applied to
    the entry for any other function. *)
Theorem checks_ref_resolve (py : python) (cn pn key : string)
    (func : option string) (vars : option (string → result value))
    (cs : gmap string PropertyCacheRefResolver.check)
    (chk : PropertyCacheRefResolver.check) (pc : PropertyCache.t) :
  Notions2.has_char Notions2.dot cn = false →
  Notions2.has_char Notions2.dot pn = false →
  Notions2.has_char Notions2.colon key = false →
  cs !! cn = Some chk →
  PropertyCache.getattr py (PropertyCacheRefResolver.cache chk) pn
    = Ok (PropertyCache.to_value pc) →
  plain_key py key →
  let self :=
    PropertyCacheRefResolver.mk
      (Notions2.checks_ref cn pn key
         match func with Some f => ":" ++ f | None => "" end)
      vars (Some cs) in
  let v := default VNone (PropertyCache.data pc !! key) in
  PropertyCacheRefResolver.lookup py self = Ok v ∧
  PropertyCacheRefResolver.resolve py self =
    if is_None v then Ok VNone
    else if String.eqb (default "" func) "" then Ok v
    else if String.eqb (default "" func) "comma_join" then str_join py ", " v
    else builtins_call py (default "" func) v.
Proof.
  intros Hcn Hpn Hkey Hchk Hpc Hplain self v.
  destruct (checks_ref_fields cn pn key func vars (Some cs) Hcn Hpn Hkey)
    as (Hrt & Hname & Hprop & Hk & Hf).
  assert (Hl : PropertyCacheRefResolver.lookup py self = Ok v).
  { rewrite (lookup_names_cache_key py self pc key).
    - rewrite (getattr_plain py _ _ Hplain). subst v.
      unfold PropertyCache.__getattr__.
      by destruct (PropertyCache.data pc !! key).
    - exists cs, cn, chk, pn. by repeat split. }
  split; [exact Hl|].
  unfold PropertyCacheRefResolver.resolve. rewrite Hl, bind_Ok.
  destruct (is_None v); [done|].
  by apply apply_renderer.
Qed.

Lemma checks_ref_resolve_witness :
  PropertyCacheRefResolver.resolve Samples2.py1
    (PropertyCacheRefResolver.mk "@checks.net_check.listening.ports:comma_join"
       None (Some Samples2.checks1))
  = Ok (VStr "80, 443") ∧
  PropertyCacheRefResolver.resolve Samples2.py1
    (PropertyCacheRefResolver.mk "@checks.net_check.listening.ports:len"
       None (Some Samples2.checks1))
  = Ok (VInt 2) ∧
  PropertyCacheRefResolver.resolve Samples2.py1
    (PropertyCacheRefResolver.mk "@checks.net_check.listening.ports"
       None (Some Samples2.checks1))
  = Ok (VList [VStr "80"; VStr "443"]).
Proof.
  split; [|split].
  - apply (checks_ref_resolve Samples2.py1 "net_check" "listening" "ports"
             (Some "comma_join") None Samples2.checks1 Samples2.net_check
             Samples2.listening_cache); try reflexivity. sample_plain_key.
  - apply (checks_ref_resolve Samples2.py1 "net_check" "listening" "ports"
             (Some "len") None Samples2.checks1 Samples2.net_check
             Samples2.listening_cache); try reflexivity. sample_plain_key.
  - apply (checks_ref_resolve Samples2.py1 "net_check" "listening" "ports"
             None None Samples2.checks1 Samples2.net_check
             Samples2.listening_cache); try reflexivity. sample_plain_key.
Defined.

(** X10: a cache reference to a check that is not in the checks dict
    raises a KeyError for the check name; and a reference to a property
    that left nothing in the cache of its check (its name being a plain
    key) looks the cache key up on None and raises what that lookup
    raises, the AttributeError of None for a name that None has not: only
    a missing key of an existing property cache resolves to None. *)
Theorem checks_ref_missing (py : python) (cn pn key : string)
    (func : option string) (vars : option (string → result value))
    (cs : gmap string PropertyCacheRefResolver.check) :
  Notions2.has_char Notions2.dot cn = false →
  Notions2.has_char Notions2.dot pn = false →
  Notions2.has_char Notions2.colon key = false →
  let self :=
    PropertyCacheRefResolver.mk
      (Notions2.checks_ref cn pn key
         match func with Some f => ":" ++ f | None => "" end)
      vars (Some cs) in
  (cs !! cn = None →
   PropertyCacheRefResolver.resolve py self = Raise (Exc KeyError cn)) ∧
  (∀ chk e, cs !! cn = Some chk →
            plain_key py pn →
            PropertyCache.data (PropertyCacheRefResolver.cache chk) !! pn = None →
            object_getattr py VNone key = Raise e →
            PropertyCacheRefResolver.resolve py self = Raise e).
Proof.
  intros Hcn Hpn Hkey self.
  destruct (checks_ref_fields cn pn key func vars (Some cs) Hcn Hpn Hkey)
    as (Hrt & Hname & Hprop & Hk & Hf).
  fold self in Hrt, Hname, Hprop, Hk, Hf.
  split.
  - intros Hnone. apply resolve_raises.
    by apply lookup_unknown_check with (cs := cs).
  - intros chk e Hchk Hplain Hnone He. apply resolve_raises.
    rewrite (lookup_checks py self cs cn chk pn VNone key); try done.
    by rewrite (getattr_plain py _ _ Hplain), getattr_unset.
Qed.

Lemma checks_ref_missing_witness :
  PropertyCacheRefResolver.resolve Samples2.py1
    (PropertyCacheRefResolver.mk "@checks.other_check.is_running.result"
       None (Some Samples.checks0))
  = Raise (Exc KeyError "other_check") ∧
  PropertyCacheRefResolver.resolve Samples2.py1
    (PropertyCacheRefResolver.mk "@checks.svc_check.is_enabled.result"
       None (Some Samples.checks0))
  = Raise (Exc AttributeError "result").
Proof.
  split.
  - apply (checks_ref_missing Samples2.py1 "other_check" "is_running" "result"
             None None Samples.checks0); reflexivity.
  - apply (checks_ref_missing Samples2.py1 "svc_check" "is_enabled" "result"
             None None Samples.checks0) with (chk := Samples.svc_check);
      try reflexivity. sample_plain_key.
Defined.

(** X11: a variable reference [$<name>[:func]], for a name without a
    colon, asks the variables object for that name: the outcome is its
    error if it raises, None if the variable is None, and otherwise the
    value itself when there is no function, the value joined with [", "]
    for [comma_join] and the builtin of that name applied to it for any
    other function; without a variables object the resolution raises. *)
Theorem variable_ref_resolve (py : python) (name : string)
    (func : option string) (vars : option (string → result value))
    (checks : option (gmap string PropertyCacheRefResolver.check)) :
  Notions2.has_char Notions2.colon name = false →
  let self :=
    PropertyCacheRefResolver.mk
      ("$" ++ name ++ match func with Some f => ":" ++ f | None => "" end)
      vars checks in
  PropertyCacheRefResolver.__init__ py
    (VStr (PropertyCacheRefResolver.refstr self)) vars checks = Ok self ∧
  PropertyCacheRefResolver.lookup py self =
    match vars with
    | Some resolve => resolve name
    | None => Raise (Exc AttributeError "resolve")
    end ∧
  PropertyCacheRefResolver.resolve py self =
    (v ← match vars with
         | Some resolve => resolve name
         | None => Raise (Exc AttributeError "resolve")
         end;
     if is_None v then Ok VNone
     else if String.eqb (default "" func) "" then Ok v
     else if String.eqb (default "" func) "comma_join" then str_join py ", " v
     else builtins_call py (default "" func) v).
Proof.
  intros Hn self.
  assert (Hrt : PropertyCacheRefResolver.reftype self = Ok "variable")
    by apply variable_ref_reftype.
  assert (Hl : PropertyCacheRefResolver.lookup py self =
    match vars with
    | Some resolve => resolve name
    | None => Raise (Exc AttributeError "resolve")
    end).
  { unfold PropertyCacheRefResolver.lookup. rewrite Hrt, bind_Ok.
    change (String.eqb "variable" "checks") with false. cbv iota.
    subst self. cbn [PropertyCacheRefResolver.refstr PropertyCacheRefResolver.vars].
    rewrite partition_prefix by done. unfold item2. cbn [snd].
    rewrite (suffix_split name func Hn). by destruct func. }
  split; [|split; [exact Hl|]].
  - unfold PropertyCacheRefResolver.__init__,
      PropertyCacheRefResolver.is_valid_cache_ref.
    cbn [format1 PropertyCacheRefResolver.refstr self].
    fold self. rewrite Hrt, bind_Ok.
    change (String.eqb "variable" "checks") with false.
    unfold startswith. rewrite (prefix_append "$"), orb_true_r. reflexivity.
  - unfold PropertyCacheRefResolver.resolve. rewrite Hl.
    destruct vars as [resolve|]; [|done].
    destruct (resolve name) as [v|e]; [|done]. rewrite !bind_Ok.
    destruct (is_None v); [done|].
    apply apply_renderer. by apply variable_ref_renderer.
Qed.

Lemma variable_ref_resolve_witness :
  PropertyCacheRefResolver.resolve Samples.py0
    (PropertyCacheRefResolver.mk "$hostname:str" (Some Samples2.vars0) None)
  = Ok (VStr "juju-1") ∧
  PropertyCacheRefResolver.resolve Samples.py0
    (PropertyCacheRefResolver.mk "$release:str" (Some Samples2.vars0) None)
  = Ok VNone.
Proof.
  split.
  - apply (variable_ref_resolve Samples.py0 "hostname" (Some "str")
             (Some Samples2.vars0) None). reflexivity.
  - apply (variable_ref_resolve Samples.py0 "release" (Some "str")
             (Some Samples2.vars0) None). reflexivity.
Defined.

(** ** Imports with and without a context *)

Section ImportExtras.
Import YPropertyBase.
Context {W : Type}.
Implicit Types (py : interpreter W) (st : state W) (key s : string)
  (v c : value) (ctx d : gmap string value).

Lemma load_no_context key st :
  context st = None → _load_from_import_cache key st = (Ok VNone, st).
Proof. unfold _load_from_import_cache. by intros ->. Qed.

Lemma add_no_context key v st :
  context st = None → _add_to_import_cache key v st = (Ok (), st).
Proof. unfold _add_to_import_cache. by intros ->. Qed.

Lemma run_no_context {A} (f : M W A) st :
  context st = None → context (run f st).2 = None.
Proof. intros Hc. by rewrite run_context. Qed.

Lemma get_cls_no_context py s st :
  context st = None →
  get_cls py s st
  = import_attr py (item0 (rpartition s ".")) (item2 (rpartition s ".")) st.
Proof.
  intros Hc. unfold get_cls.
  rewrite bind_st, (load_no_context s st Hc). cbn [truthy].
  rewrite bind_st, try_reraise.
  pose proof (import_attr_context py (item0 (rpartition s "."))
                (item2 (rpartition s ".")) st) as Hi.
  destruct (import_attr py _ _ st) as [[o|e] st1]; cbn in Hi; [|done].
  rewrite bind_st, add_no_context by congruence. reflexivity.
Qed.

(** A read of a dict that is the import cache. *)
Lemma load_dict key st ctx d :
  context st = Some ctx → ctx !! "import_cache" = Some (VDict d) → d ≠ ∅ →
  _load_from_import_cache key st = (Ok (dict_get d key), st).
Proof.
  intros Hc Hd Hne. unfold _load_from_import_cache. rewrite Hc.
  unfold YDefsContext.__getattr__, dict_get at 1 2. rewrite Hd.
  cbn [default from_option id]. by rewrite truthy_dict_true.
Qed.

Lemma bind_ext {A B} (m : M (state W) A) (f g : A → M (state W) B) st :
  (∀ a st', f a st' = g a st') → (m ≫= f) st = (m ≫= g) st.
Proof.
  intros Hfg. rewrite !bind_st. destruct (m st) as [[a|e] st']; [apply Hfg|done].
Qed.

Lemma bind_ret_r {A} (m : M (state W) A) st :
  (m ≫= λ a, mret a) st = m st.
Proof. rewrite bind_st. by destruct (m st) as [[a|e] st']. Qed.

Lemma bind_try_reraise {A B} (m : M (state W) A) (f : A → M (state W) B) st :
  (try_except m (fun e => raise e) ≫= f) st = (m ≫= f) st.
Proof.
  rewrite (bind_st (try_except m (fun e => raise e))), try_reraise.
  by rewrite (bind_st m).
Qed.

Lemma context_getattr_insert ctx n c :
  YDefsContext.__getattr__ (<[n := c]> ctx) n = c.
Proof.
  unfold YDefsContext.__getattr__, dict_get. by rewrite lookup_insert_eq.
Qed.

End ImportExtras.

(** X12: a property without a context memoizes nothing: [get_cls] is the
    import itself at every call, [get_property] imports the class, makes
    a new instance and reads the attribute at every call, and the state is
    left without a context. *)
Theorem no_context_no_cache {W : Type} (py : YPropertyBase.interpreter W)
    (s : string) (st : YPropertyBase.state W) :
  YPropertyBase.context st = None →
  YPropertyBase.get_cls py s st
    = YPropertyBase.import_attr py (item0 (rpartition s "."))
        (item2 (rpartition s ".")) st ∧
  YPropertyBase.get_property py s st
    = (cls ← YPropertyBase.import_attr py
               (item0 (rpartition (item0 (rpartition s ".")) "."))
               (item2 (rpartition (item0 (rpartition s ".")) "."));
       inst ← YPropertyBase.run (YPropertyBase.call py cls);
       YPropertyBase.run
         (YPropertyBase.getattr py inst (item2 (rpartition s ".")))) st ∧
  YPropertyBase.context (YPropertyBase.get_cls py s st).2 = None ∧
  YPropertyBase.context (YPropertyBase.get_property py s st).2 = None.
Proof.
  intros Hc.
  assert (Hcls : ∀ s', YPropertyBase.get_cls py s' st
    = YPropertyBase.import_attr py (item0 (rpartition s' "."))
        (item2 (rpartition s' ".")) st)
    by (intros s'; by apply get_cls_no_context).
  assert (Hprop : YPropertyBase.get_property py s st
    = (cls ← YPropertyBase.import_attr py
               (item0 (rpartition (item0 (rpartition s ".")) "."))
               (item2 (rpartition (item0 (rpartition s ".")) "."));
       inst ← YPropertyBase.run (YPropertyBase.call py cls);
       YPropertyBase.run
         (YPropertyBase.getattr py inst (item2 (rpartition s ".")))) st).
  { unfold YPropertyBase.get_property.
    rewrite bind_st, (load_no_context s st Hc). cbn [truthy].
    rewrite !bind_st, Hcls.
    pose proof (import_attr_context py
                  (item0 (rpartition (item0 (rpartition s ".")) "."))
                  (item2 (rpartition (item0 (rpartition s ".")) ".")) st) as Hi.
    destruct (YPropertyBase.import_attr py _ _ st) as [[cls|e] st1];
      cbn in Hi; [|done].
    assert (Hc1 : YPropertyBase.context st1 = None) by congruence.
    rewrite !bind_st, (load_no_context _ st1 Hc1). cbn [truthy negb].
    rewrite !bind_st.
    pose proof (run_context (YPropertyBase.call py cls) st1) as Hr.
    destruct (YPropertyBase.run (YPropertyBase.call py cls) st1)
      as [[inst|e] st2]; cbn in Hr; [|done].
    assert (Hc2 : YPropertyBase.context st2 = None) by congruence.
    rewrite bind_st, (add_no_context _ inst st2 Hc2).
    cbn [mret M_ret]. rewrite bind_st, try_reraise.
    pose proof (run_context
                  (YPropertyBase.getattr py inst (item2 (rpartition s ".")))
                  st2) as Hr2.
    destruct (YPropertyBase.run (YPropertyBase.getattr py inst _) st2)
      as [[r|e] st3]; cbn in Hr2; [|done].
    rewrite bind_st, add_no_context by congruence. reflexivity. }
  split; [apply Hcls|]. split; [exact Hprop|]. split.
  - rewrite Hcls, import_attr_context. exact Hc.
  - rewrite Hprop. rewrite bind_st.
    pose proof (import_attr_context py
                  (item0 (rpartition (item0 (rpartition s ".")) "."))
                  (item2 (rpartition (item0 (rpartition s ".")) ".")) st) as Hi.
    destruct (YPropertyBase.import_attr py _ _ st) as [[cls|e] st1];
      cbn in Hi; [|cbn; congruence].
    rewrite bind_st.
    pose proof (run_context (YPropertyBase.call py cls) st1) as Hr.
    destruct (YPropertyBase.run (YPropertyBase.call py cls) st1)
      as [[inst|e] st2]; cbn in Hr; [|cbn; congruence].
    rewrite run_context. congruence.
Qed.

Lemma no_context_no_cache_witness :
  let first :=
    YPropertyBase.get_property Samples.interp0 "pkg.mod.Cls.prop"
      Samples2.st_none in
  let second :=
    YPropertyBase.get_property Samples.interp0 "pkg.mod.Cls.prop" first.2 in
  first.1 = Ok (VObject 101 true) ∧ second.1 = Ok (VObject 103 true) ∧
  YPropertyBase.context second.2 = None.
Proof.
  intros first second.
  destruct (no_context_no_cache Samples.interp0 "pkg.mod.Cls.prop"
              Samples2.st_none eq_refl) as (_ & H1 & _ & Hc1).
  destruct (no_context_no_cache Samples.interp0 "pkg.mod.Cls.prop"
              first.2 Hc1) as (_ & H2 & _ & Hc2).
  subst second. split; [|split; [|exact Hc2]].
  - subst first. rewrite H1. reflexivity.
  - rewrite H2. reflexivity.
Defined.

(** X13: a successful write to the import cache changes that one entry
    only: the key reads back as the value written, every other key reads
    as before, every other entry of the context is untouched, and when the
    context held no import cache yet, the cache is created with that one
    entry. *)
Theorem import_cache_write {W : Type} (key : string) (v : value)
    (st st' : YPropertyBase.state W) (ctx : gmap string value) :
  YPropertyBase.context st = Some ctx →
  YPropertyBase._add_to_import_cache key v st = (Ok (), st') →
  YPropertyBase._load_from_import_cache key st' = (Ok v, st') ∧
  (∀ k, k ≠ key →
        (YPropertyBase._load_from_import_cache k st').1
        = (YPropertyBase._load_from_import_cache k st).1) ∧
  (∃ ctx', YPropertyBase.context st' = Some ctx' ∧
           (∀ n, n ≠ "import_cache" → ctx' !! n = ctx !! n) ∧
           (truthy (YDefsContext.__getattr__ ctx "import_cache") = false →
            ctx' !! "import_cache" = Some (VDict {[ key := v ]}))) ∧
  YPropertyBase.world st' = YPropertyBase.world st.
Proof.
  intros Hc Hadd.
  split; [apply (load_after_add key v st); [by rewrite Hc | done]|].
  revert Hadd. unfold YPropertyBase._add_to_import_cache. rewrite Hc.
  unfold YPropertyBase._load_from_import_cache. rewrite Hc.
  destruct (truthy (YDefsContext.__getattr__ ctx "import_cache")) eqn:Et.
  - destruct (YDefsContext.__getattr__ ctx "import_cache") as [| | | | |d| |]
      eqn:Ec; cbn [YPropertyBase.cache_setitem]; try discriminate.
    intros [= <-]. cbn [YPropertyBase.context YPropertyBase.world].
    split; [|split; [|done]].
    + intros k Hk. rewrite !context_getattr_insert, truthy_dict_insert.
      cbn [YPropertyBase.cache_get fst].
      unfold dict_get. by rewrite lookup_insert_ne.
    + eexists. split; [done|]. split; [|done].
      intros n Hn. by rewrite lookup_insert_ne.
  - intros [= <-]. cbn [YPropertyBase.context YPropertyBase.world].
    split; [|split; [|done]].
    + intros k Hk. unfold YDefsContext.__setattr__.
      rewrite !context_getattr_insert, <- insert_empty, truthy_dict_insert.
      cbn [YPropertyBase.cache_get fst].
      unfold dict_get. by rewrite lookup_insert_ne, lookup_empty.
    + eexists. split; [done|]. unfold YDefsContext.__setattr__. split.
      * intros n Hn. by rewrite lookup_insert_ne.
      * intros _. by rewrite lookup_insert_eq.
Qed.

Lemma import_cache_write_witness :
  let st' :=
    (YPropertyBase._add_to_import_cache "pkg.mod.Cls" (VObject 2 true)
       Samples.st0).2 in
  YPropertyBase._load_from_import_cache "pkg.mod.Cls" st'
    = (Ok (VObject 2 true), st') ∧
  (YPropertyBase._load_from_import_cache "pkg.mod.Other" st').1 = Ok VNone.
Proof.
  intros st'.
  destruct (import_cache_write "pkg.mod.Cls" (VObject 2 true) Samples.st0 st'
              ∅ eq_refl eq_refl) as (H1 & H2 & _).
  split; [exact H1|]. rewrite H2; [reflexivity|discriminate].
Defined.

(** X14: the last dot of an import string splits it: for a name without
    a dot, [get_attribute] of [<module>.<name>] imports [<module>] and
    reads [<name>] of it, and of a string without any dot it imports the
    module of empty name; [get_method] of [<module>.<class>.<method>]
    imports [<module>], instantiates [<class>] and calls [<method>]. *)
Theorem import_string_split {W : Type} (py : YPropertyBase.interpreter W)
    (m cname name : string) (st : YPropertyBase.state W) :
  Notions2.has_char Notions2.dot name = false →
  Notions2.has_char Notions2.dot cname = false →
  let normalized e :=
    match exc_type e with
    | AttributeError => Exc ImportError ""
    | _ => e
    end in
  YPropertyBase.get_attribute py (m ++ "." ++ name) st
    = try_except (YPropertyBase.import_attr py m name)
        (fun e => raise (normalized e)) st ∧
  YPropertyBase.get_attribute py name st
    = try_except (YPropertyBase.import_attr py "" name)
        (fun e => raise (normalized e)) st ∧
  YPropertyBase.get_method py (m ++ "." ++ cname ++ "." ++ name) st
    = (cls ← YPropertyBase.import_attr py m cname;
       inst ← YPropertyBase.run (YPropertyBase.call py cls);
       meth ← YPropertyBase.run (YPropertyBase.getattr py inst name);
       YPropertyBase.run (YPropertyBase.call py meth)) st.
Proof.
  intros Hname Hcname normalized.
  assert (Hattr : ∀ mod_ attr,
    (ret ← try_except (YPropertyBase.import_attr py mod_ attr)
             (fun exc =>
                match exc_type exc with
                | AttributeError => raise (Exc ImportError "")
                | _ => raise exc
                end);
     mret ret) st
    = try_except (YPropertyBase.import_attr py mod_ attr)
        (fun e => raise (normalized e)) st).
  { intros mod_ attr. rewrite bind_st. unfold try_except.
    destruct (YPropertyBase.import_attr py mod_ attr st) as [[o|e] st1];
      [done|].
    subst normalized. cbn beta. by destruct (exc_type e). }
  split; [|split].
  - unfold YPropertyBase.get_attribute.
    rewrite (rpartition_dot m name Hname). apply Hattr.
  - unfold YPropertyBase.get_attribute.
    rewrite (rpartition_no_dot name Hname). apply Hattr.
  - unfold YPropertyBase.get_method. cbv zeta.
    rewrite <- (append_assoc m "." (cname ++ "." ++ name)).
    rewrite <- (append_assoc (m ++ ".") cname ("." ++ name)).
    rewrite (rpartition_dot ((m ++ ".") ++ cname) name Hname).
    unfold item0 at 1 2 3, item2 at 1. cbn [fst snd].
    rewrite (append_assoc m "." cname).
    rewrite (rpartition_dot m cname Hcname).
    unfold item0, item2. cbn [fst snd].
    apply bind_ext. intros cls st1.
    by rewrite bind_ret_r, try_reraise.
Qed.

Lemma import_string_split_witness :
  YPropertyBase.get_attribute Samples.interp0 "pkg.mod.LIMIT" Samples.st0
    = (Ok (VInt 10), Samples.st0) ∧
  YPropertyBase.get_attribute Samples.interp0 "LIMIT" Samples.st0
    = (Raise (Exc ModuleNotFoundError ""), Samples.st0).
Proof.
  destruct (import_string_split Samples.interp0 "pkg.mod" "Cls" "LIMIT"
              Samples.st0 eq_refl eq_refl) as (H1 & H2 & _).
  split; [exact (eq_trans H1 eq_refl) | exact (eq_trans H2 eq_refl)].
Defined.

(** X15: at most one instance per class: when the import cache holds the
    class of a property and an instance of it under [<class>.object],
    [get_property] of a property that is not cached yet neither imports
    nor instantiates: it reads the attribute of the cached instance and
    stores what it reads under the import string. *)
Theorem instance_reused {W : Type} (py : YPropertyBase.interpreter W)
    (p name : string) (st : YPropertyBase.state W)
    (ctx d : gmap string value) (cls inst : value) :
  Notions2.has_char Notions2.dot name = false →
  YPropertyBase.context st = Some ctx →
  ctx !! "import_cache" = Some (VDict d) →
  truthy (dict_get d (p ++ "." ++ name)) = false →
  d !! p = Some cls → truthy cls = true →
  d !! (YPropertyBase.str py cls ++ ".object") = Some inst →
  truthy inst = true →
  YPropertyBase.get_property py (p ++ "." ++ name) st
  = (ret ← YPropertyBase.run (YPropertyBase.getattr py inst name);
     YPropertyBase._add_to_import_cache (p ++ "." ++ name) ret;;
     mret ret) st.
Proof.
  intros Hname Hc Hd Hmiss Hcls Htcls Hinst Htinst.
  assert (Hne : d ≠ ∅) by (intros ->; by rewrite lookup_empty in Hcls).
  unfold YPropertyBase.get_property.
  rewrite bind_st, (load_dict _ st ctx d Hc Hd Hne), Hmiss.
  rewrite (rpartition_dot p name Hname). unfold item0, item2. cbn [fst snd].
  rewrite bind_st.
  rewrite (get_cls_hit py p st cls); [|rewrite (load_dict _ st ctx d Hc Hd Hne);
    unfold dict_get; by rewrite Hcls|done].
  assert (Hget : dict_get d (YPropertyBase.str py cls ++ ".object") = inst)
    by (unfold dict_get; by rewrite Hinst).
  rewrite bind_st, (load_dict _ st ctx d Hc Hd Hne), !Hget.
  rewrite Htinst. cbn [negb].
  rewrite bind_st. cbn [mret M_ret].
  apply bind_try_reraise.
Qed.

Lemma instance_reused_witness :
  let after :=
    YPropertyBase.get_property Samples.interp0 "pkg.mod.Cls.prop"
      Samples2.st_inst in
  after.1 = Ok (VObject 100 true) ∧ YPropertyBase.world after.2 = 1.
Proof.
  intros after.
  assert (Hr := instance_reused Samples.interp0 "pkg.mod.Cls" "prop"
             Samples2.st_inst
             {[ "import_cache" :=
                  VDict {[ "pkg.mod.Cls" := VObject 2 true;
                           "<class 'pkg.mod.Cls'>.object" := VObject 7 true ]} ]}
             {[ "pkg.mod.Cls" := VObject 2 true;
                "<class 'pkg.mod.Cls'>.object" := VObject 7 true ]}
             (VObject 2 true) (VObject 7 true)
             eq_refl eq_refl eq_refl eq_refl eq_refl eq_refl eq_refl eq_refl).
  split.
  - exact (eq_trans (f_equal fst Hr) eq_refl).
  - exact (eq_trans (f_equal (fun r => YPropertyBase.world r.2) Hr) eq_refl).
Defined.

(** C9, as stated, fails for a property lookup. The first lookup of
    [pkg.mod.Cls.flag] imports the class, makes an instance (object 100)
    and stores the value False of the property; the read of that entry
    returns False, a miss. The second lookup does not run the resolution
    as a whole again: the class and the instance come from the cache, no
    object is made (the state is unchanged), and the lookup succeeds even
    with an interpreter that can neither import nor call, with which the
    resolution from an empty cache fails. *)
Lemma property_lookup_reuses_cache_counterexample :
  YPropertyBase.get_property Samples.interp0 "pkg.mod.Cls.flag" Samples.st0
    = (Ok (VBool false), Samples2.st_flag) ∧
  YPropertyBase._load_from_import_cache "pkg.mod.Cls.flag" Samples2.st_flag
    = (Ok (VBool false), Samples2.st_flag) ∧
  YPropertyBase.get_property Samples.interp0 "pkg.mod.Cls.flag" Samples2.st_flag
    = (Ok (VBool false), Samples2.st_flag) ∧
  YPropertyBase.get_property Samples2.attr_only "pkg.mod.Cls.flag"
    Samples2.st_flag = (Ok (VBool false), Samples2.st_flag) ∧
  YPropertyBase.get_property Samples2.attr_only "pkg.mod.Cls.flag" Samples.st0
    = (Raise (Exc ModuleNotFoundError "pkg.mod"), Samples.st0).
Proof. repeat split; vm_compute; reflexivity. Qed.

(** C9, amended: for every dotted identifier whose entry in the import
    cache is a false value, the read returns that entry and the lookups
    treat it as a miss. [get_cls] runs the import again and stores what it
    finds. [get_property] runs its miss path again, in which the class
    comes from [get_cls] and the instance from the cache: when the cache
    holds the class and an instance of it, only the attribute is read
    again and stored, with no import and no instantiation. Both return
    what they return, and act on the interpreter as they act, when the
    identifier has no entry at all. *)
Theorem false_entry_is_a_miss {W : Type} (py : YPropertyBase.interpreter W)
    (s : string) (st : YPropertyBase.state W)
    (ctx d : gmap string value) (v : value) :
  YPropertyBase.context st = Some ctx →
  ctx !! "import_cache" = Some (VDict d) →
  d !! s = Some v →
  truthy v = false →
  let unset :=
    YPropertyBase.mk (Some (<["import_cache" := VDict (delete s d)]> ctx))
      (YPropertyBase.world st) in
  YPropertyBase._load_from_import_cache s st = (Ok v, st) ∧
  YPropertyBase.get_cls py s st
    = (ret ← YPropertyBase.import_attr py (item0 (rpartition s "."))
               (item2 (rpartition s "."));
       YPropertyBase._add_to_import_cache s ret;;
       mret ret) st ∧
  YPropertyBase.get_property py s st
    = (cls ← YPropertyBase.get_cls py (item0 (rpartition s "."));
       cls_inst ← YPropertyBase._load_from_import_cache
                    (YPropertyBase.str py cls ++ ".object");
       cls_inst ← (if negb (truthy cls_inst) then
                     cls_inst ← YPropertyBase.run (YPropertyBase.call py cls);
                     YPropertyBase._add_to_import_cache
                       (YPropertyBase.str py cls ++ ".object") cls_inst;;
                     mret cls_inst
                   else mret cls_inst);
       ret ← YPropertyBase.run
               (YPropertyBase.getattr py cls_inst (item2 (rpartition s ".")));
       YPropertyBase._add_to_import_cache s ret;;
       mret ret) st ∧
  (∀ p name cls inst,
     s = p ++ "." ++ name →
     Notions2.has_char Notions2.dot name = false →
     d !! p = Some cls → truthy cls = true →
     d !! (YPropertyBase.str py cls ++ ".object") = Some inst →
     truthy inst = true →
     YPropertyBase.get_property py s st
     = (ret ← YPropertyBase.run (YPropertyBase.getattr py inst name);
        YPropertyBase._add_to_import_cache s ret;;
        mret ret) st) ∧
  (YPropertyBase.get_cls py s st).1 = (YPropertyBase.get_cls py s unset).1 ∧
  YPropertyBase.world (YPropertyBase.get_cls py s st).2
    = YPropertyBase.world (YPropertyBase.get_cls py s unset).2 ∧
  (YPropertyBase.get_property py s st).1
    = (YPropertyBase.get_property py s unset).1 ∧
  YPropertyBase.world (YPropertyBase.get_property py s st).2
    = YPropertyBase.world (YPropertyBase.get_property py s unset).2.
Proof.
  intros Hc Hd Hs Hv unset.
  assert (Hne : d ≠ ∅) by (intros ->; by rewrite lookup_empty in Hs).
  assert (Hget : dict_get d s = v) by (unfold dict_get; by rewrite Hs).
  assert (Hload : YPropertyBase._load_from_import_cache s st = (Ok v, st)).
  { by rewrite (load_dict _ st ctx d Hc Hd Hne), Hget. }
  pose proof (same_imports_delete st ctx d s v Hc Hd Hs Hv) as Hsame.
  destruct (respects_get_cls py s st unset Hsame) as [Hr1 [Hw1 _]].
  destruct (respects_get_property py s st unset Hsame) as [Hr2 [Hw2 _]].
  split; [exact Hload|]. split; [|split; [|split]].
  - unfold YPropertyBase.get_cls at 1.
    rewrite bind_st, Hload, Hv.
    rewrite !bind_st, try_reraise. reflexivity.
  - unfold YPropertyBase.get_property at 1.
    rewrite bind_st, Hload, Hv.
    apply bind_ext. intros cls st1.
    apply bind_ext. intros i0 st2.
    apply bind_ext. intros i1 st3.
    apply bind_try_reraise.
  - intros p name cls inst -> Hname Hcls Htcls Hinst Htinst.
    unfold YPropertyBase.get_property.
    rewrite bind_st, Hload, Hv.
    rewrite (rpartition_dot p name Hname). unfold item0, item2. cbn [fst snd].
    rewrite bind_st.
    rewrite (get_cls_hit py p st cls);
      [|rewrite (load_dict _ st ctx d Hc Hd Hne);
        unfold dict_get; by rewrite Hcls|done].
    assert (Hgi : dict_get d (YPropertyBase.str py cls ++ ".object") = inst)
      by (unfold dict_get; by rewrite Hinst).
    rewrite bind_st, (load_dict _ st ctx d Hc Hd Hne), !Hgi.
    rewrite Htinst. cbn [negb].
    rewrite bind_st. cbn [mret M_ret].
    apply bind_try_reraise.
  - repeat split; done.
Qed.

Lemma false_entry_is_a_miss_witness :
  YPropertyBase._load_from_import_cache "pkg.mod.EMPTY" Samples.st_false
    = (Ok (VList []), Samples.st_false) ∧
  YPropertyBase.get_cls Samples.no_modules "pkg.mod.EMPTY" Samples.st_false
    = (Raise (Exc ModuleNotFoundError "pkg.mod"), Samples.st_false) ∧
  (YPropertyBase.get_property Samples.interp0 "pkg.mod.EMPTY" Samples.st_false).1
    = (YPropertyBase.get_property Samples.interp0 "pkg.mod.EMPTY" Samples.st0).1 ∧
  YPropertyBase.get_property Samples2.attr_only "pkg.mod.Cls.flag"
    Samples2.st_flag = (Ok (VBool false), Samples2.st_flag).
Proof.
  destruct (false_entry_is_a_miss Samples.no_modules "pkg.mod.EMPTY"
              Samples.st_false Samples.false_ctx Samples.false_cache (VList []))
    as (Hload & Hcls & _); try reflexivity.
  destruct (false_entry_is_a_miss Samples.interp0 "pkg.mod.EMPTY"
              Samples.st_false Samples.false_ctx Samples.false_cache (VList []))
    as (_ & _ & _ & _ & _ & _ & Hprop & _); try reflexivity.
  destruct (false_entry_is_a_miss Samples2.attr_only "pkg.mod.Cls.flag"
              Samples2.st_flag Samples2.flag_ctx Samples2.flag_cache
              (VBool false))
    as (_ & _ & _ & Hreuse & _); try reflexivity.
  split; [exact Hload|]. split; [|split].
  - rewrite Hcls. reflexivity.
  - rewrite Hprop. vm_compute. reflexivity.
  - rewrite (Hreuse "pkg.mod.Cls" "flag" (VObject 2 true) (VObject 100 true))
      by reflexivity.
    vm_compute. reflexivity.
Defined.

(** ** More on the logical groups *)

Section GroupExtras.
Import LogicalCollectionHandler.
Context {St E N : Type} `{H : handler St E N}.
Implicit Types (g : logical_op_group E) (it : item E N) (s : St)
  (rs acc : list value) (level : list (item E N)) (ms : list (list E)).

Lemma member_results_app acc (l1 l2 : list E) s :
  member_results acc (l1 ++ l2) s =
    match member_results acc l1 s with
    | (Ok acc', s') => member_results acc' l2 s'
    | (Raise e, s') => (Raise e, s')
    end.
Proof.
  revert acc s. induction l1 as [|x l1 IH]; intros acc s; [done|].
  cbn [app member_results]. rewrite !bind_run.
  destruct (entry_result x s) as [[r|e] s1]; [apply IH|done].
Qed.

Lemma members_results_concat acc ms s :
  members_results acc ms s = member_results acc (concat ms) s.
Proof.
  revert acc s. induction ms as [|l ms IH]; intros acc s; [done|].
  cbn [concat members_results]. rewrite bind_run, member_results_app.
  destruct (member_results acc l s) as [[acc'|e] s1]; [apply IH|done].
Qed.

Lemma member_results_length acc (l : list E) s rs s' :
  member_results acc l s = (Ok rs, s') → length rs = length acc + length l.
Proof.
  revert acc s. induction l as [|x l IH]; intros acc s.
  - cbn. intros [= <- _]. lia.
  - cbn [member_results]. rewrite bind_run.
    destruct (entry_result x s) as [[r|e] s1]; [|done].
    intros Hr%IH. rewrite Hr, length_app. cbn. lia.
Qed.

Lemma run_group_xor g s :
  _override_name g = "xor" →
  run_logical_op_group g s = (Raise (unknown_operator "xor"), s).
Proof. unfold run_logical_op_group. by intros ->. Qed.

Lemma run_nodes_skip acc (ns : list N) s :
  run_nodes acc ns s =
    run_nodes acc
      (List.filter (fun n => negb (name_in (node_name n) VALID_GROUP_KEYS)) ns) s.
Proof.
  revert acc s. induction ns as [|n ns IH]; intros acc s; [done|].
  cbn [run_nodes List.filter].
  destruct (negb (name_in (node_name n) VALID_GROUP_KEYS)) eqn:Hn;
    [|apply IH].
  cbn [run_nodes]. rewrite Hn, !bind_run.
  destruct (run_single n s) as [[rs|e] s1]; [apply IH|done].
Qed.

End GroupExtras.

(** X16: the members of a group are evaluated as one flat sequence, in
    order: [group_results] is the loop over the entries of all members
    put end to end, and when it returns, it returns one result per
    entry. *)
Theorem group_results_flat {St E N : Type}
    `{H : LogicalCollectionHandler.handler St E N}
    (g : LogicalCollectionHandler.logical_op_group E) (s : St) :
  LogicalCollectionHandler.group_results g s
    = LogicalCollectionHandler.member_results []
        (concat (LogicalCollectionHandler.members g)) s ∧
  ∀ rs s', LogicalCollectionHandler.group_results g s = (Ok rs, s') →
           length rs = length (concat (LogicalCollectionHandler.members g)).
Proof.
  assert (Hflat : LogicalCollectionHandler.group_results g s
    = LogicalCollectionHandler.member_results []
        (concat (LogicalCollectionHandler.members g)) s)
    by apply members_results_concat.
  split; [exact Hflat|].
  intros rs s' Hrs. rewrite Hflat in Hrs.
  by apply member_results_length in Hrs.
Qed.

Lemma group_results_flat_witness :
  LogicalCollectionHandler.group_results
    {| LogicalCollectionHandler._override_name := "and";
       LogicalCollectionHandler.members := [[true; false]; []; [true]] |} ()
  = (Ok [VBool true; VBool false; VBool true], ()) ∧
  length [VBool true; VBool false; VBool true]
  = length (concat [[true; false]; []; [true]]).
Proof.
  split; [reflexivity|].
  apply (group_results_flat
           {| LogicalCollectionHandler._override_name := "and";
              LogicalCollectionHandler.members := [[true; false]; []; [true]] |}
           ()) with (s' := ()).
  reflexivity.
Defined.

(** X17: a group under the [xor] key has no combinator: the group raises
    the unknown-operator error before any of its members is evaluated,
    and a tree that holds such a group returns no verdict. *)
Theorem xor_group_raises {St E N : Type}
    `{H : LogicalCollectionHandler.handler St E N}
    (level : list (LogicalCollectionHandler.item E N))
    (it : LogicalCollectionHandler.item E N)
    (g : LogicalCollectionHandler.logical_op_group E) (s : St) :
  it ∈ level →
  LogicalCollectionHandler.op_group it "xor" = Some g →
  LogicalCollectionHandler._override_name g = "xor" →
  LogicalCollectionHandler.run_logical_op_group g s
    = (Raise (unknown_operator "xor"), s) ∧
  ∃ e s', LogicalCollectionHandler.run_collection level s = (Raise e, s').
Proof.
  intros Hit Hg Hname. split; [by apply run_group_xor|].
  unfold LogicalCollectionHandler.run_collection,
    LogicalCollectionHandler.run_level. rewrite bind_run.
  destruct (run_items_raises level it Hit) with (acc := @nil value) (s := s)
    as (e & s' & ->); [|eauto].
  intros s0. apply (run_ops_raises it _ "xor" g); [|done|].
  - apply list_elem_of_In. cbn. tauto.
  - intros s1. eexists. by apply run_group_xor.
Qed.

Lemma xor_group_raises_witness :
  LogicalCollectionHandler.run_logical_op_group
    (Samples.group "xor" [true; false]) ()
  = (Raise (unknown_operator "xor"), ()) ∧
  ∃ e s', LogicalCollectionHandler.run_collection
            [Samples.node_of [("and", Samples.group "and" [true]);
                              ("xor", Samples.group "xor" [true; false])]] ()
          = (Raise e, s').
Proof.
  apply (xor_group_raises
           [Samples.node_of [("and", Samples.group "and" [true]);
                             ("xor", Samples.group "xor" [true; false])]]
           (Samples.node_of [("and", Samples.group "and" [true]);
                             ("xor", Samples.group "xor" [true; false])])
           (Samples.group "xor" [true; false]) ()); try reflexivity.
  apply list_elem_of_In. left. reflexivity.
Defined.

(** X18: over the same members, [not] evaluates as [nand] does, [nand]
    to the negation of [and] and [nor] to the negation of [or], with the
    same effects and the same errors. *)
Theorem group_negations {St E N : Type}
    `{H : LogicalCollectionHandler.handler St E N}
    (g1 g2 : LogicalCollectionHandler.logical_op_group E) (s : St) :
  LogicalCollectionHandler.members g1 = LogicalCollectionHandler.members g2 →
  let name1 := LogicalCollectionHandler._override_name g1 in
  let name2 := LogicalCollectionHandler._override_name g2 in
  (name1 = "nand" → name2 = "not" →
   LogicalCollectionHandler.run_logical_op_group g2 s
   = LogicalCollectionHandler.run_logical_op_group g1 s) ∧
  (name1 = "and" → name2 = "nand" →
   LogicalCollectionHandler.run_logical_op_group g2 s
   = (b ← LogicalCollectionHandler.run_logical_op_group g1; mret (negb b)) s) ∧
  (name1 = "or" → name2 = "nor" →
   LogicalCollectionHandler.run_logical_op_group g2 s
   = (b ← LogicalCollectionHandler.run_logical_op_group g1; mret (negb b)) s).
Proof.
  intros Hm name1 name2. subst name1 name2.
  assert (Hg : LogicalCollectionHandler.group_results g2
               = LogicalCollectionHandler.group_results g1).
  { unfold LogicalCollectionHandler.group_results. by rewrite Hm. }
  unfold LogicalCollectionHandler.run_logical_op_group. rewrite Hg.
  repeat split.
  - intros -> ->. reflexivity.
  - intros -> ->. cbn. rewrite !bind_run.
    by destruct (LogicalCollectionHandler.group_results g1 s) as [[rs|e] s1].
  - intros -> ->. cbn. rewrite !bind_run.
    by destruct (LogicalCollectionHandler.group_results g1 s) as [[rs|e] s1].
Qed.

Lemma group_negations_witness :
  LogicalCollectionHandler.run_logical_op_group
    (Samples.group "not" [true; false]) ()
  = LogicalCollectionHandler.run_logical_op_group
      (Samples.group "nand" [true; false]) () ∧
  LogicalCollectionHandler.run_logical_op_group
    (Samples.group "nor" [false; false]) () = (Ok true, ()).
Proof.
  destruct (group_negations (Samples.group "nand" [true; false])
              (Samples.group "not" [true; false]) () eq_refl) as (H1 & _).
  destruct (group_negations (Samples.group "or" [false; false])
              (Samples.group "nor" [false; false]) () eq_refl) as (_ & _ & H3).
  split; [by apply H1|]. rewrite H3 by reflexivity. reflexivity.
Defined.

(** X19: a child of a node that bears one of the six operator names is
    never handed to [run_single]: the loop over the children behaves as on
    the children with other names alone, and a level without groups whose
    children all bear operator names (an empty level among them) makes the
    collection true. *)
Theorem operator_named_children_skipped {St E N : Type}
    `{H : LogicalCollectionHandler.handler St E N}
    (acc : list value) (ns : list N)
    (level : list (LogicalCollectionHandler.item E N)) (s : St) :
  LogicalCollectionHandler.run_nodes acc ns s
    = LogicalCollectionHandler.run_nodes acc
        (List.filter
           (fun n => negb (LogicalCollectionHandler.name_in
                             (LogicalCollectionHandler.node_name n)
                             LogicalCollectionHandler.VALID_GROUP_KEYS)) ns) s ∧
  ((∀ it, it ∈ level →
      (∀ op, LogicalCollectionHandler.op_group it op = None) ∧
      (∀ n, n ∈ LogicalCollectionHandler.nodes it →
            LogicalCollectionHandler.name_in
              (LogicalCollectionHandler.node_name n)
              LogicalCollectionHandler.VALID_GROUP_KEYS = true)) →
   LogicalCollectionHandler.run_collection level s = (Ok true, s)).
Proof.
  split; [apply run_nodes_skip|].
  intros Hlevel.
  assert (Hops : ∀ it ops a s0,
    (∀ op, LogicalCollectionHandler.op_group it op = None) →
    LogicalCollectionHandler.run_ops a it ops s0 = (Ok a, s0)).
  { intros it ops a s0 Hno. induction ops as [|op ops IH]; [done|].
    cbn [LogicalCollectionHandler.run_ops]. by rewrite Hno. }
  assert (Hnodes : ∀ l a s0,
    (∀ n, n ∈ l →
          LogicalCollectionHandler.name_in
            (LogicalCollectionHandler.node_name n)
            LogicalCollectionHandler.VALID_GROUP_KEYS = true) →
    LogicalCollectionHandler.run_nodes a l s0 = (Ok a, s0)).
  { intros l a s0. induction l as [|n l IH]; [done|]. intros Hl.
    cbn [LogicalCollectionHandler.run_nodes].
    rewrite (Hl n) by apply list_elem_of_here. cbn [negb].
    apply IH. intros n' Hn'. apply Hl. by apply list_elem_of_further. }
  assert (Hitems : LogicalCollectionHandler.run_items [] level s = (Ok [], s)).
  { induction level as [|it level IH]; [done|].
    cbn [LogicalCollectionHandler.run_items].
    destruct (Hlevel it) as [Hno Hnames]; [apply list_elem_of_here|].
    rewrite bind_run. unfold LogicalCollectionHandler.run_op_groups.
    rewrite (Hops it _ [] s Hno), bind_run.
    rewrite (Hnodes _ ([] ++ [])%list s Hnames).
    apply IH. intros it' Hit'. apply Hlevel. by apply list_elem_of_further. }
  unfold LogicalCollectionHandler.run_collection,
    LogicalCollectionHandler.run_level.
  by rewrite bind_run, Hitems.
Qed.

Lemma operator_named_children_skipped_witness :
  LogicalCollectionHandler.run_nodes []
    [("and", false); ("leaf", true); ("not", false)] ()
    = (Ok [VBool true], ()) ∧
  LogicalCollectionHandler.run_collection
    [Samples2.children [("and", false); ("xor", false)]] () = (Ok true, ()).
Proof.
  destruct (operator_named_children_skipped []
              [("and", false); ("leaf", true); ("not", false)]
              [Samples2.children [("and", false); ("xor", false)]] ())
    as [H1 H2].
  split; [rewrite H1; reflexivity|].
  apply H2. intros it Hit. apply list_elem_of_In in Hit.
  destruct Hit as [<-|[]]. split; [reflexivity|].
  intros n Hn. apply list_elem_of_In in Hn.
  destruct Hn as [<-|[<-|[]]]; reflexivity.
Defined.

(** ** The openvswitch summary *)

Section SummaryFacts.
Import Notions2 OpenvSwitchSummary.
Implicit Types (py : python) (b : bridge) (bs : list bridge)
  (ps : list port) (acc : list value) (m : gmap string value).

Lemma list_ports_filter acc ps :
  list_ports acc ps =
    (acc ++ List.map shown
              (List.filter (fun p => negb (skipped (port_name p))) ps))%list.
Proof.
  revert acc. induction ps as [|p ps IH]; intros acc.
  - cbn. by rewrite app_nil_r.
  - cbn [list_ports List.filter]. destruct (skipped (port_name p)); cbn [negb].
    + apply IH.
    + destruct p; rewrite IH; cbn [List.map shown port_name];
        by rewrite <- app_assoc.
Qed.

Lemma list_bridges_app py m bs1 bs2 :
  list_bridges py m (bs1 ++ bs2) = list_bridges py (list_bridges py m bs1) bs2.
Proof.
  revert m. induction bs1 as [|b bs1 IH]; intros m; [done|].
  cbn [app list_bridges]. apply IH.
Qed.

Lemma list_bridges_other py m bs k :
  k ∉ List.map name bs → list_bridges py m bs !! k = m !! k.
Proof.
  revert m. induction bs as [|b bs IH]; intros m Hk; [done|].
  cbn [list_bridges]. rewrite IH.
  - apply lookup_insert_ne. intros <-. apply Hk. apply list_elem_of_here.
  - intros Hin. apply Hk. by apply list_elem_of_further.
Qed.

Lemma list_bridges_dom py m bs :
  dom (list_bridges py m bs) = dom m ∪ list_to_set (List.map name bs).
Proof.
  revert m. induction bs as [|b bs IH]; intros m.
  - cbn. by rewrite (right_id_L ∅ (∪)).
  - cbn [list_bridges List.map list_to_set]. rewrite IH, dom_insert_L.
    by rewrite (comm_L (∪) {[name b]} (dom m)), (assoc_L (∪)).
Qed.

End SummaryFacts.

(** X20: the ports listed for a bridge are its ports whose name starts
    neither with [patch-] nor with [phy-] nor with [int-], in their
    order: an ovs port by its name, a NetworkPort by its dict; so no more
    ports are listed than the bridge has. *)
Theorem listed_ports (ps : list OpenvSwitchSummary.port) :
  OpenvSwitchSummary.list_ports [] ps
    = List.map Notions2.shown
        (List.filter
           (fun p => negb (OpenvSwitchSummary.skipped
                             (OpenvSwitchSummary.port_name p))) ps) ∧
  (length (OpenvSwitchSummary.list_ports [] ps) ≤ length ps)%nat.
Proof.
  assert (Hl : OpenvSwitchSummary.list_ports [] ps
    = List.map Notions2.shown
        (List.filter
           (fun p => negb (OpenvSwitchSummary.skipped
                             (OpenvSwitchSummary.port_name p))) ps))
    by apply list_ports_filter.
  split; [exact Hl|].
  rewrite Hl, length_map. apply List.filter_length_le.
Qed.

(** X21: the bridge [br-int] never shows its ports: when at least one of
    them is listed, the entry is the one text ["(<n> ports)"] with their
    number, and it is empty otherwise; every other bridge shows its listed
    ports as they are. *)
Theorem br_int_counted (py : python) (b : OpenvSwitchSummary.bridge) :
  let listed := OpenvSwitchSummary.list_ports [] (OpenvSwitchSummary.ports b) in
  (OpenvSwitchSummary.name b = "br-int" →
   OpenvSwitchSummary.bridge_ports py b
   = match listed with
     | [] => []
     | _ => [VStr ("(" ++ str_ py (VInt (Z.of_nat (length listed)))
                   ++ " ports)")]
     end) ∧
  (OpenvSwitchSummary.name b ≠ "br-int" →
   OpenvSwitchSummary.bridge_ports py b = listed).
Proof.
  intros listed. unfold OpenvSwitchSummary.bridge_ports. fold listed. split.
  - intros ->. cbn. by destruct listed.
  - intros Hne. apply String.eqb_neq in Hne. by rewrite Hne.
Qed.

Lemma br_int_counted_witness :
  OpenvSwitchSummary.bridge_ports Samples.py0 Samples2.br_int
    = [VStr "(<object> ports)"] ∧
  OpenvSwitchSummary.bridge_ports Samples.py0 Samples2.br_ex
    = [VDict {[ "name" := VStr "eth0" ]}].
Proof.
  destruct (br_int_counted Samples.py0 Samples2.br_int) as [H1 _].
  destruct (br_int_counted Samples.py0 Samples2.br_ex) as [_ H2].
  split; [apply H1; reflexivity | apply H2; discriminate].
Defined.

(** X22: [__summary_bridges] is its body decorated with [idx(3)], and
    what the body hands to the decorator is None exactly when there is no
    bridge; otherwise it is a dict whose keys are the names of the
    bridges, and under each name stands the entry of the last bridge of
    that name. *)
Theorem bridges_summary (idx : OpenvSwitchSummary.decorator) (py : python)
    (self : OpenvSwitchSummary.t) :
  OpenvSwitchSummary.__summary_bridges idx py self
    = idx 3%Z (OpenvSwitchSummary.__summary_bridges_body py) self ∧
  (OpenvSwitchSummary.__summary_bridges_body py self = VNone ↔
   OpenvSwitchSummary.bridges self = []) ∧
  (OpenvSwitchSummary.bridges self ≠ [] →
   ∃ m, OpenvSwitchSummary.__summary_bridges_body py self = VDict m ∧
        dom m = list_to_set
                  (List.map OpenvSwitchSummary.name
                     (OpenvSwitchSummary.bridges self)) ∧
        ∀ pre b post,
          OpenvSwitchSummary.bridges self = (pre ++ b :: post)%list →
          OpenvSwitchSummary.name b ∉ List.map OpenvSwitchSummary.name post →
          m !! OpenvSwitchSummary.name b
          = Some (VList (OpenvSwitchSummary.bridge_ports py b))).
Proof.
  split; [reflexivity|].
  unfold OpenvSwitchSummary.__summary_bridges_body.
  set (m := OpenvSwitchSummary.list_bridges py ∅
              (OpenvSwitchSummary.bridges self)).
  assert (Hdom : dom m = list_to_set
                   (List.map OpenvSwitchSummary.name
                      (OpenvSwitchSummary.bridges self))).
  { subst m. rewrite list_bridges_dom, dom_empty_L.
    by rewrite (left_id_L ∅ (∪)). }
  assert (Hne : OpenvSwitchSummary.bridges self ≠ [] → m ≠ ∅).
  { intros Hbs Hm.
    destruct (OpenvSwitchSummary.bridges self) as [|b bs]; [done|].
    assert (Hin : OpenvSwitchSummary.name b ∈ dom m).
    { rewrite Hdom. cbn [List.map list_to_set].
      apply elem_of_union_l. by apply elem_of_singleton. }
    rewrite Hm, dom_empty_L in Hin. by apply not_elem_of_empty in Hin. }
  split.
  - split.
    + intros Hnone. destruct (OpenvSwitchSummary.bridges self) as [|b bs];
        [done|].
      rewrite truthy_dict_true in Hnone by (apply Hne; done). discriminate.
    + intros Hbs. subst m. by rewrite Hbs.
  - intros Hbs. exists m. rewrite truthy_dict_true by auto.
    split; [done|]. split; [exact Hdom|].
    intros pre b post Heq Hlast. subst m. rewrite Heq.
    rewrite list_bridges_app. cbn [OpenvSwitchSummary.list_bridges].
    rewrite list_bridges_other by done. apply lookup_insert_eq.
Qed.

Lemma bridges_summary_witness :
  OpenvSwitchSummary.__summary_bridges_body Samples.py0 (Samples2.ovs [])
    = VNone ∧
  ∃ m, OpenvSwitchSummary.__summary_bridges_body Samples.py0
         (Samples2.ovs [Samples2.br_int; Samples2.br_ex]) = VDict m ∧
       m !! "br-ex" = Some (VList [VDict {[ "name" := VStr "eth0" ]}]).
Proof.
  destruct (bridges_summary (fun _ f => f) Samples.py0 (Samples2.ovs []))
    as (_ & [_ H0] & _).
  destruct (bridges_summary (fun _ f => f) Samples.py0
              (Samples2.ovs [Samples2.br_int; Samples2.br_ex]))
    as (_ & _ & H1).
  split; [apply H0; reflexivity|].
  destruct H1 as (m & Hm & _ & Hlast); [discriminate|].
  exists m. split; [exact Hm|].
  apply (Hlast [Samples2.br_int] Samples2.br_ex []); [reflexivity|].
  intros Hin. by apply elem_of_nil in Hin.
Defined.

(** X23: [__summary_config] is its body decorated with [idx(2)], and
    what the body hands to the decorator is None exactly when offload is
    off and both ovsdb configs are empty; otherwise it is a dict that says
    [offload: enabled] exactly when offload is on and that holds
    [other-config] and [external-ids] as they are exactly when they are
    not empty, and nothing else. *)
Theorem config_summary (idx : OpenvSwitchSummary.decorator)
    (self : OpenvSwitchSummary.t) :
  let offload := OpenvSwitchSummary.offload_enabled self in
  let other := OpenvSwitchSummary.ovsdb_other_config self in
  let ids := OpenvSwitchSummary.ovsdb_external_ids self in
  OpenvSwitchSummary.__summary_config idx self
    = idx 2%Z OpenvSwitchSummary.__summary_config_body self ∧
  (OpenvSwitchSummary.__summary_config_body self = VNone ↔
   truthy offload = false ∧ truthy other = false ∧ truthy ids = false) ∧
  (∀ m, OpenvSwitchSummary.__summary_config_body self = VDict m →
        m !! "offload" = (if truthy offload then Some (VStr "enabled") else None) ∧
        m !! "other-config" = (if truthy other then Some other else None) ∧
        m !! "external-ids" = (if truthy ids then Some ids else None) ∧
        ∀ k, k ≠ "offload" → k ≠ "other-config" → k ≠ "external-ids" →
             m !! k = None).
Proof.
  intros offload other ids. split; [reflexivity|].
  unfold OpenvSwitchSummary.__summary_config_body.
  fold offload other ids. cbv zeta.
  assert (Hdict : ∀ k v (d : gmap string value),
    (if truthy (VDict (<[k := v]> d)) then VDict (<[k := v]> d) else VNone)
    = VDict (<[k := v]> d)) by (intros; by rewrite truthy_dict_insert).
  destruct (truthy offload), (truthy other), (truthy ids);
    rewrite ?Hdict;
    try (split;
         [split; [intros Hx; discriminate Hx | intros (? & ? & ?); discriminate]
         |intros m Hm; injection Hm as <-;
          repeat split; try (intros k ? ? ?); by simplify_map_eq]).
  change (truthy (VDict ∅)) with false. cbv iota.
  split; [by repeat split|]. intros m Hm. discriminate Hm.
Qed.

Lemma config_summary_witness :
  OpenvSwitchSummary.__summary_config_body (Samples2.ovs [])
    = VDict {[ "offload" := VStr "enabled" ]} ∧
  ({[ "offload" := VStr "enabled" ]} : gmap string value) !! "other-config"
    = None.
Proof.
  destruct (config_summary (fun _ f => f) (Samples2.ovs [])) as (_ & _ & Hm).
  destruct (Hm {[ "offload" := VStr "enabled" ]} eq_refl) as (_ & H2 & _).
  split; [reflexivity | exact H2].
Defined.

(** X24: the cache fields of a variable reference: a reference that
    starts with [$] has no check name and no cache key (asking for either
    raises), and its property name is None. *)
Theorem variable_ref_fields (rest : string)
    (vars : option (string → result value))
    (checks : option (gmap string PropertyCacheRefResolver.check)) :
  let self := PropertyCacheRefResolver.mk ("$" ++ rest) vars checks in
  PropertyCacheRefResolver.reftype self = Ok "variable" ∧
  PropertyCacheRefResolver.check_name self
    = Raise (Exc Exception "ref does not have type 'checks'") ∧
  PropertyCacheRefResolver.property_name self = Ok None ∧
  PropertyCacheRefResolver.property_cache_key self
    = Raise (Exc Exception "not a check reftype") ∧
  PropertyCacheRefResolver._ref_body self = Ok rest.
Proof.
  intros self.
  assert (Hrt : PropertyCacheRefResolver.reftype self = Ok "variable")
    by apply variable_ref_reftype.
  unfold PropertyCacheRefResolver.check_name,
    PropertyCacheRefResolver.property_name,
    PropertyCacheRefResolver.property_cache_key,
    PropertyCacheRefResolver._ref_body.
  rewrite Hrt, !bind_Ok.
  change (String.eqb "variable" "checks") with false.
  change (String.eqb "variable" "variable") with true.
  repeat split.
  cbn [negb]. rewrite bind_Ok. subst self. cbn [PropertyCacheRefResolver.refstr].
  by rewrite partition_prefix.
Qed.
